(** * oxchief-client: mission paging engine and gyration monitor

    A shallow embedding of the parts of [waypoint_wizard.py], [robot_state.py],
    [flight_controller.py], [util.py] and [eternal_process.py] that page an
    arbitrarily long mission through the flight controller and watch the
    heading for gyration; with them the joystick conversions, four more
    monitors of [eternal_process.py] and the navigation messages of
    [message_processor.py].

    Modelling conventions.
    - Python [int] is [Z]; Python [float] is an exact rational [Q].  The
      float operations whose result depends on binary rounding or on an
      external package ([round], [str] of a float, [haversine.haversine],
      the pymavlink waypoint loader) are fields of the class [External].
    - The module-level variables of [robot_state.py], the wall clock and the
      commands sent to collaborators form one record [world]; every [async]
      function is a computation in the monad [M], which threads the world
      and propagates Python exceptions.  One call runs without interleaving
      of other tasks: [asyncio.sleep d] only advances the clock by [d].
    - Lists are immutable values.  The source shares waypoint dictionaries
      between [waypoints_in_mission] and [waypoints_in_autopilot] but never
      mutates a dictionary, and every slice is taken from a [.copy()]. *)

From Stdlib Require Import ZArith List Lia Bool String Ascii.
From Stdlib Require Import QArith Qabs Qround DecimalString Lqa.
Import ListNotations.

Local Open Scope Z_scope.

(** ** Python list operations *)

Module PyList.

Section Ops.
Context {A : Type}.

(** [len(l)] *)
Definition len (l : list A) : Z := Z.of_nat (List.length l).

(** One bound of [l[a:b]], as [slice.indices] computes it for step 1:
    a negative bound counts from the end, and every bound is clipped to
    [0..len]. *)
Definition clamp (n i : Z) : Z :=
  if i <? 0 then Z.max 0 (i + n) else Z.min i n.

(** [l[a:b]] *)
Definition slice (l : list A) (a b : Z) : list A :=
  let lo := clamp (len l) a in
  let hi := clamp (len l) b in
  firstn (Z.to_nat (hi - lo)) (skipn (Z.to_nat lo) l).

(** [l[i]]; [None] is Python's IndexError. *)
Definition index (l : list A) (i : Z) : option A :=
  let j := if i <? 0 then i + len l else i in
  if (0 <=? j) && (j <? len l) then nth_error l (Z.to_nat j) else None.

(** [l.insert(0, x)] *)
Definition insert0 (x : A) (l : list A) : list A := x :: l.

(** The truth value of a list: [bool(l)]. *)
Definition truthy (l : list A) : bool :=
  match l with [] => false | _ :: _ => true end.

End Ops.

End PyList.

(** ** Strings and numbers *)

Module PyStr.

Local Open Scope string_scope.

Definition tab : string := String (ascii_of_nat 9) EmptyString.
Definition newline : string := String (ascii_of_nat 10) EmptyString.

(** [str(n)] for an [int]. *)
Definition str_int (n : Z) : string := NilZero.string_of_int (Z.to_int n).

Definition upper_ascii (c : ascii) : ascii :=
  let n := nat_of_ascii c in
  if (97 <=? n)%nat && (n <=? 122)%nat then ascii_of_nat (n - 32) else c.

(** [s.upper()] on ASCII text. *)
Fixpoint upper (s : string) : string :=
  match s with
  | EmptyString => EmptyString
  | String c s' => String (upper_ascii c) (upper s')
  end.

End PyStr.

Module PyNum.

Local Open Scope Q_scope.

(** [a < b] on floats. *)
Definition ltb (a b : Q) : bool := negb (Qle_bool b a).

(** [max(a, b)]: the first argument unless the second is larger. *)
Definition max (a b : Q) : Q := if ltb a b then b else a.

(** [x % m] for a positive modulus: the result lies in [0, m). *)
Definition mod_ (x m : Q) : Q := x - m * inject_Z (Qfloor (x / m)).

End PyNum.

(** ** constants.py *)

Module Constants.

Definition WAYPOINT_LOAD_COUNT_INITIAL : Z := 100.
Definition WAYPOINT_LOAD_COUNT_SUBSEQUENT : Z := 250.
Definition GYRATING_CHECK_MIN_DISTANCE_FROM_WAYPOINT_TO_RUN_THIS_CHECK_IN_METERS : Q := 10.
Definition GYRATING_CHECK_MAX_ALLOWABLE_WOBBLE_IN_DEGREES : Q := 15.
Definition GYRATING_CHECK_MIN_TIME_BETWEEN_RESETS_IN_SECONDS : Q := 45.

End Constants.

Module AutopilotMode.

Definition MODE_MANUAL : Z := 0.
Definition MODE_HOLD : Z := 4.
Definition MODE_AUTO : Z := 10.
Definition MODE_INITIALISING : Z := 16.

End AutopilotMode.

(** ** Data model *)

(** A waypoint dictionary [{'lat': .., 'lng': ..}]. *)
Record waypoint : Type := mk_waypoint { lat : Q; lng : Q }.

(** The MAVLink messages the paging engine and the monitor read. *)
Module HEARTBEAT.
Record t : Type := mk { system_status : Z; custom_mode : Z }.
End HEARTBEAT.

Module GLOBAL_POSITION_INT.
Record t : Type := mk { lat : Z; lon : Z; hdg : Z }.
End GLOBAL_POSITION_INT.

Module MISSION_CURRENT.
Record t : Type := mk { seq : Z }.
End MISSION_CURRENT.

(** [robot_state.autopilot_data], a [defaultdict(lambda: False)]: a kind that
    was never received reads as [False], here [None]; a received message is
    a truthy object. *)
Record telemetry : Type := mk_telemetry {
  heartbeat : option HEARTBEAT.t;
  global_position_int : option GLOBAL_POSITION_INT.t;
  mission_current : option MISSION_CURRENT.t
}.

(** What the program sends to its collaborators, in program order. *)
Inductive event : Type :=
| EvDisarm                                   (* mutil.arducopter_disarm() *)
| EvArm                                      (* mutil.arducopter_arm() *)
| EvSetModeSend (mode_string : string)       (* mutil.mav.set_mode_send(..) *)
| EvWaypointSetCurrentSend (num : Z)         (* mutil.waypoint_set_current_send(num) *)
| EvSaveMissionInfo (in_autopilot in_mission : list waypoint)
                    (number_end number_start : Z)
                                             (* local_storage.save_mission_info_to_db() *)
| EvWriteWaypointsFile (content : string)    (* the temp/waypoints_*.txt file *)
| EvWaypointClearAllSend                     (* mutil.waypoint_clear_all_send() *)
| EvWaypointCountSend (count : Z)            (* mutil.waypoint_count_send(count) *)
| EvMissionItemsSent (count : Z)             (* the MISSION_REQUEST / send loop *)
| EvRobotLog (log level : string)            (* network.robot_log(log, level) *)
| EvLoggingError (message : string).         (* logging.error(..) *)

(** [robot_state.py]'s module variables, the clock and the event trace. *)
Record world : Type := mk_world {
  autopilot_data : telemetry;
  waypoints_in_autopilot : list waypoint;
  waypoints_in_mission : list waypoint;
  last_autopilot_loaded_waypoint_number_end : Z;
  last_autopilot_loaded_waypoint_number_start : Z;
  time_last_stop_start : Q;
  manual_mode_via_client_ui_joystick : bool;
  clock : Q;
  trace : list event
}.

Definition set_autopilot_data (v : telemetry) (w : world) : world :=
  mk_world v (waypoints_in_autopilot w) (waypoints_in_mission w)
    (last_autopilot_loaded_waypoint_number_end w)
    (last_autopilot_loaded_waypoint_number_start w)
    (time_last_stop_start w) (manual_mode_via_client_ui_joystick w)
    (clock w) (trace w).

Definition set_waypoints_in_autopilot (v : list waypoint) (w : world) : world :=
  mk_world (autopilot_data w) v (waypoints_in_mission w)
    (last_autopilot_loaded_waypoint_number_end w)
    (last_autopilot_loaded_waypoint_number_start w)
    (time_last_stop_start w) (manual_mode_via_client_ui_joystick w)
    (clock w) (trace w).

Definition set_waypoints_in_mission (v : list waypoint) (w : world) : world :=
  mk_world (autopilot_data w) (waypoints_in_autopilot w) v
    (last_autopilot_loaded_waypoint_number_end w)
    (last_autopilot_loaded_waypoint_number_start w)
    (time_last_stop_start w) (manual_mode_via_client_ui_joystick w)
    (clock w) (trace w).

Definition set_number_end (v : Z) (w : world) : world :=
  mk_world (autopilot_data w) (waypoints_in_autopilot w) (waypoints_in_mission w)
    v (last_autopilot_loaded_waypoint_number_start w)
    (time_last_stop_start w) (manual_mode_via_client_ui_joystick w)
    (clock w) (trace w).

Definition set_number_start (v : Z) (w : world) : world :=
  mk_world (autopilot_data w) (waypoints_in_autopilot w) (waypoints_in_mission w)
    (last_autopilot_loaded_waypoint_number_end w) v
    (time_last_stop_start w) (manual_mode_via_client_ui_joystick w)
    (clock w) (trace w).

Definition set_time_last_stop_start (v : Q) (w : world) : world :=
  mk_world (autopilot_data w) (waypoints_in_autopilot w) (waypoints_in_mission w)
    (last_autopilot_loaded_waypoint_number_end w)
    (last_autopilot_loaded_waypoint_number_start w)
    v (manual_mode_via_client_ui_joystick w) (clock w) (trace w).

Definition set_manual_mode (v : bool) (w : world) : world :=
  mk_world (autopilot_data w) (waypoints_in_autopilot w) (waypoints_in_mission w)
    (last_autopilot_loaded_waypoint_number_end w)
    (last_autopilot_loaded_waypoint_number_start w)
    (time_last_stop_start w) v (clock w) (trace w).

Definition set_clock (v : Q) (w : world) : world :=
  mk_world (autopilot_data w) (waypoints_in_autopilot w) (waypoints_in_mission w)
    (last_autopilot_loaded_waypoint_number_end w)
    (last_autopilot_loaded_waypoint_number_start w)
    (time_last_stop_start w) (manual_mode_via_client_ui_joystick w)
    v (trace w).

Definition set_trace (v : list event) (w : world) : world :=
  mk_world (autopilot_data w) (waypoints_in_autopilot w) (waypoints_in_mission w)
    (last_autopilot_loaded_waypoint_number_end w)
    (last_autopilot_loaded_waypoint_number_start w)
    (time_last_stop_start w) (manual_mode_via_client_ui_joystick w)
    (clock w) v.

(** The module as it is right after import, at time [t0]. *)
Definition initial_world (t0 : Q) : world :=
  mk_world (mk_telemetry None None None) [] [] (-1) (-1) t0 false t0 [].

(** The four variables the paging engine owns. *)
Definition paging_state (w : world) : list waypoint * list waypoint * Z * Z :=
  (waypoints_in_mission w, waypoints_in_autopilot w,
   last_autopilot_loaded_waypoint_number_start w,
   last_autopilot_loaded_waypoint_number_end w).

(** ** The monad of [async] functions *)

Inductive exn : Type := IndexError | AttributeError.

Inductive outcome (A : Type) : Type :=
| Return (a : A) (w : world)
| Raise (e : exn) (w : world).

Arguments Return {A} a w.
Arguments Raise {A} e w.

Definition M (A : Type) : Type := world -> outcome A.

Definition ret {A : Type} (a : A) : M A := fun w => Return a w.

Definition bind {A B : Type} (m : M A) (k : A -> M B) : M B :=
  fun w => match m w with
           | Return a w' => k a w'
           | Raise e w' => Raise e w'
           end.

Notation "x <- c1 ;; c2" := (bind c1 (fun x => c2))
  (at level 61, c1 at next level, right associativity).
Notation "c1 ;; c2" := (bind c1 (fun _ => c2))
  (at level 61, right associativity).

Definition get : M world := fun w => Return w w.
Definition modify (f : world -> world) : M unit := fun w => Return tt (f w).
Definition raise {A : Type} (e : exn) : M A := fun w => Raise e w.
Definition emit (e : event) : M unit :=
  modify (fun w => set_trace (trace w ++ [e]) w).

(** [try: body  except Exception as e: handler(e)] *)
Definition try_except {A : Type} (body : M A) (handler : exn -> M A) : M A :=
  fun w => match body w with
           | Return a w' => Return a w'
           | Raise e w' => handler e w'
           end.

(** [time.time()] *)
Definition time : M Q := fun w => Return (clock w) w.

(** [await asyncio.sleep(d)] *)
Definition sleep (d : Q) : M unit :=
  modify (fun w => set_clock (clock w + d)%Q w).

(** The world an outcome ends in, and the events a run added. *)
Definition world_of {A : Type} (o : outcome A) : world :=
  match o with Return _ w => w | Raise _ w => w end.

Definition events_since {A : Type} (w : world) (o : outcome A) : list event :=
  skipn (List.length (trace w)) (trace (world_of o)).

(** [str(e)] for the two exceptions the model raises. *)
Definition str_exn (e : exn) : string :=
  match e with
  | IndexError => "list index out of range"
  | AttributeError => "'bool' object has no attribute 'hdg'"
  end.

(** ** External operations *)

Class External : Type := {
  (** [round(x, ndigits)] on a float *)
  py_round : Q -> Z -> Q;
  (** [str(x)] on a float *)
  str_float : Q -> string;
  (** [haversine.haversine(loc1, loc2, unit=Unit.METERS)] *)
  haversine : Q * Q -> Q * Q -> Q;
  (** [robot_state.wploader.load(filename)] on a file of the given content:
      the number of waypoints read, [None] when it raises *)
  wploader_load : string -> option Z
}.

(** ** The program *)

Section Program.
Context `{External}.

Local Open Scope string_scope.
Local Open Scope Z_scope.

(** *** robot_state.py *)

Definition end_waypoint_number_of_waypoints_in_autopilot (w : world) : Z :=
  PyList.len (waypoints_in_autopilot w) - 1.

Definition end_waypoint_number_of_complete_mission (w : world) : Z :=
  PyList.len (waypoints_in_mission w) - 1.

(** *** waypoint_wizard.py: the waypoint file *)

Definition build_waypoint_file_first_line : string := "QGC WPL 110".

Definition build_waypoint_file_lat_lng_line (index : Z) (lat lng : Q) : string :=
  PyStr.str_int index
  ++ (PyStr.tab ++ "0" ++ PyStr.tab ++ "3" ++ PyStr.tab ++ "16" ++ PyStr.tab ++ "0"
      ++ PyStr.tab ++ "0" ++ PyStr.tab ++ "0" ++ PyStr.tab ++ "0" ++ PyStr.tab)
  ++ str_float lat ++ PyStr.tab ++ str_float lng
  ++ (PyStr.tab ++ "100.000000" ++ PyStr.tab ++ "1").

(** One turn of the [for waypoint in waypoints] loop, on the pair
    [(mission_string, x)]. *)
Definition build_waypoints_string_step (acc : string * Z) (wp : waypoint)
  : string * Z :=
  let '(mission_string, x) := acc in
  let lat := py_round (lat wp) 8 in
  let lng := py_round (lng wp) 8 in
  (mission_string ++ (build_waypoint_file_lat_lng_line x lat lng ++ PyStr.newline),
   x + 1).

Definition build_waypoints_string_from_mission_waypoints
  (waypoints : list waypoint) : string :=
  fst (fold_left build_waypoints_string_step waypoints
         (build_waypoint_file_first_line ++ PyStr.newline, 0)).

(** *** waypoint_wizard.py: upload *)

Definition load_waypoints_using_mavutil (content : string) : M Z :=
  match wploader_load content with
  | None => ret 0
  | Some waypoints_loaded_count =>
      emit EvWaypointClearAllSend ;;
      if waypoints_loaded_count =? 0 then ret 0
      else
        emit (EvWaypointCountSend waypoints_loaded_count) ;;
        emit (EvMissionItemsSent waypoints_loaded_count) ;;
        ret waypoints_loaded_count
  end.

Definition load_waypoints_into_autopilot : M bool :=
  w <- get ;;
  let big_ardupilot_waypoints_file_string :=
    build_waypoints_string_from_mission_waypoints (waypoints_in_autopilot w) in
  emit (EvWriteWaypointsFile big_ardupilot_waypoints_file_string) ;;
  count <- load_waypoints_using_mavutil big_ardupilot_waypoints_file_string ;;
  ret (count >? 0).

Definition save_mission_info_to_db : M unit :=
  w <- get ;;
  emit (EvSaveMissionInfo (waypoints_in_autopilot w) (waypoints_in_mission w)
          (last_autopilot_loaded_waypoint_number_end w)
          (last_autopilot_loaded_waypoint_number_start w)).

(** *** waypoint_wizard.py: paging *)

Definition more_waypoints_to_load (w : world) : bool :=
  last_autopilot_loaded_waypoint_number_end w
  <? end_waypoint_number_of_complete_mission w.

Definition prior_waypoints_to_load (w : world) : bool :=
  last_autopilot_loaded_waypoint_number_end w
  >? Constants.WAYPOINT_LOAD_COUNT_INITIAL.

Definition load_prior_round_of_waypoints : M Z :=
  w <- get ;;
  if prior_waypoints_to_load w then
    let '(waypoint_start_load, waypoint_end_load, ret_val) :=
      if last_autopilot_loaded_waypoint_number_end w
         <=? Constants.WAYPOINT_LOAD_COUNT_INITIAL
             + Constants.WAYPOINT_LOAD_COUNT_SUBSEQUENT
      then (0, Constants.WAYPOINT_LOAD_COUNT_INITIAL,
            Constants.WAYPOINT_LOAD_COUNT_INITIAL)
      else (last_autopilot_loaded_waypoint_number_start w
              - Constants.WAYPOINT_LOAD_COUNT_SUBSEQUENT - 1,
            last_autopilot_loaded_waypoint_number_start w,
            Constants.WAYPOINT_LOAD_COUNT_SUBSEQUENT) in
    modify (set_waypoints_in_autopilot
              (PyList.slice (waypoints_in_mission w)
                 waypoint_start_load (waypoint_end_load + 1))) ;;
    modify (set_number_start waypoint_start_load) ;;
    modify (set_number_end waypoint_end_load) ;;
    save_mission_info_to_db ;;
    _ <- load_waypoints_into_autopilot ;;
    ret ret_val
  else ret (-1).

Definition load_next_round_of_waypoints : M bool :=
  w <- get ;;
  if more_waypoints_to_load w then
    let next_waypoint_start := last_autopilot_loaded_waypoint_number_end w in
    let next_waypoint_end :=
      next_waypoint_start + Constants.WAYPOINT_LOAD_COUNT_SUBSEQUENT in
    let next_waypoint_end :=
      if next_waypoint_end >? PyList.len (waypoints_in_mission w)
      then PyList.len (waypoints_in_mission w) else next_waypoint_end in
    let page := PyList.slice (waypoints_in_mission w)
                  next_waypoint_start (next_waypoint_end + 1) in
    modify (set_waypoints_in_autopilot page) ;;
    match PyList.index page 0 with
    | None => raise IndexError
    | Some home =>
        modify (set_waypoints_in_autopilot (PyList.insert0 home page)) ;;
        modify (set_number_start next_waypoint_start) ;;
        modify (set_number_end next_waypoint_end) ;;
        save_mission_info_to_db ;;
        load_waypoints_into_autopilot
    end
  else ret false.

(** One turn of the [for waypoint in waypoints] loop of
    [load_mission_data_from_mission_waypoints], on the pair
    [(first, waypoints_in_mission)]. *)
Definition load_mission_step (acc : bool * list waypoint) (wp0 : waypoint)
  : bool * list waypoint :=
  let '(first, mission) := acc in
  let wp := mk_waypoint (py_round (lat wp0) 8) (py_round (lng wp0) 8) in
  if first then (false, (mission ++ [wp]) ++ [wp])%list
  else (first, (mission ++ [wp])%list).

Definition load_mission_data_from_mission_waypoints
  (waypoints : list waypoint) : M bool :=
  modify (set_waypoints_in_mission []) ;;
  modify (fun w => set_waypoints_in_mission
            (snd (fold_left load_mission_step waypoints
                    (true, waypoints_in_mission w))) w) ;;
  w <- get ;;
  modify (set_waypoints_in_autopilot
            (PyList.slice (waypoints_in_mission w)
               0 (Constants.WAYPOINT_LOAD_COUNT_INITIAL + 1))) ;;
  modify (set_number_start 1) ;;
  modify (set_number_end Constants.WAYPOINT_LOAD_COUNT_INITIAL) ;;
  save_mission_info_to_db ;;
  load_waypoints_into_autopilot.

(** The run the coverage property is about, which no function of the source
    performs in one go: [load_next_round_of_waypoints] again and again
    while [more_waypoints_to_load()].  It yields the worlds after each
    page, and [None] when the fuel runs out or a call raises. *)
Fixpoint load_remaining_pages (fuel : nat) (w : world) : option (list world) :=
  if more_waypoints_to_load w then
    match fuel with
    | O => None
    | S fuel' =>
        match load_next_round_of_waypoints w with
        | Return _ w' => option_map (cons w') (load_remaining_pages fuel' w')
        | Raise _ _ => None
        end
    end
  else Some [].

(** *** flight_controller.py *)

Definition get_flight_mode (w : world) : Z :=
  match heartbeat (autopilot_data w) with
  | Some hb =>
      if negb (HEARTBEAT.system_status hb =? 0) then HEARTBEAT.custom_mode hb
      else -1
  | None => -1
  end.

(** [None] is the [False] the source returns for an unknown mode. *)
Definition get_flight_mode_as_string (w : world) : option string :=
  let mode := get_flight_mode w in
  if mode =? -1 then None
  else if mode =? AutopilotMode.MODE_AUTO then Some "auto"
  else if mode =? AutopilotMode.MODE_MANUAL then Some "manual"
  else if mode =? AutopilotMode.MODE_HOLD then Some "hold"
  else if mode =? AutopilotMode.MODE_INITIALISING then Some "initialising"
  else Some ("unknown mode: " ++ PyStr.str_int mode).

(** [get_flight_mode_as_string() == "auto"] *)
Definition flight_mode_is_auto (w : world) : bool :=
  match get_flight_mode_as_string w with
  | Some s => String.eqb s "auto"
  | None => false
  end.

Definition set_mode (mode_string : string) : M unit :=
  modify (set_manual_mode (String.eqb (PyStr.upper mode_string) "MANUAL")) ;;
  emit (EvSetModeSend mode_string).

Definition hold : M unit :=
  now <- time ;;
  modify (set_time_last_stop_start now) ;;
  emit EvDisarm ;;
  set_mode "HOLD" ;;
  sleep (1 # 10) ;;
  set_mode "HOLD".

Definition hold_keep_wp : M unit :=
  w <- get ;;
  let current_waypoint :=
    match mission_current (autopilot_data w) with
    | Some mc => MISSION_CURRENT.seq mc
    | None => 1
    end in
  hold ;;
  emit (EvWaypointSetCurrentSend current_waypoint).

Definition start_robot : M unit :=
  now <- time ;;
  modify (set_time_last_stop_start now) ;;
  emit EvDisarm ;;
  set_mode "AUTO" ;;
  emit EvArm ;;
  sleep (1 # 10) ;;
  set_mode "AUTO" ;;
  emit EvArm.

Definition hold_sleep_start_robot (seconds : Q) : M unit :=
  hold_keep_wp ;;
  sleep seconds ;;
  start_robot.

Definition end_of_mission_cleanup : M unit :=
  hold ;;
  sleep 1 ;;
  w <- get ;;
  let wp_in_mission := waypoints_in_mission w in
  _ <- load_mission_data_from_mission_waypoints wp_in_mission ;;
  emit (EvWaypointSetCurrentSend 1).

(** *** waypoint_wizard.py: navigation *)

Definition goto_wp (num : Z) : M unit := emit (EvWaypointSetCurrentSend num).

(** [if b: await m] *)
Definition when (b : bool) (m : M unit) : M unit := if b then m else ret tt.

Definition goto_next_wp : M unit :=
  w <- get ;;
  match mission_current (autopilot_data w) with
  | None => ret tt
  | Some mc =>
      let current_waypoint := MISSION_CURRENT.seq mc in
      let next_waypoint := current_waypoint + 1 in
      if (next_waypoint >? end_waypoint_number_of_waypoints_in_autopilot w)
         && more_waypoints_to_load w
      then
        let was_in_auto_mode := flight_mode_is_auto w in
        when was_in_auto_mode hold ;;
        _ <- load_next_round_of_waypoints ;;
        sleep (1 # 10) ;;
        goto_wp 2 ;;
        sleep (1 # 10) ;;
        when was_in_auto_mode start_robot
      else goto_wp next_waypoint
  end.

Definition goto_prev_wp : M unit :=
  w <- get ;;
  match mission_current (autopilot_data w) with
  | None => ret tt
  | Some mc =>
      let current_waypoint := MISSION_CURRENT.seq mc in
      let next_waypoint := current_waypoint - 1 in
      if next_waypoint <=? 1 then
        if prior_waypoints_to_load w then
          let was_in_auto_mode := flight_mode_is_auto w in
          when was_in_auto_mode hold ;;
          waypoint_end <- load_prior_round_of_waypoints ;;
          sleep (1 # 10) ;;
          goto_wp waypoint_end ;;
          sleep (1 # 10) ;;
          when was_in_auto_mode start_robot
        else ret tt
      else goto_wp (Z.max (MISSION_CURRENT.seq mc - 1) 1)
  end.

Definition goto_wp_plus_50 : M unit :=
  w <- get ;;
  match mission_current (autopilot_data w) with
  | None => ret tt
  | Some mc =>
      let current_waypoint := MISSION_CURRENT.seq mc in
      let next_waypoint := current_waypoint + 50 in
      if next_waypoint >? end_waypoint_number_of_waypoints_in_autopilot w then
        if more_waypoints_to_load w then
          let was_in_auto_mode := flight_mode_is_auto w in
          let waypoints_left_before_end_of_currently_loaded_mission :=
            end_waypoint_number_of_waypoints_in_autopilot w - current_waypoint in
          let fifty_more_actual_waypoints :=
            50 - waypoints_left_before_end_of_currently_loaded_mission + 1 in
          when was_in_auto_mode hold ;;
          _ <- load_next_round_of_waypoints ;;
          sleep (1 # 10) ;;
          goto_wp fifty_more_actual_waypoints ;;
          sleep (1 # 10) ;;
          when was_in_auto_mode start_robot
        else ret tt
      else goto_wp next_waypoint
  end.

Definition goto_wp_minus_50 : M unit :=
  w <- get ;;
  match mission_current (autopilot_data w) with
  | None => ret tt
  | Some mc =>
      let current_waypoint := MISSION_CURRENT.seq mc in
      let next_waypoint := current_waypoint - 50 in
      if next_waypoint <=? 1 then
        if prior_waypoints_to_load w then
          let was_in_auto_mode := flight_mode_is_auto w in
          when was_in_auto_mode hold ;;
          waypoint_end <- load_prior_round_of_waypoints ;;
          sleep (1 # 10) ;;
          goto_wp (Z.max (waypoint_end + next_waypoint - 1) 1) ;;
          sleep (1 # 10) ;;
          when was_in_auto_mode start_robot
        else goto_wp 1
      else goto_wp next_waypoint
  end.

(** *** waypoint_wizard.py: distances *)

(** [(utm.lat / 10**7, utm.lon / 10**7)] *)
Definition position_of (utm : GLOBAL_POSITION_INT.t) : Q * Q :=
  ((inject_Z (GLOBAL_POSITION_INT.lat utm) / inject_Z (10 ^ 7))%Q,
   (inject_Z (GLOBAL_POSITION_INT.lon utm) / inject_Z (10 ^ 7))%Q).

Definition get_prev_wp_dist_in_meters : M Q :=
  w <- get ;;
  if PyList.truthy (waypoints_in_autopilot w)
     && (PyList.len (waypoints_in_autopilot w) >? 0)
  then
    match global_position_int (autopilot_data w),
          mission_current (autopilot_data w) with
    | Some utm, Some mc =>
        let loc1 := position_of utm in
        let wp_number := MISSION_CURRENT.seq mc - 1 in
        if wp_number <? 0 then ret 0%Q
        else
          match PyList.index (waypoints_in_autopilot w) wp_number with
          | None => raise IndexError
          | Some wp_loc =>
              let loc2 := (lat wp_loc, lng wp_loc) in
              let dist := haversine loc1 loc2 in
              ret (Qabs (py_round dist 2))
          end
    | _, _ => ret (-1)%Q
    end
  else ret (-1)%Q.

Definition get_wp_dist_in_meters : M Q :=
  w <- get ;;
  if PyList.truthy (waypoints_in_autopilot w)
     && (PyList.len (waypoints_in_autopilot w) >? 0)
  then
    match global_position_int (autopilot_data w),
          mission_current (autopilot_data w) with
    | Some utm, Some mc =>
        let loc1 := position_of utm in
        let wp_number := MISSION_CURRENT.seq mc in
        let wp_number := if wp_number =? 0 then 1 else wp_number in
        match PyList.index (waypoints_in_autopilot w) wp_number with
        | None => raise IndexError
        | Some wp_loc =>
            let loc2 := (lat wp_loc, lng wp_loc) in
            let dist := haversine loc1 loc2 in
            ret (Qabs (py_round dist 2))
        end
    | _, _ => ret (-1)%Q
    end
  else ret (-1)%Q.

(** *** util.py *)

Definition heading_difference (heading1 heading2 : Q) : Q :=
  let heading1 := PyNum.mod_ heading1 360 in
  let heading2 := PyNum.mod_ heading2 360 in
  let angle_difference := Qabs (heading1 - heading2) in
  if PyNum.ltb 180 angle_difference then (360 - angle_difference)%Q
  else angle_difference.

(** The inner loop, [for j in range(i + 1, num_headings)], for a fixed
    [headings[i]] and the headings after it. *)
Definition max_heading_difference_inner (heading_i : Q) (later : list Q)
  (max_diff : Q) : Q :=
  fold_left (fun max_diff heading_j =>
               PyNum.max max_diff (heading_difference heading_i heading_j))
            later max_diff.

(** The outer loop, [for i in range(num_headings)]. *)
Fixpoint max_heading_difference_outer (headings : list Q) (max_diff : Q) : Q :=
  match headings with
  | [] => max_diff
  | heading_i :: later =>
      max_heading_difference_outer later
        (max_heading_difference_inner heading_i later max_diff)
  end.

Definition max_heading_difference (headings : list Q) : Q :=
  max_heading_difference_outer headings 0%Q.

(** *** eternal_process.py: one turn of the gyration monitor *)

(** The [try] block of one turn of the [while True] loop of
    [autopilot_check_gyrating_and_stop_hold_start_if_so]; it returns the
    [last_5_headings] the next turn starts from. *)
Definition gyrating_check_try (last_5_headings : list Q) : M (list Q) :=
  w <- get ;;
  let current_waypoint :=
    match mission_current (autopilot_data w) with
    | Some mc => MISSION_CURRENT.seq mc
    | None => -1
    end in
  if (get_flight_mode w =? AutopilotMode.MODE_AUTO)
     && negb (current_waypoint
              =? end_waypoint_number_of_waypoints_in_autopilot w)
     && (current_waypoint >? 0)
  then
    match global_position_int (autopilot_data w) with
    | None => raise AttributeError
    | Some gpi =>
        let the_heading :=
          (inject_Z (GLOBAL_POSITION_INT.hdg gpi) / inject_Z (10 ^ 2))%Q in
        prev_wp_distance <- get_prev_wp_dist_in_meters ;;
        next_wp_distance <- get_wp_dist_in_meters ;;
        if PyNum.ltb prev_wp_distance
             Constants.GYRATING_CHECK_MIN_DISTANCE_FROM_WAYPOINT_TO_RUN_THIS_CHECK_IN_METERS
           || PyNum.ltb next_wp_distance
                Constants.GYRATING_CHECK_MIN_DISTANCE_FROM_WAYPOINT_TO_RUN_THIS_CHECK_IN_METERS
        then
          emit (EvRobotLog
                  "Detected robot within 10.0 meters of waypoint -- resetting last_5_headings array"
                  "INFO") ;;
          sleep 1 ;;
          ret []
        else
          let last_5_headings := firstn 5 (the_heading :: last_5_headings) in
          last_5_headings <-
            (if (2 <=? List.length last_5_headings)%nat then
               let wobble := max_heading_difference last_5_headings in
               if PyNum.ltb Constants.GYRATING_CHECK_MAX_ALLOWABLE_WOBBLE_IN_DEGREES
                    wobble
               then
                 now <- time ;;
                 w' <- get ;;
                 if PyNum.ltb
                      Constants.GYRATING_CHECK_MIN_TIME_BETWEEN_RESETS_IN_SECONDS
                      (now - time_last_stop_start w')%Q
                 then
                   emit (EvRobotLog
                           "Detected weaving! Will now stop and start robot."
                           "INFO") ;;
                   hold_sleep_start_robot 5 ;;
                   ret []
                 else
                   emit (EvRobotLog
                           (str_float wobble ++ " degree wobble over last 5 seconds")
                           "INFO") ;;
                   emit (EvRobotLog
                           "Detected weaving! However, it's been fewer than 45 seconds since we last reset robot, so skipping reset for now."
                           "INFO") ;;
                   ret last_5_headings
               else ret last_5_headings
             else ret last_5_headings) ;;
          sleep 1 ;;
          ret last_5_headings
    end
  else
    sleep 1 ;;
    ret last_5_headings.

(** One full turn: the [try] block and its [except Exception] handler. *)
Definition gyrating_check_turn (last_5_headings : list Q) : M (list Q) :=
  try_except (gyrating_check_try last_5_headings)
    (fun e =>
       emit (EvLoggingError
               "Caught exception in autopilot_check_gyrating_and_stop_hold_start_if_so:") ;;
       emit (EvLoggingError (str_exn e)) ;;
       emit (EvRobotLog
               "Exception caught in autopilot_check_gyrating_and_stop_hold_start_if_so ..."
               "ERROR") ;;
       emit (EvRobotLog (str_exn e) "ERROR") ;;
       sleep 1 ;;
       ret last_5_headings).

(** ** Vocabulary of the statements *)

(** What [load_waypoints_into_autopilot] sends for a file of the given
    content, and the count [load_waypoints_using_mavutil] returns. *)
Definition upload_events (content : string) : list event :=
  EvWriteWaypointsFile content
  :: match wploader_load content with
     | None => []
     | Some n =>
         EvWaypointClearAllSend
         :: (if n =? 0 then [] else [EvWaypointCountSend n; EvMissionItemsSent n])
     end.

Definition upload_count (content : string) : Z :=
  match wploader_load content with
  | None => 0
  | Some n => if n =? 0 then 0 else n
  end.

(** The events of one page load: the database row, then the upload. *)
Definition page_load_events (page mission : list waypoint) (number_start number_end : Z)
  : list event :=
  EvSaveMissionInfo page mission number_end number_start
  :: upload_events (build_waypoints_string_from_mission_waypoints page).

(** The world once [page] is resident with the bounds [number_start] and
    [number_end]: assigned, persisted and uploaded. *)
Definition page_loaded (page : list waypoint) (number_start number_end : Z)
  (w : world) : world :=
  mk_world (autopilot_data w) page (waypoints_in_mission w)
    number_end number_start
    (time_last_stop_start w) (manual_mode_via_client_ui_joystick w) (clock w)
    (trace w ++ page_load_events page (waypoints_in_mission w)
                  number_start number_end).

(** The stored mission for a list of waypoints: every point rounded to
    eight places, the first one twice. *)
Definition round_waypoint (wp : waypoint) : waypoint :=
  mk_waypoint (py_round (lat wp) 8) (py_round (lng wp) 8).

Definition mission_with_home (waypoints : list waypoint) : list waypoint :=
  match waypoints with
  | [] => []
  | first :: _ => round_waypoint first :: map round_waypoint waypoints
  end.

(** Commands to the flight controller, as opposed to log lines, files and
    database rows. *)
Definition is_command (e : event) : bool :=
  match e with
  | EvDisarm | EvArm | EvSetModeSend _ | EvWaypointSetCurrentSend _
  | EvWaypointClearAllSend | EvWaypointCountSend _ | EvMissionItemsSent _ => true
  | _ => false
  end.

Definition commands (t : list event) : list event := filter is_command t.

Definition is_persist (e : event) : bool :=
  match e with EvSaveMissionInfo _ _ _ _ => true | _ => false end.

Definition is_upload (e : event) : bool :=
  match e with EvWriteWaypointsFile _ => true | _ => false end.

Definition is_goto (e : event) : bool :=
  match e with EvWaypointSetCurrentSend _ => true | _ => false end.

(** Events that belong to a page load: the database row and the upload. *)
Definition is_page_load (e : event) : bool :=
  match e with
  | EvSaveMissionInfo _ _ _ _ | EvWriteWaypointsFile _
  | EvWaypointClearAllSend | EvWaypointCountSend _ | EvMissionItemsSent _ => true
  | _ => false
  end.

Definition count_events (p : event -> bool) (t : list event) : nat :=
  List.length (filter p t).

(** The stop/start cycle of [hold_sleep_start_robot] as the flight controller
    sees it, for a vehicle whose active waypoint is [current_waypoint]. *)
Definition stop_start_cycle (current_waypoint : Z) : list event :=
  [EvDisarm; EvSetModeSend "HOLD"; EvSetModeSend "HOLD";
   EvWaypointSetCurrentSend current_waypoint;
   EvDisarm; EvSetModeSend "AUTO"; EvArm; EvSetModeSend "AUTO"; EvArm].

(** What [hold()] and [start_robot()] send, and the worlds they leave. *)
Definition hold_events : list event :=
  [EvDisarm; EvSetModeSend "HOLD"; EvSetModeSend "HOLD"].

Definition start_events : list event :=
  [EvDisarm; EvSetModeSend "AUTO"; EvArm; EvSetModeSend "AUTO"; EvArm].

Definition after_stop_or_start (evs : list event) (w : world) : world :=
  mk_world (autopilot_data w) (waypoints_in_autopilot w) (waypoints_in_mission w)
    (last_autopilot_loaded_waypoint_number_end w)
    (last_autopilot_loaded_waypoint_number_start w)
    (clock w) false (clock w + (1 # 10))%Q (trace w ++ evs).

(** The two tests of the gyration monitor: the wobble over the recorded
    headings exceeds the threshold, and the last stop or start is more than
    the cooldown ago. *)
Definition wobbling (headings : list Q) : bool :=
  (2 <=? List.length headings)%nat
  && PyNum.ltb Constants.GYRATING_CHECK_MAX_ALLOWABLE_WOBBLE_IN_DEGREES
       (max_heading_difference headings).

Definition cooldown_elapsed (w : world) : bool :=
  PyNum.ltb Constants.GYRATING_CHECK_MIN_TIME_BETWEEN_RESETS_IN_SECONDS
    (clock w - time_last_stop_start w)%Q.

Definition is_log (e : event) : bool :=
  match e with EvRobotLog _ _ => true | _ => false end.

(** The events of a jump across a page boundary: stop if the vehicle was in
    AUTO, load the page, set the target, start again if it was in AUTO. *)
Definition jump_events (was_in_auto_mode : bool) (load : list event)
  (target : Z) : list event :=
  (if was_in_auto_mode then hold_events else [])
  ++ load ++ [EvWaypointSetCurrentSend target]
  ++ (if was_in_auto_mode then start_events else []).

(** The guard of both distance functions: a loaded page, a position and a
    mission progress. *)
Definition distance_data_available (w : world) : bool :=
  PyList.truthy (waypoints_in_autopilot w)
  && (PyList.len (waypoints_in_autopilot w) >? 0)
  && match global_position_int (autopilot_data w) with
     | Some _ => true | None => false end
  && match mission_current (autopilot_data w) with
     | Some _ => true | None => false end.

(** The distance both functions return for the page entry [wp_loc]. *)
Definition distance_to (utm : GLOBAL_POSITION_INT.t) (wp_loc : waypoint) : Q :=
  Qabs (py_round (haversine (position_of utm) (lat wp_loc, lng wp_loc)) 2).

(** [k] end-of-mission cleanups in a row. *)
Definition cleanups (k : nat) (w : world) : world :=
  Nat.iter k (fun w => world_of (end_of_mission_cleanup w)) w.

(** The upper end of the window [load_next_round_of_waypoints] records. *)
Definition next_waypoint_end_of (w : world) : Z :=
  let next_waypoint_end :=
    last_autopilot_loaded_waypoint_number_end w
    + Constants.WAYPOINT_LOAD_COUNT_SUBSEQUENT in
  if next_waypoint_end >? PyList.len (waypoints_in_mission w)
  then PyList.len (waypoints_in_mission w) else next_waypoint_end.

(** The page invariant as the data model words it: the recorded bounds are
    valid mission indices, and the uploaded set has at most [limit + 1]
    entries. *)
Definition bounds_are_mission_indices (w : world) : Prop :=
  0 <= last_autopilot_loaded_waypoint_number_start w
  /\ last_autopilot_loaded_waypoint_number_start w
     <= last_autopilot_loaded_waypoint_number_end w
  /\ last_autopilot_loaded_waypoint_number_end w
     <= PyList.len (waypoints_in_mission w) - 1.

Definition uploaded_within (limit : Z) (w : world) : Prop :=
  PyList.len (waypoints_in_autopilot w) <= limit + 1.

(** Consecutive pages: each page starts at the index the page before it
    ended at, and ends strictly later. *)
Fixpoint pages_chained (prev_end : Z) (pages : list world) : Prop :=
  match pages with
  | [] => True
  | p :: rest =>
      last_autopilot_loaded_waypoint_number_start p = prev_end
      /\ prev_end < last_autopilot_loaded_waypoint_number_end p
      /\ pages_chained (last_autopilot_loaded_waypoint_number_end p) rest
  end.

(** The mission index [i] lies in the window a page records. *)
Definition in_window (p : world) (i : Z) : Prop :=
  last_autopilot_loaded_waypoint_number_start p <= i
  <= last_autopilot_loaded_waypoint_number_end p.

(** Each page shares exactly one index with the window before it, which
    runs from [prev_start] to [prev_end]: the index [prev_end]. *)
Fixpoint pages_overlap_once (prev_start prev_end : Z) (pages : list world)
  : Prop :=
  match pages with
  | [] => True
  | p :: rest =>
      (forall i, prev_start <= i <= prev_end /\ in_window p i <-> i = prev_end)
      /\ pages_overlap_once (last_autopilot_loaded_waypoint_number_start p)
           (last_autopilot_loaded_waypoint_number_end p) rest
  end.

(** What is known of a page that [load_next_round_of_waypoints] loaded from
    the mission [mission]: the duplicated home entry, then the window from
    the recorded start to the recorded end. *)
Definition next_page_of (mission : list waypoint) (p : world) : Prop :=
  waypoints_in_mission p = mission
  /\ 0 <= last_autopilot_loaded_waypoint_number_start p < PyList.len mission
  /\ exists home,
       nth_error mission
         (Z.to_nat (last_autopilot_loaded_waypoint_number_start p)) = Some home
       /\ waypoints_in_autopilot p
          = home :: PyList.slice mission
                      (last_autopilot_loaded_waypoint_number_start p)
                      (last_autopilot_loaded_waypoint_number_end p + 1).

(** The entries a page adds to what was loaded before it: everything after
    the duplicated home entry and the entry shared with the page before. *)
Definition fresh_entries (p : world) : list waypoint :=
  skipn 2 (waypoints_in_autopilot p).

(** The waypoint file in the words of the format description: the header
    line, then one line of twelve tab-separated fields per waypoint. *)
Definition qgc_wpl_line (index : nat) (wp : waypoint) : string :=
  String.concat PyStr.tab
    [PyStr.str_int (Z.of_nat index); "0"; "3"; "16"; "0"; "0"; "0"; "0";
     str_float (py_round (lat wp) 8); str_float (py_round (lng wp) 8);
     "100.000000"; "1"].

Definition qgc_wpl_file (waypoints : list waypoint) : string :=
  String.concat ""
    (map (fun line => line ++ PyStr.newline)
       ("QGC WPL 110"
        :: map (fun iw => qgc_wpl_line (fst iw) (snd iw))
             (combine (seq 0 (List.length waypoints)) waypoints))).

End Program.

(** ** More Python operations *)

Module PyFloat.

Local Open Scope Q_scope.

(** [min(a, b)]: the first argument unless the second is smaller. *)
Definition min (a b : Q) : Q := if PyNum.ltb b a then b else a.

(** [int(x)] on a float: the fractional part is dropped, toward zero. *)
Definition int (x : Q) : Z := Z.quot (Qnum x) (Zpos (Qden x)).

End PyFloat.

Module PySeq.

Section Ops.
Context {A : Type}.

(** [l[i] = x] for [0 <= i]; [None] is Python's IndexError. *)
Fixpoint assign (l : list A) (i : nat) (x : A) : option (list A) :=
  match l, i with
  | [], _ => None
  | _ :: rest, O => Some (x :: rest)
  | y :: rest, S i' => option_map (cons y) (assign rest i' x)
  end.

(** [l.pop(0)] followed by [l.append(x)]; [None] is the IndexError of
    popping from an empty list. *)
Definition pop0_append (l : list A) (x : A) : option (list A) :=
  match l with
  | [] => None
  | _ :: rest => Some (rest ++ [x])
  end.

End Ops.

End PySeq.

Module MoreConstants.

Definition DISTANCE_SHUFFLE_DETECT_ACTIVE_IN_METERS : Q := 2.
Definition SHUFFLE_DETECT_SECONDS_TO_ACTIVATE : Q := 10.
Definition DISTANCE_NO_PROGRESS_FULL_THROTTLE_STUCK_IN_METERS : Q := 5 # 10.

End MoreConstants.

(** Keys of [robot_state.last_time] that the navigation messages use. *)
Module LastTime.

Inductive t : Type :=
| GOTO_PREV_WP | GOTO_NEXT_WP | GOTO_WP_PLUS_50 | GOTO_WP_MINUS_50.

Definition eqb (a b : t) : bool :=
  match a, b with
  | GOTO_PREV_WP, GOTO_PREV_WP | GOTO_NEXT_WP, GOTO_NEXT_WP
  | GOTO_WP_PLUS_50, GOTO_WP_PLUS_50 | GOTO_WP_MINUS_50, GOTO_WP_MINUS_50 => true
  | _, _ => false
  end.

End LastTime.

(** The [mType] of the four navigation messages, and a message with its
    [time] field. *)
Inductive navigation_mtype : Type :=
| goto_next_wp_message | goto_prev_wp_message
| goto_wp_plus_50_message | goto_wp_minus_50_message.

Record meta_message : Type := mk_meta_message {
  mType : navigation_mtype;
  message_time : Q
}.

(** ** More of the program *)

Section Program2.
Context `{External}.

Local Open Scope string_scope.
Local Open Scope Z_scope.

(** *** flight_controller.py: the joystick *)

Definition convert_joystick_to_pwm_dynamic (speed : Q)
  (minimum_pwm midpoint_pwm maximum_pwm : Z) : Z :=
  let speed := PyNum.max (PyFloat.min speed 100) (-100) in
  if Qeq_bool speed 0 then midpoint_pwm
  else if PyNum.ltb speed 0 then
    PyFloat.int (inject_Z midpoint_pwm
                 + inject_Z (midpoint_pwm - minimum_pwm) * (speed / 100))%Q
  else
    PyFloat.int (inject_Z midpoint_pwm
                 + inject_Z (maximum_pwm - midpoint_pwm) * (speed / 100))%Q.

Definition convert_joystick_to_pwm (speed : Q) : Z :=
  PyFloat.int (1500 + speed * 5)%Q.

(** What [set_rc_channel_pwm] passes to [rc_channels_override_send] after
    the target system and component: the eighteen channel values.  [None]
    when the channel does not exist and nothing is sent. *)
Definition set_rc_channel_pwm (channel_id pwm : Z) : option (list Z) :=
  if (channel_id <? 1) || (channel_id >? 18) then None
  else
    let rc_channel_values := repeat 65535 18 in
    PySeq.assign rc_channel_values (Z.to_nat (channel_id - 1)) pwm.

Definition calculate_channel_one_and_three_from_x_y (x y : Q) : Z * Z :=
  let x := (x * 100)%Q in
  let y := (y * 100)%Q in
  let left := convert_joystick_to_pwm x in
  let right := convert_joystick_to_pwm y in
  (left, right).

(** The override messages of one joystick sample, in the order sent. *)
Definition set_rc_channels_from_joystick (x y : Q) : list (option (list Z)) :=
  let '(one, three) := calculate_channel_one_and_three_from_x_y x y in
  [set_rc_channel_pwm 1 one; set_rc_channel_pwm 3 three].

Definition calculate_wheel_left_right_from_x_y (x y : Q) : Q * Q :=
  let x := (x * 100)%Q in
  let y := (y * 100)%Q in
  let x := (x * -1)%Q in
  let y := (y * -1)%Q in
  let v := ((100 - Qabs x) * (y / 100) + y)%Q in
  let w := ((100 - Qabs y) * (x / 100) + x)%Q in
  let r := ((v + w) / 2)%Q in
  let l := ((v - w) / 2)%Q in
  (l, r).

(** *** waypoint_wizard.py: the next waypoint and the distance travelled *)

Definition get_next_wp : M (option waypoint) :=
  w <- get ;;
  if PyList.truthy (waypoints_in_autopilot w)
     && (PyList.len (waypoints_in_autopilot w) >? 0)
  then
    match global_position_int (autopilot_data w),
          mission_current (autopilot_data w) with
    | Some _, Some mc =>
        let wp_number := MISSION_CURRENT.seq mc in
        let wp_number := if wp_number =? 0 then 1 else wp_number in
        match PyList.index (waypoints_in_autopilot w) wp_number with
        | None => raise IndexError
        | Some the_wp => ret (Some the_wp)
        end
    | _, _ => ret None
    end
  else ret None.

(** One turn of [for x in range(9)] on the running [distance]; [None] when
    an index is out of range or an entry is still [False], where the source
    raises. *)
Definition total_distance_step (last_10_positions : list (option (Q * Q)))
  (distance : option Q) (x : Z) : option Q :=
  match distance,
        PyList.index last_10_positions x,
        PyList.index last_10_positions (x + 1) with
  | Some distance, Some (Some loc1), Some (Some loc2) =>
      Some (distance + haversine loc1 loc2)%Q
  | _, _, _ => None
  end.

(** The entries are position tuples, or [None] for the [False] a slot
    holds before a position was recorded.  The result is [None] where the
    source raises. *)
Definition total_distance_between_last_10_positions_in_meters
  (last_10_positions : list (option (Q * Q))) : option Q :=
  match PyList.index last_10_positions 0 with
  | None => None
  | Some None => Some (-1)%Q
  | Some (Some _) =>
      match PyList.index last_10_positions 9 with
      | None => None
      | Some None => Some (-1)%Q
      | Some (Some _) =>
          fold_left (total_distance_step last_10_positions)
            (map Z.of_nat (seq 0 9)) (Some 0%Q)
      end
  end.

(** *** eternal_process.py: one turn of three more monitors *)

(** The [except Exception as e] handler the monitors share, for the monitor
    called [name]. *)
Definition monitor_handler (name : string) (e : exn) : M unit :=
  emit (EvLoggingError ("Caught exception in " ++ name ++ ":")) ;;
  emit (EvLoggingError (str_exn e)) ;;
  emit (EvRobotLog ("Exception caught in " ++ name ++ "()...") "ERROR") ;;
  emit (EvRobotLog (str_exn e) "ERROR") ;;
  sleep 1.

(** [current_waypoint = -1], then the sequence number if there is a
    mission progress. *)
Definition current_waypoint_of (w : world) : Z :=
  match mission_current (autopilot_data w) with
  | Some mc => MISSION_CURRENT.seq mc
  | None => -1
  end.

(** One turn of the [while True] loop of
    [autopilot_check_close_to_waypoint]. *)
Definition close_to_waypoint_turn : M unit :=
  let DISTANCE_TO_WAYPOINT_IN_METERS := (7 # 10)%Q in
  w <- get ;;
  if negb (get_flight_mode w =? AutopilotMode.MODE_AUTO) then sleep 1
  else
    let current_waypoint := current_waypoint_of w in
    try_except
      (wp_dist <- get_wp_dist_in_meters ;;
       w <- get ;;
       (if (get_flight_mode w =? AutopilotMode.MODE_AUTO)
           && negb (current_waypoint
                    =? end_waypoint_number_of_waypoints_in_autopilot w)
           && (current_waypoint >? 0)
        then
          if Qeq_bool wp_dist (-1) then
            emit (EvRobotLog "Could not find distance to waypoint...skipping"
                    "INFO")
          else if PyNum.ltb wp_dist DISTANCE_TO_WAYPOINT_IN_METERS then
            goto_next_wp ;;
            emit (EvRobotLog
                    (str_float wp_dist ++ " meters to obstacle, goto next WP")
                    "INFO")
          else ret tt
        else ret tt) ;;
       sleep 1)
      (monitor_handler "autopilot_check_close_to_waypoint").

(** One turn of the [while True] loop of
    [autopilot_check_mission_finished]. *)
Definition mission_finished_turn : M unit :=
  w <- get ;;
  if negb (get_flight_mode w =? AutopilotMode.MODE_AUTO) then sleep 1
  else
    let current_waypoint := current_waypoint_of w in
    try_except
      (wp_dist <- get_wp_dist_in_meters ;;
       w <- get ;;
       (if (get_flight_mode w =? AutopilotMode.MODE_AUTO)
           && (current_waypoint
               =? end_waypoint_number_of_waypoints_in_autopilot w)
           && (current_waypoint >? 1)
           && PyNum.ltb wp_dist 1
        then
          sleep 1 ;;
          w <- get ;;
          let paused_in_the_middle_of_a_big_mission_waiting_to_load_more_waypoints :=
            if current_waypoint
               <? end_waypoint_number_of_waypoints_in_autopilot w
            then false else true in
          if paused_in_the_middle_of_a_big_mission_waiting_to_load_more_waypoints
          then
            hold ;;
            more_waypoints_exist <- load_next_round_of_waypoints ;;
            if more_waypoints_exist then
              sleep (1 # 10) ;;
              goto_wp 2 ;;
              sleep (1 # 10) ;;
              start_robot
            else end_of_mission_cleanup
          else end_of_mission_cleanup
        else ret tt) ;;
       sleep 1)
      (monitor_handler "autopilot_check_mission_finished").

(** One turn of the [while True] loop of
    [autopilot_check_randomly_in_auto_mode_but_making_no_progress], on the
    pair [(distance_traveled_lately, last_10_positions)]; the value is the
    pair the next turn starts from, or [None] where an exception leaves the
    loop: the list operations before the [try] block are not guarded. *)
Definition no_progress_turn (state : Q * list (option (Q * Q)))
  : M (option (Q * list (option (Q * Q)))) :=
  let '(distance_traveled_lately, last_10_positions) := state in
  sleep 2 ;;
  w <- get ;;
  if negb (get_flight_mode w =? AutopilotMode.MODE_AUTO) then
    sleep 1 ;;
    ret (Some (distance_traveled_lately, last_10_positions))
  else
    match
      match global_position_int (autopilot_data w) with
      | Some utm =>
          let present_loc := position_of utm in
          PySeq.pop0_append last_10_positions (Some present_loc)
      | None => Some last_10_positions
      end
    with
    | None => ret None
    | Some last_10_positions =>
        match
          match PyList.index last_10_positions 0 with
          | None => None
          | Some None => Some distance_traveled_lately
          | Some (Some _) =>
              match PyList.index last_10_positions 9 with
              | None => None
              | Some None => Some distance_traveled_lately
              | Some (Some _) =>
                  total_distance_between_last_10_positions_in_meters
                    last_10_positions
              end
          end
        with
        | None => ret None
        | Some distance_traveled_lately =>
            let current_waypoint := current_waypoint_of w in
            try_except
              (w <- get ;;
               if (get_flight_mode w =? AutopilotMode.MODE_AUTO)
                  && negb (current_waypoint
                           =? end_waypoint_number_of_waypoints_in_autopilot w)
                  && (current_waypoint >? 0)
               then
                 if PyNum.ltb distance_traveled_lately
                      MoreConstants.DISTANCE_NO_PROGRESS_FULL_THROTTLE_STUCK_IN_METERS
                 then
                   emit (EvRobotLog
                           "Detected robot stuck in autopilot_check_randomly_in_auto_mode_but_making_no_progress!"
                           "INFO") ;;
                   emit (EvRobotLog
                           "Will now hold / sleep for a few seconds / attempt to start robot"
                           "INFO") ;;
                   emit (EvRobotLog
                           "autopilot_check_randomly_in_auto_mode_but_making_no_progress -- Attempting robot hold/start"
                           "INFO") ;;
                   hold_sleep_start_robot (15 # 10) ;;
                   ret (Some (99999999%Q, repeat None 10))
                 else ret (Some (distance_traveled_lately, last_10_positions))
               else ret (Some (distance_traveled_lately, last_10_positions)))
              (fun e =>
                 monitor_handler
                   "autopilot_check_randomly_in_auto_mode_but_making_no_progress"
                   e ;;
                 ret (Some (distance_traveled_lately, last_10_positions)))
        end
    end.

(** One turn of the [while True] loop of
    [autopilot_check_not_making_progress_near_waypoint], on
    [waypoint_close_initial_time]; the value is the one the next turn
    starts from. *)
Definition near_waypoint_turn (waypoint_close_initial_time : Q) : M Q :=
  w <- get ;;
  if negb (get_flight_mode w =? AutopilotMode.MODE_AUTO) then
    sleep 1 ;;
    ret waypoint_close_initial_time
  else
    let current_waypoint := current_waypoint_of w in
    try_except
      (wp_dist <- get_wp_dist_in_meters ;;
       w <- get ;;
       waypoint_close_initial_time <-
         (if (get_flight_mode w =? AutopilotMode.MODE_AUTO)
             && negb (current_waypoint
                      =? end_waypoint_number_of_waypoints_in_autopilot w)
             && (current_waypoint >? 0)
          then
            if Qeq_bool wp_dist (-1) then
              emit (EvRobotLog "Could not find distance to waypoint...skipping"
                      "INFO") ;;
              ret waypoint_close_initial_time
            else if PyNum.ltb wp_dist
                      MoreConstants.DISTANCE_SHUFFLE_DETECT_ACTIVE_IN_METERS
            then
              emit (EvRobotLog "WP_DIST < 2 meters" "INFO") ;;
              if Qeq_bool waypoint_close_initial_time 0 then
                emit (EvRobotLog
                        "SETTING the waypoint_close_initial_time FLAG to now"
                        "INFO") ;;
                time
              else
                now <- time ;;
                if PyNum.ltb MoreConstants.SHUFFLE_DETECT_SECONDS_TO_ACTIVATE
                     (now - waypoint_close_initial_time)%Q
                then
                  emit (EvRobotLog
                          "autopilot_check_not_making_progress_near_waypoint More than 10 seconds have elapsed since we set WP close flag"
                          "INFO") ;;
                  hold_sleep_start_robot (15 # 10) ;;
                  ret 0%Q
                else
                  now <- time ;;
                  emit (EvRobotLog
                          ("Close to this waypoint for "
                           ++ str_float (now - waypoint_close_initial_time)%Q
                           ++ " seconds")
                          "INFO") ;;
                  ret waypoint_close_initial_time
            else ret 0%Q
          else ret 0%Q) ;;
       sleep 1 ;;
       ret waypoint_close_initial_time)
      (fun e =>
         monitor_handler "autopilot_check_not_making_progress_near_waypoint" e ;;
         ret waypoint_close_initial_time).

(** *** message_processor.py: the navigation messages *)

Definition last_time_key (mtype : navigation_mtype) : LastTime.t :=
  match mtype with
  | goto_next_wp_message => LastTime.GOTO_NEXT_WP
  | goto_prev_wp_message => LastTime.GOTO_PREV_WP
  | goto_wp_plus_50_message => LastTime.GOTO_WP_PLUS_50
  | goto_wp_minus_50_message => LastTime.GOTO_WP_MINUS_50
  end.

Definition navigation_of (mtype : navigation_mtype) : M unit :=
  match mtype with
  | goto_next_wp_message => goto_next_wp
  | goto_prev_wp_message => goto_prev_wp
  | goto_wp_plus_50_message => goto_wp_plus_50
  | goto_wp_minus_50_message => goto_wp_minus_50
  end.

(** [robot_state.last_time[key] = time] *)
Definition set_last_time (key : LastTime.t) (time : Q)
  (last_time : LastTime.t -> Q) : LastTime.t -> Q :=
  fun k => if LastTime.eqb k key then time else last_time k.

(** The four navigation branches of [process_meta_message], on
    [robot_state.last_time]; the value is the dictionary after the call.
    The bare [except:] only prints the traceback. *)
Definition process_meta_message (message : meta_message)
  (last_time : LastTime.t -> Q) : M (LastTime.t -> Q) :=
  let key := last_time_key (mType message) in
  if PyNum.ltb (last_time key) (message_time message) then
    let last_time := set_last_time key (message_time message) last_time in
    try_except (navigation_of (mType message) ;; ret last_time)
      (fun _ => ret last_time)
  else ret last_time.

(** ** Vocabulary of the further statements *)

(** The pairs [(i, j)] with [i < j] of a list, as the two loops of
    [max_heading_difference] visit them. *)
Definition later_pair (headings : list Q) (a b : Q) : Prop :=
  exists i j, (i < j)%nat
              /\ nth_error headings i = Some a /\ nth_error headings j = Some b.

(** The branch, the window, the bounds and the return value of
    [load_prior_round_of_waypoints]. *)
Definition prior_rewinds (w : world) : bool :=
  last_autopilot_loaded_waypoint_number_end w
  <=? Constants.WAYPOINT_LOAD_COUNT_INITIAL
      + Constants.WAYPOINT_LOAD_COUNT_SUBSEQUENT.

Definition prior_start_of (w : world) : Z :=
  if prior_rewinds w then 0
  else last_autopilot_loaded_waypoint_number_start w
       - Constants.WAYPOINT_LOAD_COUNT_SUBSEQUENT - 1.

Definition prior_end_of (w : world) : Z :=
  if prior_rewinds w then Constants.WAYPOINT_LOAD_COUNT_INITIAL
  else last_autopilot_loaded_waypoint_number_start w.

Definition prior_return_of (w : world) : Z :=
  if prior_rewinds w then Constants.WAYPOINT_LOAD_COUNT_INITIAL
  else Constants.WAYPOINT_LOAD_COUNT_SUBSEQUENT.

Definition prior_page_of (w : world) : list waypoint :=
  PyList.slice (waypoints_in_mission w) (prior_start_of w) (prior_end_of w + 1).

(** A computation leaves the component [f] of the world as it found it,
    whether it returns or raises. *)
Definition preserves {A B : Type} (f : world -> B) (m : M A) : Prop :=
  forall w, f (world_of (m w)) = f w.

(** The buffer a turn of the gyration monitor can hand to the next one:
    emptied, left alone, or the newest heading put in front of the four
    before it. *)
Definition next_headings (last_5_headings : list Q) (w : world)
  (headings : list Q) : Prop :=
  headings = []
  \/ headings = last_5_headings
  \/ exists gpi,
       global_position_int (autopilot_data w) = Some gpi
       /\ headings
          = firstn 5
              ((inject_Z (GLOBAL_POSITION_INT.hdg gpi) / inject_Z (10 ^ 2))%Q
               :: last_5_headings).

(** The length of the path through the positions, segment by segment. *)
Fixpoint path_length (positions : list (Q * Q)) : Q :=
  match positions with
  | loc1 :: (loc2 :: _) as rest => (haversine loc1 loc2 + path_length rest)%Q
  | _ => 0%Q
  end.

(** The buffer of a no-progress monitor after it recorded [positions],
    oldest first, starting from [[False] * 10]: [pop(0)] and [append] for
    each one. *)
Definition recorded (positions : list (Q * Q)) : option (list (option (Q * Q))) :=
  fold_left (fun buffer present_loc =>
               match buffer with
               | Some last_10_positions =>
                   PySeq.pop0_append last_10_positions (Some present_loc)
               | None => None
               end)
    positions (Some (repeat None 10)).

(** That buffer in closed form: empty slots, then the latest positions. *)
Definition window_of (positions : list (Q * Q)) : list (option (Q * Q)) :=
  (repeat None (10 - List.length positions)
   ++ map Some (skipn (List.length positions - 10) positions))%list.

(** The page [load_mission_data_from_mission_waypoints] uploads. *)
Definition first_page (mission : list waypoint) : list waypoint :=
  PyList.slice mission 0 (Constants.WAYPOINT_LOAD_COUNT_INITIAL + 1).

(** What [end_of_mission_cleanup] sends for the stored mission [mission]:
    the hold, the reload of the mission from its first page, and the reset
    of the active waypoint. *)
Definition cleanup_events (mission : list waypoint) : list event :=
  (hold_events
   ++ page_load_events (first_page (mission_with_home mission))
        (mission_with_home mission) 1 Constants.WAYPOINT_LOAD_COUNT_INITIAL
   ++ [EvWaypointSetCurrentSend 1])%list.

(** The test of [autopilot_check_mission_finished]: in AUTO at the last
    index of the loaded page, past index 1, with a distance below one
    metre. *)
Definition at_end_of_page (w : world) : bool :=
  (get_flight_mode w =? AutopilotMode.MODE_AUTO)
  && (current_waypoint_of w =? end_waypoint_number_of_waypoints_in_autopilot w)
  && (current_waypoint_of w >? 1)
  && match get_wp_dist_in_meters w with
     | Return wp_dist _ => PyNum.ltb wp_dist 1
     | Raise _ _ => false
     end.

(** The pair the no-progress monitor starts from, and returns to after a
    stop/start. *)
Definition no_progress_reset : Q * list (option (Q * Q)) :=
  (99999999%Q, repeat None 10).

(** Turn after turn on the worlds the no-progress monitor finds, no turn
    sends a command to the flight controller. *)
Fixpoint quiet_turns (state : Q * list (option (Q * Q))) (worlds : list world)
  : Prop :=
  match worlds with
  | [] => True
  | w :: rest =>
      exists state' after,
        no_progress_turn state w = Return (Some state') after
        /\ commands (events_since w (no_progress_turn state w)) = []
        /\ quiet_turns state' rest
  end.

End Program2.

(** ** A concrete environment *)

Module Sample.

Fixpoint count_newlines (s : string) : Z :=
  match s with
  | EmptyString => 0
  | String c s' =>
      (if Ascii.eqb c (ascii_of_nat 10) then 1 else 0) + count_newlines s'
  end.

(** Rounding that leaves the value alone, a fixed rendering of floats, a
    flat 100 m distance, and a loader that accepts every line after the
    header. *)
Definition env : External :=
  {| py_round := fun x _ => x;
     str_float := fun _ => "0.0"%string;
     haversine := fun _ _ => 100%Q;
     wploader_load := fun content => Some (count_newlines content - 1) |}.

Definition waypoint_at (n : nat) : waypoint :=
  mk_waypoint (inject_Z (Z.of_nat n)) (- inject_Z (Z.of_nat n))%Q.

Definition waypoints (n : nat) : list waypoint := map waypoint_at (seq 0 n).

(** Telemetry of a vehicle in AUTO mode at sequence number [seq], heading
    [hdg] centidegrees. *)
Definition auto_telemetry (seq hdg : Z) : telemetry :=
  mk_telemetry (Some (HEARTBEAT.mk 4 AutopilotMode.MODE_AUTO))
               (Some (GLOBAL_POSITION_INT.mk 300000000 (-870000000) hdg))
               (Some (MISSION_CURRENT.mk seq)).

(** The world after [load_mission_data_from_mission_waypoints] on [n]
    waypoints, started from a fresh module. *)
Definition loaded (n : nat) : world :=
  world_of (load_mission_data_from_mission_waypoints (H := env) (waypoints n)
              (initial_world 0)).

(** ... and after [k] further calls of [load_next_round_of_waypoints]. *)
Definition paged (n k : nat) : world :=
  Nat.iter k (fun w => world_of (load_next_round_of_waypoints (H := env) w))
    (loaded n).

(** The vehicle in AUTO at the last index of the first page of a 300-point
    mission. *)
Definition at_page_end : world :=
  set_autopilot_data (auto_telemetry 100 0) (loaded 300).

(** The vehicle in AUTO at index 80 of the first page of a 200-point
    mission: 20 points are left in the page. *)
Definition mid_page : world :=
  set_autopilot_data (auto_telemetry 80 0) (loaded 200).

(** The vehicle at the home entry of a loaded three-point mission, and at
    its first waypoint. *)
Definition at_home : world :=
  set_autopilot_data (auto_telemetry 0 0) (loaded 3).

Definition at_first_waypoint : world :=
  set_autopilot_data (auto_telemetry 1 0) (loaded 3).

(** The vehicle in AUTO on the way to waypoint 5 of 20, heading 10 degrees,
    [now] seconds after the last stop or start. *)
Definition under_way (now : Q) : world :=
  set_clock now (set_autopilot_data (auto_telemetry 5 1000) (loaded 20)).

(** Telemetry of a vehicle in AUTO mode at sequence number [seq] that has
    not reported a position. *)
Definition no_position_telemetry (seq : Z) : telemetry :=
  mk_telemetry (Some (HEARTBEAT.mk 4 AutopilotMode.MODE_AUTO))
               None
               (Some (MISSION_CURRENT.mk seq)).

(** The vehicle at the last waypoint of a loaded three-point mission, with
    and without a position. *)
Definition at_last_point : world :=
  set_autopilot_data (auto_telemetry 3 0) (loaded 3).

Definition at_mission_end : world :=
  set_autopilot_data (no_position_telemetry 3) (loaded 3).

(** The vehicle at the last index of the first page of a 300-point mission,
    without a position. *)
Definition at_page_end_no_position : world :=
  set_autopilot_data (no_position_telemetry 100) (loaded 300).

(** The vehicle at index 1 of the second page of a 300-point mission. *)
Definition at_start_of_second_page : world :=
  set_autopilot_data (auto_telemetry 1 0) (paged 300 1).

End Sample.

(** * Properties *)

(** ** Slices *)

Section SliceFacts.
Context {A : Type}.
Implicit Types l : list A.

Lemma len_nonneg l : 0 <= PyList.len l.
Proof. unfold PyList.len; lia. Qed.

Lemma firstn_then_firstn_skipn (n m : nat) l :
  firstn n l ++ firstn m (skipn n l) = firstn (n + m) l.
Proof.
  revert l; induction n as [|n IH]; intros l; simpl; trivial.
  destruct l as [|x l]; simpl.
  - now rewrite firstn_nil.
  - now rewrite IH.
Qed.

Lemma slice_nonneg l (a b : Z) :
  0 <= a -> 0 <= b ->
  PyList.slice l a b
  = firstn (Z.to_nat b - Z.to_nat a) (skipn (Z.to_nat a) l).
Proof.
  intros Ha Hb. unfold PyList.slice, PyList.clamp, PyList.len.
  destruct (Z.ltb_spec a 0); [lia|].
  destruct (Z.ltb_spec b 0); [lia|].
  destruct (Z.le_gt_cases (Z.of_nat (List.length l)) a) as [Hlen|Hlen].
  - rewrite !skipn_all2 by lia. now rewrite !firstn_nil.
  - rewrite (Z.min_l a) by lia.
    destruct (Z.le_gt_cases b (Z.of_nat (List.length l))) as [Hb'|Hb'].
    + rewrite (Z.min_l b) by lia. f_equal. lia.
    + rewrite (Z.min_r b) by lia.
      rewrite !firstn_all2; trivial; rewrite length_skipn; lia.
Qed.

Lemma slice_length_le l (a b : Z) :
  a <= b -> PyList.len (PyList.slice l a b) <= b - a.
Proof.
  intros Hab. unfold PyList.slice, PyList.clamp, PyList.len.
  rewrite length_firstn, length_skipn.
  destruct (Z.ltb_spec a 0); destruct (Z.ltb_spec b 0); lia.
Qed.

Lemma slice_prefix_all l (b : Z) :
  PyList.len l <= b -> PyList.slice l 0 b = l.
Proof.
  intros Hb. pose proof (len_nonneg l).
  rewrite slice_nonneg by lia. simpl. rewrite Nat.sub_0_r.
  apply firstn_all2. unfold PyList.len in Hb. lia.
Qed.

(** Two adjacent windows glue into one. *)
Lemma slice_glue l (a b c : Z) :
  0 <= a <= b -> b <= c ->
  PyList.slice l a b ++ PyList.slice l b c = PyList.slice l a c.
Proof.
  intros Hab Hbc. rewrite !slice_nonneg by lia.
  assert (Hskip : skipn (Z.to_nat b) l
                  = skipn (Z.to_nat b - Z.to_nat a) (skipn (Z.to_nat a) l))
    by (rewrite skipn_skipn; f_equal; lia).
  rewrite Hskip, firstn_then_firstn_skipn. f_equal. lia.
Qed.

Lemma skipn_nth_error_cons l (n : nat) (x : A) :
  nth_error l n = Some x -> skipn n l = x :: skipn (S n) l.
Proof.
  revert l; induction n as [|n IH]; intros [|y l] E; try discriminate.
  - now injection E as ->.
  - simpl in E. now apply IH.
Qed.

(** A window that starts inside the list starts with the element there. *)
Lemma slice_head l (a b : Z) :
  0 <= a < PyList.len l -> a < b ->
  exists x, nth_error l (Z.to_nat a) = Some x
            /\ PyList.slice l a b = x :: PyList.slice l (a + 1) b.
Proof.
  intros Ha Hab. unfold PyList.len in Ha.
  destruct (nth_error l (Z.to_nat a)) as [x|] eqn:E.
  2:{ apply nth_error_None in E. lia. }
  exists x. split; trivial.
  rewrite !slice_nonneg by lia.
  rewrite (skipn_nth_error_cons _ _ _ E).
  replace (Z.to_nat (a + 1)) with (S (Z.to_nat a)) by lia.
  replace (Z.to_nat b - Z.to_nat a)%nat
    with (S (Z.to_nat b - S (Z.to_nat a))) by lia.
  reflexivity.
Qed.

Lemma index_0_cons (x : A) l : PyList.index (x :: l) 0 = Some x.
Proof.
  unfold PyList.index, PyList.len. simpl List.length.
  replace (0 <? 0) with false by reflexivity.
  replace (0 <=? 0) with true by reflexivity.
  destruct (Z.ltb_spec 0 (Z.of_nat (S (List.length l)))); [reflexivity | lia].
Qed.

End SliceFacts.

(** ** Strings *)

Lemma append_assoc (s t u : string) :
  ((s ++ t) ++ u = s ++ (t ++ u))%string.
Proof. induction s as [|c s IH]; simpl; [reflexivity | now rewrite IH]. Qed.

Lemma append_empty_r (s : string) : (s ++ "" = s)%string.
Proof. induction s as [|c s IH]; simpl; [reflexivity | now rewrite IH]. Qed.

Lemma concat_empty_cons (s : string) (l : list string) :
  String.concat "" (s :: l) = (s ++ String.concat "" l)%string.
Proof.
  destruct l as [|t l]; simpl.
  - now rewrite append_empty_r.
  - reflexivity.
Qed.

(** ** The waypoint file *)

Section FileFacts.
Context `{External}.

Lemma lat_lng_line_is_qgc_wpl_line (i : nat) (wp : waypoint) :
  build_waypoint_file_lat_lng_line (Z.of_nat i)
    (py_round (lat wp) 8) (py_round (lng wp) 8)
  = qgc_wpl_line i wp.
Proof.
  unfold build_waypoint_file_lat_lng_line, qgc_wpl_line.
  cbn [String.concat]. unfold PyStr.tab.
  rewrite !append_assoc. reflexivity.
Qed.

Lemma build_waypoints_string_loop (waypoints : list waypoint) :
  forall (mission_string : string) (n : nat),
    fst (fold_left build_waypoints_string_step waypoints
           (mission_string, Z.of_nat n))
    = (mission_string
       ++ String.concat ""
            (map (fun line => line ++ PyStr.newline)
               (map (fun iw => qgc_wpl_line (fst iw) (snd iw))
                  (combine (seq n (List.length waypoints)) waypoints))))%string.
Proof.
  induction waypoints as [|wp rest IH]; intros mission_string n.
  - simpl. now rewrite append_empty_r.
  - cbn [fold_left build_waypoints_string_step List.length seq combine map].
    replace (Z.of_nat n + 1) with (Z.of_nat (S n)) by lia.
    rewrite IH, concat_empty_cons, lat_lng_line_is_qgc_wpl_line.
    cbn [fst snd]. now rewrite !append_assoc.
Qed.

(** C7.  For every list of waypoints the string that
    [build_waypoints_string_from_mission_waypoints] builds is the waypoint
    file of the format description: the exact first line "QGC WPL 110", then
    one newline-terminated line per waypoint, in list order, made of the
    tab-separated fields index, 0, 3, 16, 0, 0, 0, 0, lat, lng, 100.000000
    and 1, where index counts from 0 and lat and lng are the waypoint's
    coordinates rounded to 8 places. *)
Theorem waypoint_file_format (waypoints : list waypoint) :
  build_waypoints_string_from_mission_waypoints waypoints
  = qgc_wpl_file waypoints.
Proof.
  unfold build_waypoints_string_from_mission_waypoints, qgc_wpl_file.
  change 0 with (Z.of_nat 0).
  rewrite build_waypoints_string_loop.
  cbn [map]. rewrite concat_empty_cons.
  unfold build_waypoint_file_first_line. now rewrite append_assoc.
Qed.

End FileFacts.

(** ** Running the monad *)

Lemma bind_run {A B : Type} (m : M A) (k : A -> M B) (w w' : world) (a : A) :
  m w = Return a w' -> bind m k w = k a w'.
Proof. intros E. unfold bind. now rewrite E. Qed.

Lemma bind_raise {A B : Type} (m : M A) (k : A -> M B) (w w' : world) (e : exn) :
  m w = Raise e w' -> bind m k w = Raise e w'.
Proof. intros E. unfold bind. now rewrite E. Qed.

Lemma bind_assoc {A B C : Type} (m : M A) (f : A -> M B) (k : B -> M C)
  (w : world) :
  bind (bind m f) k w = bind m (fun a => bind (f a) k) w.
Proof. unfold bind. destruct (m w); reflexivity. Qed.

Lemma skipn_trace_app (t evs : list event) :
  skipn (List.length t) (t ++ evs) = evs.
Proof. now rewrite skipn_app, skipn_all, Nat.sub_diag. Qed.

Lemma modify_run (f : world -> world) (w : world) :
  modify f w = Return tt (f w).
Proof. reflexivity. Qed.

Lemma get_run (w : world) : get w = Return w w.
Proof. reflexivity. Qed.

Lemma emit_run (e : event) (w : world) :
  emit e w = Return tt (set_trace (trace w ++ [e]) w).
Proof. reflexivity. Qed.

Lemma sleep_run (d : Q) (w : world) :
  sleep d w = Return tt (set_clock (clock w + d)%Q w).
Proof. reflexivity. Qed.

Lemma time_run (w : world) : time w = Return (clock w) w.
Proof. reflexivity. Qed.

(** Run the first computation of a sequence with the equation [E]. *)
Ltac run_with E := rewrite (bind_run _ _ _ _ _ E); cbv beta.

Lemma ret_run {A : Type} (a : A) (w : world) : ret a w = Return a w.
Proof. reflexivity. Qed.

(** Bring a world built by setters on a record back to a record. *)
Ltac world_norm :=
  cbn [set_autopilot_data set_waypoints_in_autopilot set_waypoints_in_mission
       set_number_end set_number_start set_time_last_stop_start
       set_manual_mode set_clock set_trace
       autopilot_data waypoints_in_autopilot waypoints_in_mission
       last_autopilot_loaded_waypoint_number_end
       last_autopilot_loaded_waypoint_number_start
       time_last_stop_start manual_mode_via_client_ui_joystick clock trace].

(** Run one primitive step at the head of a sequence. *)
Ltac run_prim :=
  lazymatch goal with
  | |- context [bind (modify ?f) ?k ?w] =>
      rewrite (bind_run _ k w _ _ (modify_run f w))
  | |- context [bind get ?k ?w] =>
      rewrite (bind_run _ k w _ _ (get_run w))
  | |- context [bind (emit ?e) ?k ?w] =>
      rewrite (bind_run _ k w _ _ (emit_run e w))
  | |- context [bind (sleep ?d) ?k ?w] =>
      rewrite (bind_run _ k w _ _ (sleep_run d w))
  | |- context [bind time ?k ?w] =>
      rewrite (bind_run _ k w _ _ (time_run w))
  | |- context [bind (ret ?a) ?k ?w] =>
      rewrite (bind_run _ k w _ _ (ret_run a w))
  end;
  cbv beta; world_norm.

(** ... reassociating the sequence first where its head is a sequence. *)
Ltac run_step := first [ run_prim | rewrite bind_assoc ].

(** ** Paging *)

Section PagingFacts.
Context `{External}.

Lemma load_waypoints_into_autopilot_run (w : world) :
  let content :=
    build_waypoints_string_from_mission_waypoints (waypoints_in_autopilot w) in
  load_waypoints_into_autopilot w
  = Return (upload_count content >? 0)
      (set_trace (trace w ++ upload_events content) w).
Proof.
  unfold load_waypoints_into_autopilot, load_waypoints_using_mavutil,
    upload_count, upload_events, bind, get, emit, modify, ret; cbn.
  destruct (wploader_load _) as [n|]; cbn.
  - destruct (n =? 0); cbn; unfold set_trace; cbn;
      repeat rewrite <- app_assoc; reflexivity.
  - reflexivity.
Qed.

(** The tail every page load shares: assign the page and its bounds, write
    the database row, upload. *)
Lemma page_load_run (page : list waypoint) (s e : Z) (w : world) :
  (modify (set_waypoints_in_autopilot page) ;;
   modify (set_number_start s) ;;
   modify (set_number_end e) ;;
   save_mission_info_to_db ;;
   load_waypoints_into_autopilot) w
  = Return (upload_count (build_waypoints_string_from_mission_waypoints page) >? 0)
      (page_loaded page s e w).
Proof.
  unfold load_waypoints_into_autopilot, load_waypoints_using_mavutil,
    save_mission_info_to_db, page_loaded, page_load_events, upload_count,
    upload_events, bind, get, emit, modify, ret; cbn.
  destruct (wploader_load _) as [n|]; cbn; [destruct (n =? 0); cbn|];
    unfold set_trace; cbn; repeat rewrite <- app_assoc; reflexivity.
Qed.

Lemma load_mission_loop (waypoints : list waypoint) :
  forall mission,
    fold_left load_mission_step waypoints (false, mission)
    = (false, mission ++ map round_waypoint waypoints).
Proof.
  induction waypoints as [|wp rest IH]; intros mission; simpl.
  - now rewrite app_nil_r.
  - rewrite IH. now rewrite <- app_assoc.
Qed.

Lemma load_mission_loop_from_empty (waypoints : list waypoint) :
  snd (fold_left load_mission_step waypoints (true, []))
  = mission_with_home waypoints.
Proof.
  destruct waypoints as [|wp rest]; simpl; trivial.
  now rewrite load_mission_loop.
Qed.

Lemma load_mission_run (waypoints : list waypoint) (w : world) :
  let mission := mission_with_home waypoints in
  let page :=
    PyList.slice mission 0 (Constants.WAYPOINT_LOAD_COUNT_INITIAL + 1) in
  load_mission_data_from_mission_waypoints waypoints w
  = Return (upload_count (build_waypoints_string_from_mission_waypoints page) >? 0)
      (page_loaded page 1 Constants.WAYPOINT_LOAD_COUNT_INITIAL
         (set_waypoints_in_mission mission w)).
Proof.
  intros mission page. unfold load_mission_data_from_mission_waypoints.
  do 3 run_prim.
  change (waypoints_in_mission (set_waypoints_in_mission [] w))
    with (@nil waypoint).
  rewrite load_mission_loop_from_empty. fold mission.
  change (waypoints_in_mission
            (set_waypoints_in_mission mission (set_waypoints_in_mission [] w)))
    with mission.
  fold page. rewrite page_load_run. reflexivity.
Qed.

Lemma load_next_run (w : world) :
  more_waypoints_to_load w = true ->
  0 <= last_autopilot_loaded_waypoint_number_end w ->
  let mission := waypoints_in_mission w in
  let s := last_autopilot_loaded_waypoint_number_end w in
  let e := next_waypoint_end_of w in
  exists home,
    nth_error mission (Z.to_nat s) = Some home
    /\ s < e <= PyList.len mission
    /\ load_next_round_of_waypoints w
       = Return (upload_count (build_waypoints_string_from_mission_waypoints
                                 (home :: PyList.slice mission s (e + 1))) >? 0)
           (page_loaded (home :: PyList.slice mission s (e + 1)) s e w)
    /\ PyList.slice mission s (e + 1)
       = home :: PyList.slice mission (s + 1) (e + 1).
Proof.
  intros Hmore Hend mission s e.
  assert (Hs : s < PyList.len mission - 1).
  { unfold more_waypoints_to_load, end_waypoint_number_of_complete_mission in Hmore.
    now apply Z.ltb_lt in Hmore. }
  assert (He : s < e <= PyList.len mission).
  { unfold e, next_waypoint_end_of, Constants.WAYPOINT_LOAD_COUNT_SUBSEQUENT.
    fold s mission.
    destruct (Z.gtb_spec (s + 250) (PyList.len mission)); lia. }
  destruct (slice_head mission s (e + 1)) as (home & Hnth & Hslice);
    [unfold s; lia | lia |].
  exists home. repeat split; trivial; try lia.
  unfold load_next_round_of_waypoints.
  run_prim. rewrite Hmore.
  change (if last_autopilot_loaded_waypoint_number_end w
             + Constants.WAYPOINT_LOAD_COUNT_SUBSEQUENT
             >? PyList.len (waypoints_in_mission w)
          then PyList.len (waypoints_in_mission w)
          else last_autopilot_loaded_waypoint_number_end w
               + Constants.WAYPOINT_LOAD_COUNT_SUBSEQUENT)
    with (next_waypoint_end_of w).
  fold s e mission.
  assert (Hidx : PyList.index (PyList.slice mission s (e + 1)) 0 = Some home)
    by (rewrite Hslice; apply index_0_cons).
  run_prim. rewrite Hidx. unfold PyList.insert0.
  rewrite page_load_run. reflexivity.
Qed.

End PagingFacts.

Section PagingClaims.
Context `{External}.

Lemma page_load_then_ret (page : list waypoint) (s e r : Z) (w : world) :
  (modify (set_waypoints_in_autopilot page) ;;
   modify (set_number_start s) ;;
   modify (set_number_end e) ;;
   save_mission_info_to_db ;;
   _ <- load_waypoints_into_autopilot ;;
   ret r) w
  = Return r (page_loaded page s e w).
Proof.
  unfold load_waypoints_into_autopilot, load_waypoints_using_mavutil,
    save_mission_info_to_db, page_loaded, page_load_events, upload_count,
    upload_events, bind, get, emit, modify, ret; cbn.
  destruct (wploader_load _) as [n|]; cbn; [destruct (n =? 0); cbn|];
    unfold set_trace; cbn; repeat rewrite <- app_assoc; reflexivity.
Qed.

Lemma load_prior_run (w : world) :
  prior_waypoints_to_load w = true ->
  let mission := waypoints_in_mission w in
  let rewind :=
    last_autopilot_loaded_waypoint_number_end w
    <=? Constants.WAYPOINT_LOAD_COUNT_INITIAL
        + Constants.WAYPOINT_LOAD_COUNT_SUBSEQUENT in
  let s := if rewind then 0
           else last_autopilot_loaded_waypoint_number_start w
                - Constants.WAYPOINT_LOAD_COUNT_SUBSEQUENT - 1 in
  let e := if rewind then Constants.WAYPOINT_LOAD_COUNT_INITIAL
           else last_autopilot_loaded_waypoint_number_start w in
  let ret_val := if rewind then Constants.WAYPOINT_LOAD_COUNT_INITIAL
                 else Constants.WAYPOINT_LOAD_COUNT_SUBSEQUENT in
  load_prior_round_of_waypoints w
  = Return ret_val (page_loaded (PyList.slice mission s (e + 1)) s e w).
Proof.
  intros Hprior mission rewind s e ret_val.
  unfold load_prior_round_of_waypoints. run_prim. rewrite Hprior.
  fold rewind mission.
  unfold s, e, ret_val. destruct rewind; apply page_load_then_ret.
Qed.

Lemma hold_run (w : world) :
  hold w = Return tt (after_stop_or_start hold_events w).
Proof.
  unfold hold, set_mode. repeat run_step.
  unfold emit, modify. world_norm.
  unfold after_stop_or_start, hold_events.
  repeat rewrite <- app_assoc. reflexivity.
Qed.

Lemma start_robot_run (w : world) :
  start_robot w = Return tt (after_stop_or_start start_events w).
Proof.
  unfold start_robot, set_mode. repeat run_step.
  unfold emit, modify. world_norm.
  unfold after_stop_or_start, start_events.
  repeat rewrite <- app_assoc. reflexivity.
Qed.

Lemma end_of_mission_cleanup_mission (w : world) :
  waypoints_in_mission (world_of (end_of_mission_cleanup w))
  = mission_with_home (waypoints_in_mission w).
Proof.
  unfold end_of_mission_cleanup.
  run_with (hold_run w). do 2 run_prim.
  erewrite bind_run by apply load_mission_run.
  reflexivity.
Qed.

Lemma mission_with_home_length (waypoints : list waypoint) :
  waypoints <> [] ->
  PyList.len (mission_with_home waypoints) = PyList.len waypoints + 1.
Proof.
  destruct waypoints as [|wp rest]; [congruence|]. intros _.
  unfold PyList.len. simpl. rewrite length_map. lia.
Qed.

Lemma mission_with_home_leading (waypoints : list waypoint) (k : nat) (home : waypoint) :
  (forall i, (i <= k)%nat -> nth_error waypoints i = Some home) ->
  forall i, (i <= S k)%nat ->
    nth_error (mission_with_home waypoints) i = Some (round_waypoint home).
Proof.
  intros Hlead i Hi.
  destruct waypoints as [|wp rest].
  - specialize (Hlead 0%nat (Nat.le_0_l k)). discriminate.
  - pose proof (Hlead 0%nat (Nat.le_0_l k)) as H0. simpl in H0.
    injection H0 as ->.
    destruct i as [|i]; simpl; trivial.
    change (round_waypoint home :: map round_waypoint rest)
      with (map round_waypoint (home :: rest)).
    rewrite nth_error_map, Hlead by lia. reflexivity.
Qed.

(** C9.  Calling [load_mission_data_from_mission_waypoints] twice in a row
    with the same waypoint list leaves the same paging state after each
    call: the same mission, the same loaded page and the same recorded
    start and end; the mission is the one built from the list alone, with
    nothing carried over from the first call. *)
Theorem load_mission_twice_same_paging_state
  (waypoints : list waypoint) (w : world) :
  let once :=
    world_of (load_mission_data_from_mission_waypoints waypoints w) in
  let twice :=
    world_of (load_mission_data_from_mission_waypoints waypoints once) in
  paging_state twice = paging_state once
  /\ waypoints_in_mission twice = mission_with_home waypoints
  /\ PyList.len (waypoints_in_mission twice)
     = PyList.len (waypoints_in_mission once).
Proof.
  intros once twice. unfold twice, once.
  rewrite !load_mission_run. cbn [world_of].
  repeat split.
Qed.

(** C10.  Whenever the stored mission has a first element, one
    [end_of_mission_cleanup] makes [waypoints_in_mission] one entry longer
    and its first two entries equal; [k] cleanups in a row make it [k]
    entries longer, with its first [k + 1] entries all equal. *)
Theorem end_of_mission_cleanup_accumulates_home (w : world) :
  waypoints_in_mission w <> [] ->
  let after := world_of (end_of_mission_cleanup w) in
  PyList.len (waypoints_in_mission after)
  = PyList.len (waypoints_in_mission w) + 1
  /\ (exists home,
         nth_error (waypoints_in_mission after) 0 = Some home
         /\ nth_error (waypoints_in_mission after) 1 = Some home)
  /\ forall k : nat,
       PyList.len (waypoints_in_mission (cleanups k w))
       = PyList.len (waypoints_in_mission w) + Z.of_nat k
       /\ exists home,
            forall i, (i <= k)%nat ->
              nth_error (waypoints_in_mission (cleanups k w)) i = Some home.
Proof.
  intros Hne after.
  assert (Hiter : forall k : nat,
             PyList.len (waypoints_in_mission (cleanups k w))
             = PyList.len (waypoints_in_mission w) + Z.of_nat k
             /\ exists home,
                  forall i, (i <= k)%nat ->
                    nth_error (waypoints_in_mission (cleanups k w)) i
                    = Some home).
  { induction k as [|k [IHlen (home & IHlead)]].
    - split; [simpl; lia|].
      destruct (waypoints_in_mission w) as [|home rest] eqn:E; [congruence|].
      exists home. intros i Hi. replace i with 0%nat by lia.
      simpl. now rewrite E.
    - change (cleanups (S k) w)
        with (world_of (end_of_mission_cleanup (cleanups k w))).
      rewrite end_of_mission_cleanup_mission. split.
      + rewrite mission_with_home_length.
        * rewrite IHlen. lia.
        * intros E. specialize (IHlead 0%nat (Nat.le_0_l k)).
          rewrite E in IHlead. discriminate.
      + exists (round_waypoint home).
        now apply mission_with_home_leading. }
  split; [|split]; trivial.
  - destruct (Hiter 1%nat) as [Hlen _]. exact Hlen.
  - destruct (Hiter 1%nat) as [_ (home & Hlead)].
    exists home. split; apply Hlead; lia.
Qed.

End PagingClaims.

(** ** Covering the mission page by page *)

Section Coverage.
Context `{External}.

Lemma last_cons_default {A : Type} (l : list A) :
  forall x d : A, last (x :: l) d = last l x.
Proof.
  induction l as [|y l IH]; intros x d; trivial.
  change (last (x :: y :: l) d) with (last (y :: l) d).
  now rewrite !IH.
Qed.

Lemma load_remaining_pages_cover (mission : list waypoint) :
  forall (fuel : nat) (w : world),
    waypoints_in_mission w = mission ->
    0 <= last_autopilot_loaded_waypoint_number_end w ->
    (Z.to_nat (PyList.len mission - 1
               - last_autopilot_loaded_waypoint_number_end w) <= fuel)%nat ->
    exists pages,
      load_remaining_pages fuel w = Some pages
      /\ Forall (next_page_of mission) pages
      /\ pages_chained (last_autopilot_loaded_waypoint_number_end w) pages
      /\ more_waypoints_to_load (last pages w) = false
      /\ PyList.len mission - 1
         <= last_autopilot_loaded_waypoint_number_end (last pages w)
      /\ PyList.slice mission 0
           (last_autopilot_loaded_waypoint_number_end w + 1)
         ++ List.concat (map fresh_entries pages)
         = mission.
Proof.
  induction fuel as [|fuel IH]; intros w Hm Hend Hfuel.
  - (* no fuel: the current page already reaches the end of the mission *)
    assert (Hdone : more_waypoints_to_load w = false).
    { unfold more_waypoints_to_load, end_waypoint_number_of_complete_mission.
      rewrite Hm. apply Z.ltb_ge. lia. }
    exists []. simpl. rewrite Hdone.
    unfold more_waypoints_to_load, end_waypoint_number_of_complete_mission in Hdone.
    rewrite Hm in Hdone. apply Z.ltb_ge in Hdone.
    repeat split; trivial.
    rewrite app_nil_r. apply slice_prefix_all. lia.
  - destruct (more_waypoints_to_load w) eqn:Hmore.
    + destruct (load_next_run w Hmore Hend) as (home & Hnth & He & Hrun & Hslice).
      rewrite Hm in Hnth, He, Hrun, Hslice.
      set (s := last_autopilot_loaded_waypoint_number_end w) in *.
      set (e := next_waypoint_end_of w) in *.
      set (w' := page_loaded (home :: PyList.slice mission s (e + 1)) s e w) in *.
      destruct (IH w') as (pages & Hpages & Hall & Hchain & Hlast & Hreach & Hglue).
      * exact Hm.
      * unfold w', page_loaded; world_norm. lia.
      * unfold w', page_loaded; world_norm. lia.
      * exists (w' :: pages).
        cbn [load_remaining_pages]. rewrite Hmore, Hrun, Hpages.
        rewrite last_cons_default.
        assert (Hs : s < PyList.len mission - 1).
        { unfold more_waypoints_to_load,
            end_waypoint_number_of_complete_mission in Hmore.
          apply Z.ltb_lt in Hmore. rewrite Hm in Hmore. exact Hmore. }
        split; [reflexivity|].
        split.
        { constructor; trivial.
          unfold next_page_of, w', page_loaded; world_norm.
          split; [exact Hm|]. split; [lia|].
          exists home. split; trivial. }
        split.
        { cbn [pages_chained]. unfold w' at 1 2, page_loaded; world_norm.
          split; [reflexivity|]. split; [lia|]. exact Hchain. }
        split; [exact Hlast|]. split; [exact Hreach|].
        cbn [map List.concat]. unfold fresh_entries at 1.
        unfold w' at 1, page_loaded; world_norm.
        rewrite Hslice. cbn [skipn].
        rewrite app_assoc, slice_glue by lia.
        exact Hglue.
    + exists []. cbn [load_remaining_pages]. rewrite Hmore.
      unfold more_waypoints_to_load, end_waypoint_number_of_complete_mission in Hmore.
      rewrite Hm in Hmore. apply Z.ltb_ge in Hmore.
      repeat split; trivial.
      * simpl. unfold more_waypoints_to_load,
          end_waypoint_number_of_complete_mission.
        rewrite Hm. apply Z.ltb_ge. lia.
      * simpl. rewrite app_nil_r. apply slice_prefix_all. lia.
Qed.

Lemma chained_pages_cover (pages : list world) :
  forall (prev_end : Z) (d : world),
    last_autopilot_loaded_waypoint_number_end d = prev_end ->
    pages_chained prev_end pages ->
    forall i,
      prev_end < i <= last_autopilot_loaded_waypoint_number_end (last pages d) ->
      Exists (fun p => in_window p i) pages.
Proof.
  induction pages as [|p rest IH]; intros prev_end d Hd Hchain i Hi.
  - simpl in Hi. lia.
  - destruct Hchain as (Hstart & Hgrow & Hrest).
    rewrite last_cons_default in Hi.
    destruct (Z.le_gt_cases i (last_autopilot_loaded_waypoint_number_end p)).
    + apply Exists_cons_hd. unfold in_window. lia.
    + apply Exists_cons_tl.
      apply (IH (last_autopilot_loaded_waypoint_number_end p) p); trivial. lia.
Qed.

Lemma chained_pages_overlap_once (pages : list world) :
  forall prev_start prev_end,
    prev_start <= prev_end ->
    pages_chained prev_end pages ->
    pages_overlap_once prev_start prev_end pages.
Proof.
  induction pages as [|p rest IH]; intros prev_start prev_end Hle Hchain.
  - exact I.
  - destruct Hchain as (Hstart & Hgrow & Hrest). split.
    + intros i. unfold in_window. lia.
    + apply IH; trivial. lia.
Qed.

(** C1.  Load a mission with [load_mission_data_from_mission_waypoints] and
    keep calling [load_next_round_of_waypoints] while
    [more_waypoints_to_load()] holds.  The stored mission is the list that
    was given, every point rounded to eight places and the first one
    twice.  The loop ends within as many calls
    as the mission has entries; the first page holds the mission from
    index 0 up to its recorded end; every later page holds the window from
    its recorded start to its recorded end behind one duplicated home
    entry; each page starts at the very index the page before it ended at,
    and ends strictly later; the last page reaches the last mission index;
    and the first page followed by what each later page holds beyond its
    home entry and the one shared entry is exactly the mission.  So every
    mission index lies in the window of some page, and each page shares
    with the page before it exactly one index, the one that page ended
    at. *)
Theorem load_next_pages_cover_mission (waypoints : list waypoint) (w0 : world) :
  let first :=
    world_of (load_mission_data_from_mission_waypoints waypoints w0) in
  let mission := waypoints_in_mission first in
  let first_end := last_autopilot_loaded_waypoint_number_end first in
  mission = mission_with_home waypoints
  /\ exists pages,
       load_remaining_pages (List.length mission) first = Some pages
       /\ waypoints_in_autopilot first = PyList.slice mission 0 (first_end + 1)
       /\ Forall (next_page_of mission) pages
       /\ pages_chained first_end pages
       /\ more_waypoints_to_load (last pages first) = false
       /\ PyList.len mission - 1
          <= last_autopilot_loaded_waypoint_number_end (last pages first)
       /\ waypoints_in_autopilot first ++ List.concat (map fresh_entries pages)
          = mission_with_home waypoints
       /\ (forall i,
             0 <= i <= PyList.len mission - 1 ->
             0 <= i <= first_end \/ Exists (fun p => in_window p i) pages)
       /\ pages_overlap_once 0 first_end pages.
Proof.
  intros first mission first_end.
  assert (Hmission : mission = mission_with_home waypoints).
  { unfold mission, first. rewrite load_mission_run. reflexivity. }
  split; [exact Hmission|].
  assert (Hfirst : waypoints_in_autopilot first
                   = PyList.slice mission 0 (first_end + 1)).
  { unfold first_end, mission, first. rewrite load_mission_run. reflexivity. }
  assert (Hend : first_end = Constants.WAYPOINT_LOAD_COUNT_INITIAL).
  { unfold first_end, first. rewrite load_mission_run. reflexivity. }
  destruct (load_remaining_pages_cover mission (List.length mission) first)
    as (pages & Hpages & Hall & Hchain & Hlast & Hreach & Hglue).
  - reflexivity.
  - fold first_end. rewrite Hend.
    unfold Constants.WAYPOINT_LOAD_COUNT_INITIAL. lia.
  - fold first_end. rewrite Hend.
    unfold Constants.WAYPOINT_LOAD_COUNT_INITIAL, PyList.len. lia.
  - fold first_end in Hchain, Hglue.
    exists pages. rewrite Hfirst.
    split; [exact Hpages|]. split; [reflexivity|]. split; [exact Hall|].
    split; [exact Hchain|]. split; [exact Hlast|]. split; [exact Hreach|].
    split; [now rewrite <- Hmission|]. split.
    + intros i Hi.
      destruct (Z.le_gt_cases i first_end) as [Hin|Hout]; [left; lia|].
      right. apply (chained_pages_cover pages first_end first); trivial. lia.
    + apply chained_pages_overlap_once; trivial.
      rewrite Hend. unfold Constants.WAYPOINT_LOAD_COUNT_INITIAL. lia.
Qed.

End Coverage.

(** ** Page bounds and page sizes *)

Section Bounds.
Context `{External}.

Lemma next_waypoint_end_le (w : world) :
  next_waypoint_end_of w
  <= last_autopilot_loaded_waypoint_number_end w
     + Constants.WAYPOINT_LOAD_COUNT_SUBSEQUENT.
Proof.
  unfold next_waypoint_end_of.
  destruct (Z.gtb_spec
              (last_autopilot_loaded_waypoint_number_end w
               + Constants.WAYPOINT_LOAD_COUNT_SUBSEQUENT)
              (PyList.len (waypoints_in_mission w))); lia.
Qed.

(** C2, as the code has it.  After
    [load_mission_data_from_mission_waypoints] the recorded start is not
    negative and at most the recorded end, and at most the initial page
    size plus one entries are uploaded.  After a
    [load_next_round_of_waypoints] that finds more waypoints, from a state
    whose recorded end is not negative, the recorded start is a valid
    mission index below the recorded end, and at most the subsequent page
    size plus two entries are uploaded: a window of that size plus one, and
    the duplicated home entry.  After a [load_prior_round_of_waypoints]
    that finds prior waypoints, the recorded start is at most the recorded
    end, and at most the initial page size plus one entries are uploaded
    when it rewinds to the initial window, at most the subsequent page size
    plus two otherwise. *)
Theorem page_bounds_and_sizes (w : world) :
  (forall waypoints,
      let after :=
        world_of (load_mission_data_from_mission_waypoints waypoints w) in
      0 <= last_autopilot_loaded_waypoint_number_start after
        <= last_autopilot_loaded_waypoint_number_end after
      /\ uploaded_within Constants.WAYPOINT_LOAD_COUNT_INITIAL after)
  /\ (more_waypoints_to_load w = true ->
      0 <= last_autopilot_loaded_waypoint_number_end w ->
      exists loaded after,
        load_next_round_of_waypoints w = Return loaded after
        /\ 0 <= last_autopilot_loaded_waypoint_number_start after
             < PyList.len (waypoints_in_mission after)
        /\ last_autopilot_loaded_waypoint_number_start after
           < last_autopilot_loaded_waypoint_number_end after
        /\ uploaded_within (Constants.WAYPOINT_LOAD_COUNT_SUBSEQUENT + 1) after)
  /\ (prior_waypoints_to_load w = true ->
      exists returned after,
        load_prior_round_of_waypoints w = Return returned after
        /\ last_autopilot_loaded_waypoint_number_start after
           <= last_autopilot_loaded_waypoint_number_end after
        /\ uploaded_within
             (if last_autopilot_loaded_waypoint_number_end w
                 <=? Constants.WAYPOINT_LOAD_COUNT_INITIAL
                     + Constants.WAYPOINT_LOAD_COUNT_SUBSEQUENT
              then Constants.WAYPOINT_LOAD_COUNT_INITIAL
              else Constants.WAYPOINT_LOAD_COUNT_SUBSEQUENT + 1)
             after).
Proof.
  split; [|split].
  - intros waypoints after. unfold after, uploaded_within.
    rewrite load_mission_run. cbn [world_of page_loaded
      last_autopilot_loaded_waypoint_number_start
      last_autopilot_loaded_waypoint_number_end waypoints_in_autopilot].
    pose proof (slice_length_le (mission_with_home waypoints) 0
                  (Constants.WAYPOINT_LOAD_COUNT_INITIAL + 1)) as Hlen.
    unfold Constants.WAYPOINT_LOAD_COUNT_INITIAL in *. lia.
  - intros Hmore Hend.
    destruct (load_next_run w Hmore Hend) as (home & Hnth & He & Hrun & Hslice).
    pose proof (next_waypoint_end_le w) as Hle.
    eexists _, _. split; [exact Hrun|].
    unfold uploaded_within.
    cbn [page_loaded last_autopilot_loaded_waypoint_number_start
      last_autopilot_loaded_waypoint_number_end waypoints_in_autopilot
      waypoints_in_mission].
    unfold more_waypoints_to_load, end_waypoint_number_of_complete_mission
      in Hmore. apply Z.ltb_lt in Hmore.
    split; [lia|]. split; [lia|].
    pose proof (slice_length_le (waypoints_in_mission w)
                  (last_autopilot_loaded_waypoint_number_end w)
                  (next_waypoint_end_of w + 1)) as Hlen.
    unfold PyList.len in *. cbn [List.length].
    unfold Constants.WAYPOINT_LOAD_COUNT_SUBSEQUENT in *. lia.
  - intros Hprior.
    eexists _, _. split; [apply (load_prior_run w Hprior)|].
    unfold uploaded_within.
    cbn [page_loaded last_autopilot_loaded_waypoint_number_start
      last_autopilot_loaded_waypoint_number_end waypoints_in_autopilot].
    unfold Constants.WAYPOINT_LOAD_COUNT_SUBSEQUENT,
      Constants.WAYPOINT_LOAD_COUNT_INITIAL.
    destruct (last_autopilot_loaded_waypoint_number_end w <=? 100 + 250).
    + split; [lia|].
      pose proof (slice_length_le (waypoints_in_mission w) 0 (100 + 1)). lia.
    + split; [lia|].
      pose proof (slice_length_le (waypoints_in_mission w)
                    (last_autopilot_loaded_waypoint_number_start w - 250 - 1)
                    (last_autopilot_loaded_waypoint_number_start w + 1)). lia.
Qed.

End Bounds.

(** ** Distances *)

Section Distances.
Context `{External}.

Lemma distance_to_nonneg (utm : GLOBAL_POSITION_INT.t) (wp_loc : waypoint) :
  (0 <= distance_to utm wp_loc)%Q.
Proof. apply Qabs_nonneg. Qed.

Lemma distance_data_unavailable (w : world) :
  distance_data_available w = false ->
  get_wp_dist_in_meters w = Return (-1)%Q w
  /\ get_prev_wp_dist_in_meters w = Return (-1)%Q w.
Proof.
  unfold distance_data_available, get_wp_dist_in_meters,
    get_prev_wp_dist_in_meters. intros Hdata.
  split; run_prim;
    destruct (PyList.truthy (waypoints_in_autopilot w)
              && (PyList.len (waypoints_in_autopilot w) >? 0)); trivial;
    destruct (global_position_int (autopilot_data w)); trivial;
    destruct (mission_current (autopilot_data w)); trivial; discriminate.
Qed.

(** C4, as the code has it.  Both distance functions return -1 when the
    loaded page is empty or the position entry or the mission-progress
    entry is absent.  Otherwise
    [get_prev_wp_dist_in_meters] returns 0 when the progress index is 0,
    and whenever the index looked up (the progress index, with 0 read as
    1, for the next waypoint; the progress index minus one for the
    previous one) is inside the loaded page, the function returns the
    rounded haversine distance to that entry, which is not negative; with
    the data present neither function ever returns a negative number, so
    -1 is returned exactly when the data is missing. *)
Theorem distance_sentinel (w : world) :
  (distance_data_available w = false ->
   get_wp_dist_in_meters w = Return (-1)%Q w
   /\ get_prev_wp_dist_in_meters w = Return (-1)%Q w)
  /\ (distance_data_available w = true ->
      forall utm mc,
        global_position_int (autopilot_data w) = Some utm ->
        mission_current (autopilot_data w) = Some mc ->
        let seq := MISSION_CURRENT.seq mc in
        (seq - 1 < 0 -> get_prev_wp_dist_in_meters w = Return 0%Q w)
        /\ (forall wp_loc,
               0 <= seq - 1 ->
               PyList.index (waypoints_in_autopilot w) (seq - 1) = Some wp_loc ->
               get_prev_wp_dist_in_meters w = Return (distance_to utm wp_loc) w)
        /\ (forall wp_loc,
               PyList.index (waypoints_in_autopilot w)
                 (if seq =? 0 then 1 else seq) = Some wp_loc ->
               get_wp_dist_in_meters w = Return (distance_to utm wp_loc) w)
        /\ (forall d w',
               get_wp_dist_in_meters w = Return d w'
               \/ get_prev_wp_dist_in_meters w = Return d w' ->
               w' = w /\ (0 <= d)%Q)).
Proof.
  split; [apply distance_data_unavailable|].
  intros Hdata utm mc Hutm Hmc seq.
  unfold distance_data_available in Hdata. rewrite Hutm, Hmc in Hdata.
  rewrite !andb_true_r in Hdata.
  assert (Hprev : get_prev_wp_dist_in_meters w
                  = if seq - 1 <? 0 then Return 0%Q w
                    else match PyList.index (waypoints_in_autopilot w) (seq - 1) with
                         | Some wp_loc => Return (distance_to utm wp_loc) w
                         | None => Raise IndexError w
                         end).
  { unfold get_prev_wp_dist_in_meters. run_prim.
    rewrite Hdata, Hutm, Hmc. fold seq.
    destruct (seq - 1 <? 0); trivial.
    destruct (PyList.index (waypoints_in_autopilot w) (seq - 1));
      reflexivity. }
  assert (Hnext : get_wp_dist_in_meters w
                  = match PyList.index (waypoints_in_autopilot w)
                            (if seq =? 0 then 1 else seq) with
                    | Some wp_loc => Return (distance_to utm wp_loc) w
                    | None => Raise IndexError w
                    end).
  { unfold get_wp_dist_in_meters. run_prim.
    rewrite Hdata, Hutm, Hmc. fold seq.
    destruct (PyList.index (waypoints_in_autopilot w)
                (if seq =? 0 then 1 else seq)); reflexivity. }
  split; [|split; [|split]].
  - intros Hneg. apply Z.ltb_lt in Hneg. now rewrite Hprev, Hneg.
  - intros wp_loc Hpos Hidx. apply Z.ltb_ge in Hpos.
    now rewrite Hprev, Hpos, Hidx.
  - intros wp_loc Hidx. now rewrite Hnext, Hidx.
  - intros d w' [E|E].
    + rewrite Hnext in E.
      destruct (PyList.index (waypoints_in_autopilot w)
                  (if seq =? 0 then 1 else seq)); [|discriminate].
      injection E as <- <-. split; [reflexivity | apply distance_to_nonneg].
    + rewrite Hprev in E. destruct (seq - 1 <? 0).
      * injection E as <- <-. split; [reflexivity | discriminate].
      * destruct (PyList.index (waypoints_in_autopilot w) (seq - 1));
          [|discriminate].
        injection E as <- <-. split; [reflexivity | apply distance_to_nonneg].
Qed.

End Distances.

(** ** Navigation across a page boundary *)

Section Navigation.
Context `{External}.

(** The sequence [goto_next_wp] and [goto_wp_plus_50] share when the target
    lies in the next page. *)
Lemma jump_run (was_in_auto_mode : bool) (target : Z) (w : world) :
  more_waypoints_to_load w = true ->
  0 <= last_autopilot_loaded_waypoint_number_end w ->
  let mission := waypoints_in_mission w in
  let s := last_autopilot_loaded_waypoint_number_end w in
  let e := next_waypoint_end_of w in
  exists home after,
    nth_error mission (Z.to_nat s) = Some home
    /\ (when was_in_auto_mode hold ;;
        _ <- load_next_round_of_waypoints ;;
        sleep (1 # 10) ;;
        goto_wp target ;;
        sleep (1 # 10) ;;
        when was_in_auto_mode start_robot) w
       = Return tt after
    /\ trace after
       = trace w
         ++ jump_events was_in_auto_mode
              (page_load_events (home :: PyList.slice mission s (e + 1))
                 mission s e)
              target
    /\ paging_state after
       = paging_state
           (page_loaded (home :: PyList.slice mission s (e + 1)) s e w).
Proof.
  intros Hmore Hend mission s e.
  destruct was_in_auto_mode; unfold when.
  - run_with (hold_run w).
    destruct (load_next_run (after_stop_or_start hold_events w) Hmore Hend)
      as (home & Hnth & _ & Hrun & _).
    run_with Hrun. run_prim. unfold goto_wp. do 2 run_prim.
    rewrite start_robot_run.
    exists home. eexists. split; [exact Hnth|]. split; [reflexivity|].
    split; [|reflexivity].
    unfold jump_events. cbn [trace after_stop_or_start set_clock set_trace
      page_loaded waypoints_in_mission last_autopilot_loaded_waypoint_number_end].
    fold mission s. change (next_waypoint_end_of (after_stop_or_start hold_events w))
      with e.
    now repeat rewrite <- app_assoc.
  - run_with (ret_run tt w).
    destruct (load_next_run w Hmore Hend) as (home & Hnth & _ & Hrun & _).
    run_with Hrun. run_prim. unfold goto_wp. do 2 run_prim.
    exists home. eexists. split; [exact Hnth|]. split; [reflexivity|].
    split; [|reflexivity].
    unfold jump_events. cbn [trace set_clock set_trace page_loaded].
    fold mission s e. rewrite app_nil_r.
    now repeat rewrite <- app_assoc.
Qed.

Lemma count_events_app (p : event -> bool) (t u : list event) :
  count_events p (t ++ u) = (count_events p t + count_events p u)%nat.
Proof. unfold count_events. now rewrite filter_app, length_app. Qed.

Lemma page_load_events_counts (page mission : list waypoint) (s e : Z) :
  let load := page_load_events page mission s e in
  count_events is_persist load = 1%nat
  /\ count_events is_upload load = 1%nat
  /\ count_events is_goto load = 0%nat.
Proof.
  unfold page_load_events, upload_events, count_events.
  destruct (wploader_load _) as [n|]; [destruct (n =? 0)|]; repeat split.
Qed.

Lemma jump_events_counts (was_in_auto_mode : bool) (target : Z)
  (page mission : list waypoint) (s e : Z) :
  let load := page_load_events page mission s e in
  let events := jump_events was_in_auto_mode load target in
  exists before later,
    events = before ++ EvWaypointSetCurrentSend target :: later
    /\ count_events is_persist events = 1%nat
    /\ count_events is_upload events = 1%nat
    /\ count_events is_page_load later = 0%nat
    /\ count_events is_goto events = 1%nat.
Proof.
  intros load events.
  destruct (page_load_events_counts page mission s e) as (Hp & Hu & Hg).
  fold load in Hp, Hu, Hg.
  exists ((if was_in_auto_mode then hold_events else []) ++ load),
         (if was_in_auto_mode then start_events else []).
  unfold events, jump_events.
  split; [now rewrite <- app_assoc|].
  rewrite !count_events_app, Hp, Hu, Hg.
  destruct was_in_auto_mode; repeat split.
Qed.

(** The jump as the claims read it: its events split around the one
    waypoint-set command, with exactly one page load, all of it before. *)
Lemma jump_summary (was_in_auto_mode : bool) (target : Z) (w : world) :
  more_waypoints_to_load w = true ->
  0 <= last_autopilot_loaded_waypoint_number_end w ->
  exists after before later,
    (when was_in_auto_mode hold ;;
     _ <- load_next_round_of_waypoints ;;
     sleep (1 # 10) ;;
     goto_wp target ;;
     sleep (1 # 10) ;;
     when was_in_auto_mode start_robot) w
    = Return tt after
    /\ skipn (List.length (trace w)) (trace after)
       = before ++ EvWaypointSetCurrentSend target :: later
    /\ count_events is_persist (skipn (List.length (trace w)) (trace after))
       = 1%nat
    /\ count_events is_upload (skipn (List.length (trace w)) (trace after))
       = 1%nat
    /\ count_events is_page_load later = 0%nat
    /\ count_events is_goto (skipn (List.length (trace w)) (trace after))
       = 1%nat
    /\ paging_state after
       = paging_state (world_of (load_next_round_of_waypoints w)).
Proof.
  intros Hmore Hend.
  destruct (jump_run was_in_auto_mode target w Hmore Hend)
    as (home & after & Hnth & Hrun & Htrace & Hstate).
  destruct (load_next_run w Hmore Hend) as (home' & Hnth' & _ & Hnext & _).
  assert (Hhome : home' = home) by congruence. subst home'.
  destruct (jump_events_counts was_in_auto_mode target
              (home :: PyList.slice (waypoints_in_mission w)
                         (last_autopilot_loaded_waypoint_number_end w)
                         (next_waypoint_end_of w + 1))
              (waypoints_in_mission w)
              (last_autopilot_loaded_waypoint_number_end w)
              (next_waypoint_end_of w))
    as (before & later & Hsplit & Hp & Hu & Hl & Hg).
  exists after, before, later.
  rewrite Htrace, skipn_trace_app.
  repeat split; trivial.
  rewrite Hstate, Hnext. reflexivity.
Qed.

(** C6.  When [goto_next_wp] runs with the progress index at the last index
    of the loaded page and more waypoints to load (and a recorded end that
    is not negative), what it sends splits around the single
    [waypoint_set_current_send(2)]: exactly one database row and exactly
    one upload, both before it, no page-load event after it, and no other
    waypoint-set command; the paging state it leaves is the one
    [load_next_round_of_waypoints] produces.  When the incremented index is
    inside the loaded page it sends [waypoint_set_current_send] with the
    incremented index and nothing else, and the world is otherwise
    unchanged. *)
Theorem goto_next_wp_page_loads (w : world) (mc : MISSION_CURRENT.t) :
  mission_current (autopilot_data w) = Some mc ->
  let seq := MISSION_CURRENT.seq mc in
  (seq = end_waypoint_number_of_waypoints_in_autopilot w ->
   more_waypoints_to_load w = true ->
   0 <= last_autopilot_loaded_waypoint_number_end w ->
   exists after before later,
     goto_next_wp w = Return tt after
     /\ events_since w (goto_next_wp w)
        = before ++ EvWaypointSetCurrentSend 2 :: later
     /\ count_events is_persist (events_since w (goto_next_wp w)) = 1%nat
     /\ count_events is_upload (events_since w (goto_next_wp w)) = 1%nat
     /\ count_events is_page_load later = 0%nat
     /\ count_events is_goto (events_since w (goto_next_wp w)) = 1%nat
     /\ paging_state after
        = paging_state (world_of (load_next_round_of_waypoints w)))
  /\ (seq + 1 <= end_waypoint_number_of_waypoints_in_autopilot w ->
      goto_next_wp w
      = Return tt
          (set_trace (trace w ++ [EvWaypointSetCurrentSend (seq + 1)]) w)).
Proof.
  intros Hmc seq. split.
  - intros Hlast Hmore Hend.
    destruct (jump_summary (flight_mode_is_auto w) 2 w Hmore Hend)
      as (after & before & later & Hrun & Hrest).
    assert (Hgoto : goto_next_wp w = Return tt after).
    { unfold goto_next_wp. run_prim. rewrite Hmc. fold seq.
      rewrite Hmore, andb_true_r.
      replace (seq + 1 >? end_waypoint_number_of_waypoints_in_autopilot w)
        with true by (symmetry; apply Z.gtb_lt; lia).
      exact Hrun. }
    exists after, before, later.
    rewrite Hgoto. unfold events_since. cbn [world_of].
    split; [reflexivity | exact Hrest].
  - intros Hin.
    unfold goto_next_wp. run_prim. rewrite Hmc. fold seq.
    replace (seq + 1 >? end_waypoint_number_of_waypoints_in_autopilot w)
      with false by (symmetry; rewrite Z.gtb_ltb; apply Z.ltb_ge; lia).
    reflexivity.
Qed.

(** C5, as the code has it.  When [goto_wp_plus_50] runs with progress
    index c, last index E of the loaded page, E < c + 50 and more waypoints
    to load (and a recorded end that is not negative), it loads the next
    page exactly once and then sends [waypoint_set_current_send] with
    50 - (E - c) + 1: the E - c points left in the old page taken from 50,
    plus one for the home entry that opens the new page.  When c + 50 is
    inside the loaded page it sends [waypoint_set_current_send(c + 50)] and
    nothing else. *)
Theorem goto_wp_plus_50_target (w : world) (mc : MISSION_CURRENT.t) :
  mission_current (autopilot_data w) = Some mc ->
  let c := MISSION_CURRENT.seq mc in
  let E := end_waypoint_number_of_waypoints_in_autopilot w in
  (E < c + 50 ->
   more_waypoints_to_load w = true ->
   0 <= last_autopilot_loaded_waypoint_number_end w ->
   exists after before later,
     goto_wp_plus_50 w = Return tt after
     /\ events_since w (goto_wp_plus_50 w)
        = before ++ EvWaypointSetCurrentSend (50 - (E - c) + 1) :: later
     /\ count_events is_persist (events_since w (goto_wp_plus_50 w)) = 1%nat
     /\ count_events is_upload (events_since w (goto_wp_plus_50 w)) = 1%nat
     /\ count_events is_page_load later = 0%nat
     /\ count_events is_goto (events_since w (goto_wp_plus_50 w)) = 1%nat
     /\ paging_state after
        = paging_state (world_of (load_next_round_of_waypoints w)))
  /\ (c + 50 <= E ->
      goto_wp_plus_50 w
      = Return tt
          (set_trace (trace w ++ [EvWaypointSetCurrentSend (c + 50)]) w)).
Proof.
  intros Hmc c E. split.
  - intros Hout Hmore Hend.
    destruct (jump_summary (flight_mode_is_auto w) (50 - (E - c) + 1) w Hmore Hend)
      as (after & before & later & Hrun & Hrest).
    assert (Hgoto : goto_wp_plus_50 w = Return tt after).
    { unfold goto_wp_plus_50. run_prim. rewrite Hmc. fold c E.
      rewrite Hmore.
      replace (c + 50 >? E) with true by (symmetry; apply Z.gtb_lt; lia).
      exact Hrun. }
    exists after, before, later.
    rewrite Hgoto. unfold events_since. cbn [world_of].
    split; [reflexivity | exact Hrest].
  - intros Hin.
    unfold goto_wp_plus_50. run_prim. rewrite Hmc. fold c E.
    replace (c + 50 >? E) with false
      by (symmetry; rewrite Z.gtb_ltb; apply Z.ltb_ge; lia).
    reflexivity.
Qed.

End Navigation.

(** ** The gyration monitor *)

Section Gyration.
Context `{External}.

(** The two distance functions only read the world. *)
Lemma get_prev_wp_dist_reads (w : world) :
  (exists d, get_prev_wp_dist_in_meters w = Return d w)
  \/ get_prev_wp_dist_in_meters w = Raise IndexError w.
Proof.
  unfold get_prev_wp_dist_in_meters. run_prim.
  destruct (PyList.truthy (waypoints_in_autopilot w)
            && (PyList.len (waypoints_in_autopilot w) >? 0));
    [|left; eexists; reflexivity].
  destruct (global_position_int (autopilot_data w));
    [|left; eexists; reflexivity].
  destruct (mission_current (autopilot_data w)) as [mc|];
    [|left; eexists; reflexivity].
  destruct (MISSION_CURRENT.seq mc - 1 <? 0); [left; eexists; reflexivity|].
  destruct (PyList.index (waypoints_in_autopilot w) (MISSION_CURRENT.seq mc - 1));
    [left; eexists; reflexivity | right; reflexivity].
Qed.

Lemma get_wp_dist_reads (w : world) :
  (exists d, get_wp_dist_in_meters w = Return d w)
  \/ get_wp_dist_in_meters w = Raise IndexError w.
Proof.
  unfold get_wp_dist_in_meters. run_prim.
  destruct (PyList.truthy (waypoints_in_autopilot w)
            && (PyList.len (waypoints_in_autopilot w) >? 0));
    [|left; eexists; reflexivity].
  destruct (global_position_int (autopilot_data w));
    [|left; eexists; reflexivity].
  destruct (mission_current (autopilot_data w)) as [mc|];
    [|left; eexists; reflexivity].
  destruct (PyList.index (waypoints_in_autopilot w)
              (if MISSION_CURRENT.seq mc =? 0 then 1 else MISSION_CURRENT.seq mc));
    [left; eexists; reflexivity | right; reflexivity].
Qed.

Lemma hold_sleep_start_robot_run (seconds : Q) (w : world) :
  let current_waypoint :=
    match mission_current (autopilot_data w) with
    | Some mc => MISSION_CURRENT.seq mc
    | None => 1
    end in
  exists after,
    hold_sleep_start_robot seconds w = Return tt after
    /\ trace after = trace w ++ stop_start_cycle current_waypoint.
Proof.
  intros current_waypoint.
  unfold hold_sleep_start_robot, hold_keep_wp.
  rewrite bind_assoc. run_prim. fold current_waypoint.
  rewrite bind_assoc. run_with (hold_run w).
  unfold after_stop_or_start. do 2 run_prim.
  rewrite start_robot_run. eexists. split; [reflexivity|].
  unfold after_stop_or_start; world_norm.
  unfold stop_start_cycle, hold_events, start_events.
  repeat rewrite <- app_assoc. reflexivity.
Qed.

(** What one [try] block can do: raise with the world untouched, or return
    having sent either no command at all or, past the cooldown, one
    stop/start cycle. *)
Lemma gyrating_check_try_outcome (last_5_headings : list Q) (w : world) :
  (exists e, gyrating_check_try last_5_headings w = Raise e w)
  \/ (exists headings after events,
         gyrating_check_try last_5_headings w = Return headings after
         /\ trace after = trace w ++ events
         /\ (commands events = []
             \/ (PyNum.ltb
                   Constants.GYRATING_CHECK_MIN_TIME_BETWEEN_RESETS_IN_SECONDS
                   (clock w - time_last_stop_start w)%Q = true
                 /\ exists mc,
                      mission_current (autopilot_data w) = Some mc
                      /\ commands events
                         = stop_start_cycle (MISSION_CURRENT.seq mc)))).
Proof.
  unfold gyrating_check_try. run_step.
  destruct (mission_current (autopilot_data w)) as [mc|] eqn:Hmc.
  2:{ (* no mission progress: the gate is closed *)
      rewrite andb_false_r. run_step.
      right. eexists _, _, []. rewrite app_nil_r.
      repeat split. now left. }
  destruct ((get_flight_mode w =? AutopilotMode.MODE_AUTO)
            && negb (MISSION_CURRENT.seq mc
                     =? end_waypoint_number_of_waypoints_in_autopilot w)
            && (MISSION_CURRENT.seq mc >? 0)).
  2:{ run_step. right. eexists _, _, []. rewrite app_nil_r.
      repeat split. now left. }
  destruct (global_position_int (autopilot_data w)) as [gpi|].
  2:{ left. exists AttributeError. reflexivity. }
  destruct (get_prev_wp_dist_reads w) as [[dp Ep]|Ep].
  2:{ left. exists IndexError. now apply bind_raise. }
  run_with Ep.
  destruct (get_wp_dist_reads w) as [[dn En]|En].
  2:{ left. exists IndexError. now apply bind_raise. }
  run_with En. right.
  destruct (PyNum.ltb dp _ || PyNum.ltb dn _).
  { repeat run_step. eexists _, _, [_].
    split; [reflexivity|]. split; [reflexivity|]. now left. }
  destruct (2 <=? List.length _)%nat.
  2:{ repeat run_step. eexists _, _, []. rewrite app_nil_r.
      split; [reflexivity|]. split; [reflexivity|]. now left. }
  destruct (PyNum.ltb Constants.GYRATING_CHECK_MAX_ALLOWABLE_WOBBLE_IN_DEGREES _).
  2:{ repeat run_step. eexists _, _, []. rewrite app_nil_r.
      split; [reflexivity|]. split; [reflexivity|]. now left. }
  repeat run_step.
  destruct (PyNum.ltb _ (clock w - time_last_stop_start w)%Q) eqn:Hcool.
  - repeat run_step.
    match goal with
    | |- context [bind (hold_sleep_start_robot ?d) _ ?w1] =>
        destruct (hold_sleep_start_robot_run d w1) as (w2 & Hcycle & Htrace)
    end.
    cbn [autopilot_data trace set_trace] in Htrace. rewrite Hmc in Htrace.
    run_with Hcycle. repeat run_step.
    eexists _, _, (_ :: stop_start_cycle (MISSION_CURRENT.seq mc)).
    split; [reflexivity|]. world_norm. rewrite Htrace. world_norm.
    split; [now rewrite <- app_assoc|].
    right. split; [reflexivity|]. exists mc. now split.
  - repeat run_step.
    eexists _, _, [_; _]. split; [reflexivity|]. world_norm.
    split; [now rewrite <- app_assoc|]. now left.
Qed.

Lemma gyrating_check_turn_commands (last_5_headings : list Q) (w : world) :
  let events := events_since w (gyrating_check_turn last_5_headings w) in
  commands events = []
  \/ (PyNum.ltb Constants.GYRATING_CHECK_MIN_TIME_BETWEEN_RESETS_IN_SECONDS
        (clock w - time_last_stop_start w)%Q = true
      /\ exists mc,
           mission_current (autopilot_data w) = Some mc
           /\ commands events = stop_start_cycle (MISSION_CURRENT.seq mc)).
Proof.
  unfold gyrating_check_turn, try_except, events_since.
  destruct (gyrating_check_try_outcome last_5_headings w)
    as [[e E] | (headings & after & events & E & Htrace & Hcommands)];
    rewrite E.
  - repeat run_step. unfold ret. cbn [world_of]. world_norm.
    repeat rewrite <- app_assoc. rewrite skipn_trace_app. now left.
  - cbn [world_of]. rewrite Htrace, skipn_trace_app. exact Hcommands.
Qed.

(** One turn with the gate open and the vehicle far from both waypoints. *)
Lemma gyrating_check_turn_far (last_5_headings : list Q) (w : world)
  (mc : MISSION_CURRENT.t) (gpi : GLOBAL_POSITION_INT.t) (dp dn : Q) :
  mission_current (autopilot_data w) = Some mc ->
  (get_flight_mode w =? AutopilotMode.MODE_AUTO)
  && negb (MISSION_CURRENT.seq mc
           =? end_waypoint_number_of_waypoints_in_autopilot w)
  && (MISSION_CURRENT.seq mc >? 0) = true ->
  global_position_int (autopilot_data w) = Some gpi ->
  get_prev_wp_dist_in_meters w = Return dp w ->
  get_wp_dist_in_meters w = Return dn w ->
  PyNum.ltb dp
    Constants.GYRATING_CHECK_MIN_DISTANCE_FROM_WAYPOINT_TO_RUN_THIS_CHECK_IN_METERS
  || PyNum.ltb dn
       Constants.GYRATING_CHECK_MIN_DISTANCE_FROM_WAYPOINT_TO_RUN_THIS_CHECK_IN_METERS
  = false ->
  let the_heading :=
    (inject_Z (GLOBAL_POSITION_INT.hdg gpi) / inject_Z (10 ^ 2))%Q in
  let headings := firstn 5 (the_heading :: last_5_headings) in
  let wobble := max_heading_difference headings in
  let over :=
    (2 <=? List.length headings)%nat
    && PyNum.ltb Constants.GYRATING_CHECK_MAX_ALLOWABLE_WOBBLE_IN_DEGREES wobble in
  let cooled :=
    PyNum.ltb Constants.GYRATING_CHECK_MIN_TIME_BETWEEN_RESETS_IN_SECONDS
      (clock w - time_last_stop_start w)%Q in
  exists after,
    gyrating_check_turn last_5_headings w
    = Return (if over && cooled then [] else headings) after
    /\ events_since w (gyrating_check_turn last_5_headings w)
       = if over
         then if cooled
              then EvRobotLog "Detected weaving! Will now stop and start robot."
                     "INFO"
                   :: stop_start_cycle (MISSION_CURRENT.seq mc)
              else [EvRobotLog
                      (str_float wobble ++ " degree wobble over last 5 seconds")
                      "INFO";
                    EvRobotLog
                      "Detected weaving! However, it's been fewer than 45 seconds since we last reset robot, so skipping reset for now."
                      "INFO"]
         else [].
Proof.
  intros Hmc Hgate Hgpi Hp Hn Hfar the_heading headings wobble over cooled.
  assert (Hclosed : forall (hs : list Q) (after : world) (evs : list event),
             gyrating_check_try last_5_headings w = Return hs after ->
             trace after = trace w ++ evs ->
             gyrating_check_turn last_5_headings w = Return hs after
             /\ events_since w (gyrating_check_turn last_5_headings w) = evs).
  { intros hs after evs E Htrace.
    unfold gyrating_check_turn, try_except, events_since. rewrite E.
    cbn [world_of]. now rewrite Htrace, skipn_trace_app. }
  assert (Hbody :
            gyrating_check_try last_5_headings w
            = (last_5_headings <-
                 (if (2 <=? List.length headings)%nat then
                    if PyNum.ltb
                         Constants.GYRATING_CHECK_MAX_ALLOWABLE_WOBBLE_IN_DEGREES
                         wobble
                    then
                      now <- time ;;
                      w' <- get ;;
                      if PyNum.ltb
                           Constants.GYRATING_CHECK_MIN_TIME_BETWEEN_RESETS_IN_SECONDS
                           (now - time_last_stop_start w')%Q
                      then
                        emit (EvRobotLog
                                "Detected weaving! Will now stop and start robot."
                                "INFO") ;;
                        hold_sleep_start_robot 5 ;;
                        ret []
                      else
                        emit (EvRobotLog
                                (str_float wobble
                                 ++ " degree wobble over last 5 seconds")
                                "INFO") ;;
                        emit (EvRobotLog
                                "Detected weaving! However, it's been fewer than 45 seconds since we last reset robot, so skipping reset for now."
                                "INFO") ;;
                        ret headings
                    else ret headings
                  else ret headings) ;;
               sleep 1 ;;
               ret last_5_headings) w).
  { unfold gyrating_check_try. run_step. rewrite Hmc, Hgate, Hgpi.
    run_with Hp. run_with Hn. rewrite Hfar. reflexivity. }
  unfold over, cooled.
  destruct (2 <=? List.length headings)%nat; cbn [andb].
  2:{ eexists. apply Hclosed with (evs := []).
      - rewrite Hbody. repeat run_step. reflexivity.
      - world_norm. now rewrite app_nil_r. }
  destruct (PyNum.ltb Constants.GYRATING_CHECK_MAX_ALLOWABLE_WOBBLE_IN_DEGREES
              wobble); cbn [andb].
  2:{ eexists. apply Hclosed with (evs := []).
      - rewrite Hbody. repeat run_step. reflexivity.
      - world_norm. now rewrite app_nil_r. }
  destruct (PyNum.ltb Constants.GYRATING_CHECK_MIN_TIME_BETWEEN_RESETS_IN_SECONDS
              (clock w - time_last_stop_start w)%Q) eqn:Hcool.
  - destruct (hold_sleep_start_robot_run 5
                (set_trace
                   (trace w
                    ++ [EvRobotLog
                          "Detected weaving! Will now stop and start robot."
                          "INFO"]) w))
      as (w2 & Hcycle & Htrace).
    cbn [autopilot_data trace set_trace] in Htrace. rewrite Hmc in Htrace.
    eexists. apply Hclosed.
    + rewrite Hbody. repeat run_step. rewrite Hcool. repeat run_step.
      run_with Hcycle. repeat run_step. reflexivity.
    + world_norm. rewrite Htrace. now rewrite <- app_assoc.
  - eexists. apply Hclosed.
    + rewrite Hbody. repeat run_step. rewrite Hcool. repeat run_step.
      reflexivity.
    + world_norm. now repeat rewrite <- app_assoc.
Qed.

(** C8.  [max_heading_difference] is 0 on the headings 10, 10, 10, 10, 10
    and 20 on 10, 30, 10, 30, 10, so with the threshold 15 only the second
    sequence counts as wobbling.  One turn of the monitor sends commands to
    the flight controller only if the time since the last recorded stop or
    start exceeds the cooldown.  With the gate open and the vehicle far
    from both waypoints: no wobble, no event at all; wobble and cooldown
    elapsed, exactly one stop/start cycle; wobble and cooldown not
    elapsed, log lines only and no command. *)
Theorem gyration_wobble_and_cooldown :
  max_heading_difference [10; 10; 10; 10; 10]%Q = 0%Q
  /\ wobbling [10; 10; 10; 10; 10]%Q = false
  /\ max_heading_difference [10; 30; 10; 30; 10]%Q = 20%Q
  /\ wobbling [10; 30; 10; 30; 10]%Q = true
  /\ (forall (last_5_headings : list Q) (w : world),
        commands (events_since w (gyrating_check_turn last_5_headings w)) <> []
        -> cooldown_elapsed w = true)
  /\ (forall (last_5_headings : list Q) (w : world)
             (mc : MISSION_CURRENT.t) (gpi : GLOBAL_POSITION_INT.t) (dp dn : Q),
        mission_current (autopilot_data w) = Some mc ->
        (get_flight_mode w =? AutopilotMode.MODE_AUTO)
        && negb (MISSION_CURRENT.seq mc
                 =? end_waypoint_number_of_waypoints_in_autopilot w)
        && (MISSION_CURRENT.seq mc >? 0) = true ->
        global_position_int (autopilot_data w) = Some gpi ->
        get_prev_wp_dist_in_meters w = Return dp w ->
        get_wp_dist_in_meters w = Return dn w ->
        PyNum.ltb dp
          Constants.GYRATING_CHECK_MIN_DISTANCE_FROM_WAYPOINT_TO_RUN_THIS_CHECK_IN_METERS
        || PyNum.ltb dn
             Constants.GYRATING_CHECK_MIN_DISTANCE_FROM_WAYPOINT_TO_RUN_THIS_CHECK_IN_METERS
        = false ->
        let headings :=
          firstn 5
            ((inject_Z (GLOBAL_POSITION_INT.hdg gpi) / inject_Z (10 ^ 2))%Q
             :: last_5_headings) in
        let events :=
          events_since w (gyrating_check_turn last_5_headings w) in
        (wobbling headings = false -> events = [])
        /\ (wobbling headings = true -> cooldown_elapsed w = true ->
            commands events = stop_start_cycle (MISSION_CURRENT.seq mc))
        /\ (wobbling headings = true -> cooldown_elapsed w = false ->
            commands events = []
            /\ events <> []
            /\ forallb is_log events = true)).
Proof.
  split; [vm_compute; reflexivity|].
  split; [vm_compute; reflexivity|].
  split; [vm_compute; reflexivity|].
  split; [vm_compute; reflexivity|].
  split.
  - intros last_5_headings w Hsent.
    destruct (gyrating_check_turn_commands last_5_headings w)
      as [Hnone | [Hcool _]]; [contradiction | exact Hcool].
  - intros last_5_headings w mc gpi dp dn Hmc Hgate Hgpi Hp Hn Hfar
      headings events.
    destruct (gyrating_check_turn_far last_5_headings w mc gpi dp dn
                Hmc Hgate Hgpi Hp Hn Hfar) as (after & _ & Hevents).
    fold headings in Hevents. fold (wobbling headings) in Hevents.
    fold (cooldown_elapsed w) in Hevents. fold events in Hevents.
    split; [|split].
    + intros Hw. now rewrite Hw in Hevents.
    + intros Hw Hc. rewrite Hw, Hc in Hevents. now rewrite Hevents.
    + intros Hw Hc. rewrite Hw, Hc in Hevents. rewrite Hevents.
      split; [reflexivity|]. split; [discriminate | reflexivity].
Qed.

End Gyration.

(** ** Concrete runs *)

(** C2, refuted as worded.  After loading a one-point mission the recorded
    end is 100 although the stored mission has only the indices 0 and 1;
    and the second page of a 700-point mission uploads 252 entries, one more
    than the subsequent page size plus one. *)
Lemma page_invariant_counterexample :
  (let w := Sample.loaded 1 in
   PyList.len (waypoints_in_mission w) = 2
   /\ last_autopilot_loaded_waypoint_number_end w = 100
   /\ ~ bounds_are_mission_indices w)
  /\ (let w := Sample.paged 700 1 in
      load_next_round_of_waypoints (H := Sample.env) (Sample.loaded 700)
      = Return true w
      /\ PyList.len (waypoints_in_autopilot w) = 252
      /\ ~ uploaded_within Constants.WAYPOINT_LOAD_COUNT_SUBSEQUENT w).
Proof.
  split.
  - cbv zeta.
    assert (Hlen : PyList.len (waypoints_in_mission (Sample.loaded 1)) = 2)
      by (vm_compute; reflexivity).
    assert (Hend : last_autopilot_loaded_waypoint_number_end (Sample.loaded 1)
                   = 100) by (vm_compute; reflexivity).
    repeat split; trivial.
    unfold bounds_are_mission_indices. rewrite Hlen, Hend. lia.
  - cbv zeta.
    assert (Hlen : PyList.len (waypoints_in_autopilot (Sample.paged 700 1))
                   = 252) by (vm_compute; reflexivity).
    split; [vm_compute; reflexivity|]. split; [exact Hlen|].
    unfold uploaded_within, Constants.WAYPOINT_LOAD_COUNT_SUBSEQUENT.
    rewrite Hlen. lia.
Qed.

Lemma page_bounds_and_sizes_witness :
  let w := Sample.loaded 700 in
  more_waypoints_to_load w = true
  /\ 0 <= last_autopilot_loaded_waypoint_number_end w
  /\ exists loaded after,
       load_next_round_of_waypoints (H := Sample.env) w = Return loaded after
       /\ 0 <= last_autopilot_loaded_waypoint_number_start after
            < PyList.len (waypoints_in_mission after)
       /\ last_autopilot_loaded_waypoint_number_start after
          < last_autopilot_loaded_waypoint_number_end after
       /\ uploaded_within (Constants.WAYPOINT_LOAD_COUNT_SUBSEQUENT + 1) after.
Proof.
  cbv zeta.
  assert (Hmore : more_waypoints_to_load (Sample.loaded 700) = true)
    by (vm_compute; reflexivity).
  assert (Hend : 0 <= last_autopilot_loaded_waypoint_number_end
                        (Sample.loaded 700))
    by (vm_compute; discriminate).
  split; [exact Hmore|]. split; [exact Hend|].
  exact (proj1 (proj2 (page_bounds_and_sizes (H := Sample.env) (Sample.loaded 700)))
           Hmore Hend).
Defined.

(** C3.  [load_prior_round_of_waypoints] two pages into a 700-point mission,
    where the recorded window is 350..600.  It uploads the 252 entries
    mission[99:351], whose last page index is 251, stores start 99 and end
    350, and returns 250: neither the stored end nor the number of the last
    waypoint loaded.  One page into the same mission, where it rewinds to
    the initial window, it returns 100, which is the stored end and the
    last index of the 101 entries it uploads. *)
Theorem load_prior_return_on_the_third_page :
  (let w := Sample.paged 700 2 in
   prior_waypoints_to_load w = true
   /\ last_autopilot_loaded_waypoint_number_start w = 350
   /\ last_autopilot_loaded_waypoint_number_end w = 600
   /\ exists after,
        load_prior_round_of_waypoints (H := Sample.env) w = Return 250 after
        /\ last_autopilot_loaded_waypoint_number_start after = 99
        /\ last_autopilot_loaded_waypoint_number_end after = 350
        /\ waypoints_in_autopilot after
           = PyList.slice (waypoints_in_mission w) 99 351
        /\ end_waypoint_number_of_waypoints_in_autopilot after = 251
        /\ 250 <> last_autopilot_loaded_waypoint_number_end after
        /\ 250 <> end_waypoint_number_of_waypoints_in_autopilot after)
  /\ (let w := Sample.paged 700 1 in
      prior_waypoints_to_load w = true
      /\ last_autopilot_loaded_waypoint_number_start w = 100
      /\ last_autopilot_loaded_waypoint_number_end w = 350
      /\ exists after,
           load_prior_round_of_waypoints (H := Sample.env) w = Return 100 after
           /\ last_autopilot_loaded_waypoint_number_end after = 100
           /\ end_waypoint_number_of_waypoints_in_autopilot after = 100).
Proof.
  split; cbv zeta.
  - split; [vm_compute; reflexivity|].
    split; [vm_compute; reflexivity|].
    split; [vm_compute; reflexivity|].
    exists (world_of (load_prior_round_of_waypoints (H := Sample.env)
                        (Sample.paged 700 2))).
    assert (Hend : last_autopilot_loaded_waypoint_number_end
                     (world_of (load_prior_round_of_waypoints (H := Sample.env)
                                  (Sample.paged 700 2))) = 350)
      by (vm_compute; reflexivity).
    assert (Hlast : end_waypoint_number_of_waypoints_in_autopilot
                      (world_of (load_prior_round_of_waypoints (H := Sample.env)
                                   (Sample.paged 700 2))) = 251)
      by (vm_compute; reflexivity).
    split; [vm_compute; reflexivity|].
    split; [vm_compute; reflexivity|].
    split; [exact Hend|].
    split; [vm_compute; reflexivity|].
    split; [exact Hlast|].
    rewrite Hend, Hlast. split; discriminate.
  - split; [vm_compute; reflexivity|].
    split; [vm_compute; reflexivity|].
    split; [vm_compute; reflexivity|].
    exists (world_of (load_prior_round_of_waypoints (H := Sample.env)
                        (Sample.paged 700 1))).
    split; [vm_compute; reflexivity|].
    split; vm_compute; reflexivity.
Qed.

(** C4, refuted as worded.  With the page, the position and the progress
    all present, asking for the previous waypoint at progress index 0
    returns 0, and at progress index 1 it returns the distance to the home
    entry (100 m in this environment): never the sentinel. *)
Lemma previous_at_first_point_counterexample :
  distance_data_available Sample.at_home = true
  /\ get_prev_wp_dist_in_meters (H := Sample.env) Sample.at_home
     = Return 0%Q Sample.at_home
  /\ ~ (0 == -1)%Q
  /\ distance_data_available Sample.at_first_waypoint = true
  /\ get_prev_wp_dist_in_meters (H := Sample.env) Sample.at_first_waypoint
     = Return 100%Q Sample.at_first_waypoint
  /\ ~ (100 == -1)%Q.
Proof.
  split; [vm_compute; reflexivity|].
  split; [vm_compute; reflexivity|].
  split; [discriminate|].
  split; [vm_compute; reflexivity|].
  split; [vm_compute; reflexivity|].
  discriminate.
Qed.

Lemma distance_sentinel_witness :
  distance_data_available Sample.at_first_waypoint = true
  /\ (forall d w',
         get_wp_dist_in_meters (H := Sample.env) Sample.at_first_waypoint
         = Return d w'
         \/ get_prev_wp_dist_in_meters (H := Sample.env)
              Sample.at_first_waypoint
            = Return d w' ->
         w' = Sample.at_first_waypoint /\ (0 <= d)%Q)
  /\ distance_data_available (initial_world 0) = false
  /\ get_wp_dist_in_meters (H := Sample.env) (initial_world 0)
     = Return (-1)%Q (initial_world 0).
Proof.
  assert (Hdata : distance_data_available Sample.at_first_waypoint = true)
    by (vm_compute; reflexivity).
  assert (Hnone : distance_data_available (initial_world 0) = false)
    by (vm_compute; reflexivity).
  split; [exact Hdata|].
  split.
  - exact (proj2 (proj2 (proj2
             (proj2 (distance_sentinel (H := Sample.env)
                       Sample.at_first_waypoint)
                Hdata _ _ eq_refl eq_refl)))).
  - split; [exact Hnone|].
    exact (proj1 (proj1 (distance_sentinel (H := Sample.env) (initial_world 0))
                    Hnone)).
Defined.

(** C5, refuted as worded.  At progress index 80 of a 101-entry page with
    more waypoints to load, [goto_wp_plus_50] sets waypoint 31 in the new
    page, not 50 - (100 - 80) = 30. *)
Lemma plus_50_target_counterexample :
  let w := Sample.mid_page in
  end_waypoint_number_of_waypoints_in_autopilot w = 100
  /\ more_waypoints_to_load w = true
  /\ filter is_goto (events_since w (goto_wp_plus_50 (H := Sample.env) w))
     = [EvWaypointSetCurrentSend 31]
  /\ 31 <> 50 - (100 - 80).
Proof.
  cbv zeta.
  split; [vm_compute; reflexivity|].
  split; [vm_compute; reflexivity|].
  split; [vm_compute; reflexivity|].
  discriminate.
Qed.

Lemma goto_wp_plus_50_target_witness :
  let w := Sample.mid_page in
  end_waypoint_number_of_waypoints_in_autopilot w < 80 + 50
  /\ more_waypoints_to_load w = true
  /\ 0 <= last_autopilot_loaded_waypoint_number_end w
  /\ exists after before later,
       goto_wp_plus_50 (H := Sample.env) w = Return tt after
       /\ events_since w (goto_wp_plus_50 (H := Sample.env) w)
          = before
            ++ EvWaypointSetCurrentSend
                 (50 - (end_waypoint_number_of_waypoints_in_autopilot w - 80) + 1)
               :: later
       /\ count_events is_persist
            (events_since w (goto_wp_plus_50 (H := Sample.env) w)) = 1%nat
       /\ count_events is_upload
            (events_since w (goto_wp_plus_50 (H := Sample.env) w)) = 1%nat
       /\ count_events is_page_load later = 0%nat
       /\ count_events is_goto
            (events_since w (goto_wp_plus_50 (H := Sample.env) w)) = 1%nat
       /\ paging_state after
          = paging_state
              (world_of (load_next_round_of_waypoints (H := Sample.env) w)).
Proof.
  cbv zeta.
  assert (Hout : end_waypoint_number_of_waypoints_in_autopilot Sample.mid_page
                 < 80 + 50) by (vm_compute; reflexivity).
  assert (Hmore : more_waypoints_to_load Sample.mid_page = true)
    by (vm_compute; reflexivity).
  assert (Hend : 0 <= last_autopilot_loaded_waypoint_number_end Sample.mid_page)
    by (vm_compute; discriminate).
  split; [exact Hout|]. split; [exact Hmore|]. split; [exact Hend|].
  exact (proj1 (goto_wp_plus_50_target (H := Sample.env) Sample.mid_page
                  (MISSION_CURRENT.mk 80) eq_refl)
           Hout Hmore Hend).
Defined.

Lemma goto_next_wp_page_loads_witness :
  let w := Sample.at_page_end in
  100 = end_waypoint_number_of_waypoints_in_autopilot w
  /\ more_waypoints_to_load w = true
  /\ 0 <= last_autopilot_loaded_waypoint_number_end w
  /\ exists after before later,
       goto_next_wp (H := Sample.env) w = Return tt after
       /\ events_since w (goto_next_wp (H := Sample.env) w)
          = before ++ EvWaypointSetCurrentSend 2 :: later
       /\ count_events is_persist
            (events_since w (goto_next_wp (H := Sample.env) w)) = 1%nat
       /\ count_events is_upload
            (events_since w (goto_next_wp (H := Sample.env) w)) = 1%nat
       /\ count_events is_page_load later = 0%nat
       /\ count_events is_goto
            (events_since w (goto_next_wp (H := Sample.env) w)) = 1%nat
       /\ paging_state after
          = paging_state
              (world_of (load_next_round_of_waypoints (H := Sample.env) w)).
Proof.
  cbv zeta.
  assert (Hlast : 100 = end_waypoint_number_of_waypoints_in_autopilot
                          Sample.at_page_end) by (vm_compute; reflexivity).
  assert (Hmore : more_waypoints_to_load Sample.at_page_end = true)
    by (vm_compute; reflexivity).
  assert (Hend : 0 <= last_autopilot_loaded_waypoint_number_end
                        Sample.at_page_end)
    by (vm_compute; discriminate).
  split; [exact Hlast|]. split; [exact Hmore|]. split; [exact Hend|].
  exact (proj1 (goto_next_wp_page_loads (H := Sample.env) Sample.at_page_end
                  (MISSION_CURRENT.mk 100) eq_refl)
           Hlast Hmore Hend).
Defined.

Lemma gyration_wobble_and_cooldown_witness :
  wobbling (firstn 5 ((inject_Z 1000 / inject_Z (10 ^ 2))%Q
                      :: [30; 10; 30; 10]%Q)) = true
  /\ cooldown_elapsed (Sample.under_way 100) = true
  /\ cooldown_elapsed (Sample.under_way 30) = false
  /\ commands
       (events_since (Sample.under_way 100)
          (gyrating_check_turn (H := Sample.env) [30; 10; 30; 10]%Q
             (Sample.under_way 100)))
     = stop_start_cycle 5
  /\ commands
       (events_since (Sample.under_way 30)
          (gyrating_check_turn (H := Sample.env) [30; 10; 30; 10]%Q
             (Sample.under_way 30)))
     = [].
Proof.
  assert (Hw : wobbling (firstn 5 ((inject_Z 1000 / inject_Z (10 ^ 2))%Q
                                   :: [30; 10; 30; 10]%Q)) = true)
    by (vm_compute; reflexivity).
  assert (Hc : cooldown_elapsed (Sample.under_way 100) = true)
    by (vm_compute; reflexivity).
  assert (Hn : cooldown_elapsed (Sample.under_way 30) = false)
    by (vm_compute; reflexivity).
  split; [exact Hw|]. split; [exact Hc|]. split; [exact Hn|].
  pose proof (proj2 (proj2 (proj2 (proj2 (proj2
                (gyration_wobble_and_cooldown (H := Sample.env)))))))
    as Hfar.
  split.
  - refine (proj1 (proj2 (Hfar [30; 10; 30; 10]%Q (Sample.under_way 100)
                            (MISSION_CURRENT.mk 5)
                            (GLOBAL_POSITION_INT.mk 300000000 (-870000000) 1000)
                            100%Q 100%Q eq_refl _ eq_refl _ _ _)) Hw Hc);
      vm_compute; reflexivity.
  - refine (proj1 (proj2 (proj2 (Hfar [30; 10; 30; 10]%Q (Sample.under_way 30)
                            (MISSION_CURRENT.mk 5)
                            (GLOBAL_POSITION_INT.mk 300000000 (-870000000) 1000)
                            100%Q 100%Q eq_refl _ eq_refl _ _ _)) Hw Hn));
      vm_compute; reflexivity.
Defined.

Lemma end_of_mission_cleanup_witness :
  let w := Sample.loaded 3 in
  waypoints_in_mission w <> []
  /\ PyList.len (waypoints_in_mission w) = 4
  /\ PyList.len
       (waypoints_in_mission
          (world_of (end_of_mission_cleanup (H := Sample.env) w)))
     = PyList.len (waypoints_in_mission w) + 1.
Proof.
  cbv zeta.
  assert (Hne : waypoints_in_mission (Sample.loaded 3) <> [])
    by (vm_compute; discriminate).
  split; [exact Hne|]. split; [vm_compute; reflexivity|].
  exact (proj1 (end_of_mission_cleanup_accumulates_home (H := Sample.env)
                  (Sample.loaded 3) Hne)).
Defined.

(** * Further properties *)

(** ** Headings *)

Section Headings.

Local Open Scope Q_scope.

Lemma ltb_true_iff (a b : Q) : PyNum.ltb a b = true <-> a < b.
Proof.
  unfold PyNum.ltb. rewrite negb_true_iff.
  split.
  - intros E. apply Qnot_le_lt. intros Hle.
    apply Qle_bool_iff in Hle. congruence.
  - intros Hlt. destruct (Qle_bool b a) eqn:E; trivial.
    apply Qle_bool_iff in E. lra.
Qed.

Lemma ltb_false_iff (a b : Q) : PyNum.ltb a b = false <-> b <= a.
Proof.
  unfold PyNum.ltb. rewrite negb_false_iff. apply Qle_bool_iff.
Qed.

Lemma ltb_compat (a a' b b' : Q) :
  a == a' -> b == b' -> PyNum.ltb a b = PyNum.ltb a' b'.
Proof.
  intros Ha Hb.
  destruct (PyNum.ltb a' b') eqn:E.
  - apply ltb_true_iff in E. apply ltb_true_iff. lra.
  - apply ltb_false_iff in E. apply ltb_false_iff. lra.
Qed.

Lemma mod_360_range (x : Q) : 0 <= PyNum.mod_ x 360 /\ PyNum.mod_ x 360 < 360.
Proof.
  unfold PyNum.mod_.
  pose proof (Qfloor_le (x / 360)) as Hlo.
  pose proof (Qlt_floor (x / 360)) as Hhi.
  rewrite inject_Z_plus in Hhi.
  assert (Hx : x == 360 * (x / 360)) by (field).
  set (f := inject_Z (Qfloor (x / 360))) in *.
  change (inject_Z 1) with 1 in Hhi.
  split; lra.
Qed.

Lemma Qfloor_unique (q : Q) (z : Z) :
  inject_Z z <= q -> q < inject_Z (z + 1) -> Qfloor q = z.
Proof.
  intros Hlo Hhi.
  apply Z.le_antisymm.
  - assert (H1 : (Qfloor q < z + 1)%Z).
    { rewrite Zlt_Qlt. pose proof (Qfloor_le q). lra. }
    lia.
  - rewrite <- (Qfloor_Z z). now apply Qfloor_resp_le.
Qed.

Lemma mod_360_shift (x : Q) : PyNum.mod_ (x + 360) 360 == PyNum.mod_ x 360.
Proof.
  unfold PyNum.mod_.
  assert (Hf : Qfloor ((x + 360) / 360) = (Qfloor (x / 360) + 1)%Z).
  { apply Qfloor_unique.
    - rewrite inject_Z_plus. change (inject_Z 1) with 1.
      pose proof (Qfloor_le (x / 360)).
      assert ((x + 360) / 360 == x / 360 + 1) by field. lra.
    - rewrite !inject_Z_plus. change (inject_Z 1) with 1.
      pose proof (Qlt_floor (x / 360)) as Hhi.
      rewrite inject_Z_plus in Hhi. change (inject_Z 1) with 1 in Hhi.
      assert ((x + 360) / 360 == x / 360 + 1) by field. lra. }
  rewrite Hf, inject_Z_plus. change (inject_Z 1) with 1. ring.
Qed.

Lemma heading_difference_of_mods (h1 h2 : Q) :
  let d := Qabs (PyNum.mod_ h1 360 - PyNum.mod_ h2 360) in
  heading_difference h1 h2 = if PyNum.ltb 180 d then 360 - d else d.
Proof. reflexivity. Qed.

Lemma heading_difference_compat (h1 h1' h2 h2' : Q) :
  PyNum.mod_ h1 360 == PyNum.mod_ h1' 360 ->
  PyNum.mod_ h2 360 == PyNum.mod_ h2' 360 ->
  heading_difference h1 h2 == heading_difference h1' h2'.
Proof.
  intros E1 E2. rewrite !heading_difference_of_mods. cbv zeta.
  assert (Ed : Qabs (PyNum.mod_ h1 360 - PyNum.mod_ h2 360)
               == Qabs (PyNum.mod_ h1' 360 - PyNum.mod_ h2' 360))
    by (now rewrite E1, E2).
  rewrite (ltb_compat 180 180 _ _ (Qeq_refl _) Ed).
  destruct (PyNum.ltb 180 _); rewrite Ed; reflexivity.
Qed.

Lemma heading_difference_range (h1 h2 : Q) :
  0 <= heading_difference h1 h2 /\ heading_difference h1 h2 <= 180.
Proof.
  rewrite heading_difference_of_mods. cbv zeta.
  destruct (mod_360_range h1) as [L1 U1].
  destruct (mod_360_range h2) as [L2 U2].
  set (a := PyNum.mod_ h1 360) in *. set (b := PyNum.mod_ h2 360) in *.
  assert (Hd : 0 <= Qabs (a - b) /\ Qabs (a - b) < 360).
  { split; [apply Qabs_nonneg|].
    apply Qabs_case; intros; lra. }
  destruct (PyNum.ltb 180 (Qabs (a - b))) eqn:E.
  - apply ltb_true_iff in E. lra.
  - apply ltb_false_iff in E. lra.
Qed.

Lemma heading_difference_sym (h1 h2 : Q) :
  heading_difference h1 h2 == heading_difference h2 h1.
Proof.
  rewrite !heading_difference_of_mods. cbv zeta.
  set (a := PyNum.mod_ h1 360). set (b := PyNum.mod_ h2 360).
  assert (Ed : Qabs (a - b) == Qabs (b - a)).
  { rewrite <- (Qabs_opp (b - a)). apply Qabs_wd. ring. }
  rewrite (ltb_compat 180 180 _ _ (Qeq_refl _) Ed).
  destruct (PyNum.ltb 180 _); rewrite Ed; reflexivity.
Qed.

Lemma heading_difference_self (h : Q) : heading_difference h h == 0.
Proof.
  rewrite heading_difference_of_mods. cbv zeta.
  set (a := PyNum.mod_ h 360).
  assert (Ed : Qabs (a - a) == 0).
  { assert (E : a - a == 0) by ring. rewrite E. reflexivity. }
  rewrite (ltb_compat 180 180 _ 0 (Qeq_refl _) Ed).
  replace (PyNum.ltb 180 0) with false by reflexivity.
  exact Ed.
Qed.

(** X1.  [heading_difference] is an angle between two directions: it lies
    between 0 and 180 degrees, does not depend on the order of the two
    headings, is 0 for a heading and itself, and does not change when a
    heading is given a full turn more. *)
Theorem heading_difference_is_an_angle (h1 h2 : Q) :
  0 <= heading_difference h1 h2 <= 180
  /\ heading_difference h1 h2 == heading_difference h2 h1
  /\ heading_difference h1 h1 == 0
  /\ heading_difference (h1 + 360) h2 == heading_difference h1 h2.
Proof.
  split; [apply heading_difference_range|].
  split; [apply heading_difference_sym|].
  split; [apply heading_difference_self|].
  apply heading_difference_compat; [apply mod_360_shift | reflexivity].
Qed.

End Headings.

Section MaxHeading.

Local Open Scope Q_scope.

Lemma py_max_cases (a b : Q) :
  (PyNum.max a b = a /\ b <= a) \/ (PyNum.max a b = b /\ a < b).
Proof.
  unfold PyNum.max. destruct (PyNum.ltb a b) eqn:E.
  - right. split; trivial. now apply ltb_true_iff.
  - left. split; trivial. now apply ltb_false_iff.
Qed.

Lemma inner_spec (heading_i : Q) (later : list Q) :
  forall max_diff,
    let r := max_heading_difference_inner heading_i later max_diff in
    max_diff <= r
    /\ (forall b, In b later -> heading_difference heading_i b <= r)
    /\ (r = max_diff
        \/ exists b, In b later /\ r = heading_difference heading_i b).
Proof.
  unfold max_heading_difference_inner.
  induction later as [|h rest IH]; intros max_diff; simpl.
  - split; [lra|]. split; [tauto | now left].
  - destruct (IH (PyNum.max max_diff (heading_difference heading_i h)))
      as (Hge & Hall & Hatt).
    destruct (py_max_cases max_diff (heading_difference heading_i h))
      as [[E Hle] | [E Hlt]]; rewrite E in *.
    + split; [exact Hge|]. split.
      * intros b [<- | Hb]; [lra | now apply Hall].
      * destruct Hatt as [-> | (b & Hb & ->)]; [now left|].
        right. exists b. now split; [right|].
    + split; [lra|]. split.
      * intros b [<- | Hb]; [exact Hge | now apply Hall].
      * right. destruct Hatt as [-> | (b & Hb & ->)].
        -- exists h. now split; [left|].
        -- exists b. now split; [right|].
Qed.

Lemma later_pair_head (h : Q) (later : list Q) (b : Q) :
  In b later -> later_pair (h :: later) h b.
Proof.
  intros Hb. apply In_nth_error in Hb. destruct Hb as [j Hj].
  exists 0%nat, (S j). repeat split; trivial. lia.
Qed.

Lemma later_pair_tail (h : Q) (later : list Q) (a b : Q) :
  later_pair later a b -> later_pair (h :: later) a b.
Proof.
  intros (i & j & Hij & Hi & Hj).
  exists (S i), (S j). repeat split; trivial. lia.
Qed.

Lemma later_pair_cons (h : Q) (later : list Q) (a b : Q) :
  later_pair (h :: later) a b ->
  (a = h /\ In b later) \/ later_pair later a b.
Proof.
  intros (i & j & Hij & Hi & Hj).
  destruct j as [|j]; [lia|]. simpl in Hj.
  destruct i as [|i]; simpl in Hi.
  - left. split; [congruence|]. eapply nth_error_In; eauto.
  - right. exists i, j. repeat split; trivial. lia.
Qed.

Lemma outer_spec (headings : list Q) :
  forall max_diff,
    let r := max_heading_difference_outer headings max_diff in
    max_diff <= r
    /\ (forall a b, later_pair headings a b -> heading_difference a b <= r)
    /\ (r = max_diff
        \/ exists a b, later_pair headings a b /\ r = heading_difference a b).
Proof.
  induction headings as [|h later IH]; intros max_diff; simpl.
  - split; [lra|]. split; [|now left].
    intros a b (i & j & _ & Hi & _). now destruct i.
  - destruct (inner_spec h later max_diff) as (Hge1 & Hall1 & Hatt1).
    destruct (IH (max_heading_difference_inner h later max_diff))
      as (Hge2 & Hall2 & Hatt2).
    cbv zeta in *.
    split; [lra|]. split.
    + intros a b Hp. apply later_pair_cons in Hp.
      destruct Hp as [[-> Hb] | Hp].
      * specialize (Hall1 b Hb). lra.
      * now apply Hall2.
    + destruct Hatt2 as [E2 | (a & b & Hp & E2)].
      * destruct Hatt1 as [E1 | (b & Hb & E1)].
        -- left. congruence.
        -- right. exists h, b. split; [now apply later_pair_head|].
           congruence.
      * right. exists a, b. split; [now apply later_pair_tail | exact E2].
Qed.

(** X2.  [max_heading_difference] is the largest [heading_difference] over
    the pairs of the list: no pair of entries differs by more, the value is
    0 or the difference of some pair, it lies between 0 and 180, and it is
    0 for a list of fewer than two headings. *)
Theorem max_heading_difference_is_largest_pairwise (headings : list Q) :
  (forall i j a b,
      (i < j)%nat ->
      nth_error headings i = Some a -> nth_error headings j = Some b ->
      heading_difference a b <= max_heading_difference headings)
  /\ (max_heading_difference headings = 0
      \/ exists i j a b,
           (i < j)%nat
           /\ nth_error headings i = Some a /\ nth_error headings j = Some b
           /\ max_heading_difference headings = heading_difference a b)
  /\ 0 <= max_heading_difference headings <= 180
  /\ ((List.length headings <= 1)%nat -> max_heading_difference headings = 0).
Proof.
  unfold max_heading_difference.
  destruct (outer_spec headings 0) as (Hge & Hall & Hatt). cbv zeta in *.
  split.
  { intros i j a b Hij Hi Hj. apply Hall. now exists i, j. }
  split.
  { destruct Hatt as [E | (a & b & (i & j & Hp) & E)]; [now left|].
    right. now exists i, j, a, b. }
  split.
  { split; [exact Hge|].
    destruct Hatt as [-> | (a & b & _ & ->)]; [lra|].
    apply heading_difference_range. }
  intros Hlen.
  destruct headings as [|h [|h' rest]]; simpl in *; trivial. lia.
Qed.

End MaxHeading.

(** ** Navigation backwards *)

Section Backwards.
Context `{External}.

Lemma load_prior_run' (w : world) :
  prior_waypoints_to_load w = true ->
  load_prior_round_of_waypoints w
  = Return (prior_return_of w)
      (page_loaded (prior_page_of w) (prior_start_of w) (prior_end_of w) w).
Proof.
  intros Hprior. rewrite (load_prior_run w Hprior). reflexivity.
Qed.

(** The sequence [goto_prev_wp] and [goto_wp_minus_50] share when a prior
    page is loaded; [target] computes the index from the value
    [load_prior_round_of_waypoints] returns. *)
Lemma back_jump_run (was_in_auto_mode : bool) (target : Z -> Z) (w : world) :
  prior_waypoints_to_load w = true ->
  exists after,
    (when was_in_auto_mode hold ;;
     waypoint_end <- load_prior_round_of_waypoints ;;
     sleep (1 # 10) ;;
     goto_wp (target waypoint_end) ;;
     sleep (1 # 10) ;;
     when was_in_auto_mode start_robot) w
    = Return tt after
    /\ trace after
       = (trace w
          ++ jump_events was_in_auto_mode
               (page_load_events (prior_page_of w) (waypoints_in_mission w)
                  (prior_start_of w) (prior_end_of w))
               (target (prior_return_of w)))%list
    /\ paging_state after
       = paging_state
           (page_loaded (prior_page_of w) (prior_start_of w) (prior_end_of w) w).
Proof.
  intros Hprior.
  destruct was_in_auto_mode; unfold when.
  - run_with (hold_run w).
    run_with (load_prior_run' (after_stop_or_start hold_events w) Hprior).
    run_prim. unfold goto_wp. do 2 run_prim.
    rewrite start_robot_run.
    eexists. split; [reflexivity|]. split; [|reflexivity].
    unfold jump_events. cbn [trace after_stop_or_start set_clock set_trace
      page_loaded waypoints_in_mission].
    now repeat rewrite <- app_assoc.
  - run_with (ret_run tt w).
    run_with (load_prior_run' w Hprior).
    run_prim. unfold goto_wp. do 2 run_prim.
    eexists. split; [reflexivity|]. split; [|reflexivity].
    unfold jump_events. cbn [trace set_clock set_trace page_loaded].
    rewrite app_nil_r.
    now repeat rewrite <- app_assoc.
Qed.

End Backwards.

Section BackwardsClaims.
Context `{External}.

Lemma page_load_events_gotos (page mission : list waypoint) (s e : Z) :
  filter is_goto (page_load_events page mission s e) = [].
Proof.
  unfold page_load_events, upload_events.
  destruct (wploader_load _) as [n|]; [destruct (n =? 0)|]; reflexivity.
Qed.

Lemma jump_events_gotos (was_in_auto_mode : bool) (target : Z)
  (page mission : list waypoint) (s e : Z) :
  filter is_goto
    (jump_events was_in_auto_mode (page_load_events page mission s e) target)
  = [EvWaypointSetCurrentSend target].
Proof.
  unfold jump_events. rewrite !filter_app, page_load_events_gotos.
  destruct was_in_auto_mode; reflexivity.
Qed.

(** X3.  [goto_prev_wp] with a mission progress at sequence number seq.
    Past index 2 it sends [waypoint_set_current_send(seq - 1)] and nothing
    else.  At index 2 or below with no prior page to load it sends nothing
    and changes nothing.  At index 2 or below with a prior page it stops the
    vehicle if it was in AUTO, loads the prior page once, sets the waypoint
    [load_prior_round_of_waypoints] returned and starts the vehicle again if
    it was in AUTO; the paging state is the one
    [load_prior_round_of_waypoints] leaves. *)
Theorem goto_prev_wp_cases (w : world) (mc : MISSION_CURRENT.t) :
  mission_current (autopilot_data w) = Some mc ->
  let seq := MISSION_CURRENT.seq mc in
  (2 < seq ->
   goto_prev_wp w
   = Return tt (set_trace (trace w ++ [EvWaypointSetCurrentSend (seq - 1)]) w))
  /\ (seq <= 2 -> prior_waypoints_to_load w = false ->
      goto_prev_wp w = Return tt w)
  /\ (seq <= 2 -> prior_waypoints_to_load w = true ->
      exists after,
        goto_prev_wp w = Return tt after
        /\ events_since w (goto_prev_wp w)
           = jump_events (flight_mode_is_auto w)
               (page_load_events (prior_page_of w) (waypoints_in_mission w)
                  (prior_start_of w) (prior_end_of w))
               (prior_return_of w)
        /\ paging_state after
           = paging_state (world_of (load_prior_round_of_waypoints w))).
Proof.
  intros Hmc seq. split; [|split].
  - intros Hin. unfold goto_prev_wp. run_prim. rewrite Hmc. fold seq.
    replace (seq - 1 <=? 1) with false by (symmetry; apply Z.leb_gt; lia).
    replace (Z.max (seq - 1) 1) with (seq - 1) by lia.
    reflexivity.
  - intros Hlow Hprior. unfold goto_prev_wp. run_prim. rewrite Hmc. fold seq.
    replace (seq - 1 <=? 1) with true by (symmetry; apply Z.leb_le; lia).
    rewrite Hprior. reflexivity.
  - intros Hlow Hprior.
    destruct (back_jump_run (flight_mode_is_auto w) (fun e => e) w Hprior)
      as (after & Hrun & Htrace & Hstate).
    assert (Hgoto : goto_prev_wp w = Return tt after).
    { unfold goto_prev_wp. run_prim. rewrite Hmc. fold seq.
      replace (seq - 1 <=? 1) with true by (symmetry; apply Z.leb_le; lia).
      rewrite Hprior. exact Hrun. }
    exists after. rewrite Hgoto. unfold events_since. cbn [world_of].
    rewrite Htrace, skipn_trace_app, Hstate, (load_prior_run' w Hprior).
    repeat split.
Qed.

(** X4.  [goto_wp_minus_50] with a mission progress at sequence number seq.
    Past index 51 it sends [waypoint_set_current_send(seq - 50)] alone; at
    index 51 or below with no prior page it sends
    [waypoint_set_current_send(1)] alone; with a prior page it loads that
    page once, between the stop and the start of a vehicle in AUTO, and sets
    waypoint max(r + (seq - 50) - 1, 1), r being the value
    [load_prior_round_of_waypoints] returned.  In every case exactly one
    waypoint-set command is sent and its target is at least 1. *)
Theorem goto_wp_minus_50_cases (w : world) (mc : MISSION_CURRENT.t) :
  mission_current (autopilot_data w) = Some mc ->
  let seq := MISSION_CURRENT.seq mc in
  (51 < seq ->
   goto_wp_minus_50 w
   = Return tt (set_trace (trace w ++ [EvWaypointSetCurrentSend (seq - 50)]) w))
  /\ (seq <= 51 -> prior_waypoints_to_load w = false ->
      goto_wp_minus_50 w
      = Return tt (set_trace (trace w ++ [EvWaypointSetCurrentSend 1]) w))
  /\ (seq <= 51 -> prior_waypoints_to_load w = true ->
      exists after,
        goto_wp_minus_50 w = Return tt after
        /\ events_since w (goto_wp_minus_50 w)
           = jump_events (flight_mode_is_auto w)
               (page_load_events (prior_page_of w) (waypoints_in_mission w)
                  (prior_start_of w) (prior_end_of w))
               (Z.max (prior_return_of w + (seq - 50) - 1) 1)
        /\ paging_state after
           = paging_state (world_of (load_prior_round_of_waypoints w)))
  /\ exists target,
       1 <= target
       /\ filter is_goto (events_since w (goto_wp_minus_50 w))
          = [EvWaypointSetCurrentSend target].
Proof.
  intros Hmc seq.
  assert (Hfar : 51 < seq ->
    goto_wp_minus_50 w
    = Return tt (set_trace (trace w ++ [EvWaypointSetCurrentSend (seq - 50)]) w)).
  { intros Hin. unfold goto_wp_minus_50. run_prim. rewrite Hmc. fold seq.
    replace (seq - 50 <=? 1) with false by (symmetry; apply Z.leb_gt; lia).
    reflexivity. }
  assert (Hfirst : seq <= 51 -> prior_waypoints_to_load w = false ->
    goto_wp_minus_50 w
    = Return tt (set_trace (trace w ++ [EvWaypointSetCurrentSend 1]) w)).
  { intros Hlow Hprior. unfold goto_wp_minus_50. run_prim. rewrite Hmc. fold seq.
    replace (seq - 50 <=? 1) with true by (symmetry; apply Z.leb_le; lia).
    rewrite Hprior. reflexivity. }
  assert (Hback : seq <= 51 -> prior_waypoints_to_load w = true ->
    exists after,
      goto_wp_minus_50 w = Return tt after
      /\ events_since w (goto_wp_minus_50 w)
         = jump_events (flight_mode_is_auto w)
             (page_load_events (prior_page_of w) (waypoints_in_mission w)
                (prior_start_of w) (prior_end_of w))
             (Z.max (prior_return_of w + (seq - 50) - 1) 1)
      /\ paging_state after
         = paging_state (world_of (load_prior_round_of_waypoints w))).
  { intros Hlow Hprior.
    destruct (back_jump_run (flight_mode_is_auto w)
                (fun e => Z.max (e + (seq - 50) - 1) 1) w Hprior)
      as (after & Hrun & Htrace & Hstate).
    assert (Hgoto : goto_wp_minus_50 w = Return tt after).
    { unfold goto_wp_minus_50. run_prim. rewrite Hmc. fold seq.
      replace (seq - 50 <=? 1) with true by (symmetry; apply Z.leb_le; lia).
      rewrite Hprior. exact Hrun. }
    exists after. rewrite Hgoto. unfold events_since. cbn [world_of].
    rewrite Htrace, skipn_trace_app, Hstate, (load_prior_run' w Hprior).
    repeat split. }
  split; [exact Hfar|]. split; [exact Hfirst|]. split; [exact Hback|].
  destruct (Z.lt_ge_cases 51 seq) as [Hin | Hlow].
  - exists (seq - 50). split; [lia|].
    rewrite (Hfar Hin). unfold events_since. cbn [world_of trace set_trace].
    now rewrite skipn_trace_app.
  - destruct (prior_waypoints_to_load w) eqn:Hprior.
    + destruct (Hback Hlow eq_refl) as (after & _ & Hev & _).
      eexists. split; [|rewrite Hev; apply jump_events_gotos]. lia.
    + exists 1. split; [lia|].
      rewrite (Hfirst Hlow eq_refl). unfold events_since.
      cbn [world_of trace set_trace].
      now rewrite skipn_trace_app.
Qed.

End BackwardsClaims.

(** ** What the paging engine leaves alone *)

Section Frame.
Context {B : Type} (f : world -> B).

Lemma preserves_bind {A C : Type} (m : M A) (k : A -> M C) :
  preserves f m -> (forall a, preserves f (k a)) -> preserves f (bind m k).
Proof.
  intros Hm Hk w. unfold bind. specialize (Hm w).
  destruct (m w) as [a w'|e w']; cbn [world_of] in *.
  - now rewrite Hk.
  - exact Hm.
Qed.

Lemma preserves_ret {A : Type} (a : A) : preserves f (ret a).
Proof. intros w. reflexivity. Qed.

Lemma preserves_raise {A : Type} (e : exn) : preserves f (@raise A e).
Proof. intros w. reflexivity. Qed.

Lemma preserves_get : preserves f get.
Proof. intros w. reflexivity. Qed.

Lemma preserves_time : preserves f time.
Proof. intros w. reflexivity. Qed.

Lemma preserves_modify (g : world -> world) :
  (forall w, f (g w) = f w) -> preserves f (modify g).
Proof. intros Hg w. apply Hg. Qed.

Lemma preserves_try_except {A : Type} (body : M A) (handler : exn -> M A) :
  preserves f body -> (forall e, preserves f (handler e)) ->
  preserves f (try_except body handler).
Proof.
  intros Hb Hh w. unfold try_except. specialize (Hb w).
  destruct (body w) as [a w'|e w']; cbn [world_of] in *.
  - exact Hb.
  - now rewrite Hh.
Qed.

End Frame.

(** Split a computation along its sequence structure; what is left are the
    [modify] steps, proved by computation when they do not touch [f]. *)
Ltac frame_step :=
  lazymatch goal with
  | |- preserves _ (bind _ _) => apply preserves_bind; [|intros ?]
  | |- preserves _ (try_except _ _) => apply preserves_try_except; [|intros ?]
  | |- preserves _ (ret _) => apply preserves_ret
  | |- preserves _ (raise _) => apply preserves_raise
  | |- preserves _ get => apply preserves_get
  | |- preserves _ time => apply preserves_time
  | |- preserves _ (modify _) => apply preserves_modify; intros ?; reflexivity
  | |- preserves _ (if ?b then _ else _) => destruct b
  | |- preserves _ (match ?x with _ => _ end) => destruct x
  end.

Ltac frame := repeat frame_step.

Section FrameClaims.
Context `{External}.

Lemma hold_preserves_mission : preserves waypoints_in_mission hold.
Proof. unfold hold, set_mode, emit, sleep. frame. Qed.

Lemma start_robot_preserves_mission : preserves waypoints_in_mission start_robot.
Proof. unfold start_robot, set_mode, emit, sleep. frame. Qed.

Lemma upload_preserves_mission :
  preserves waypoints_in_mission load_waypoints_into_autopilot.
Proof.
  unfold load_waypoints_into_autopilot, load_waypoints_using_mavutil, emit.
  frame.
Qed.

Lemma load_next_preserves_mission :
  preserves waypoints_in_mission load_next_round_of_waypoints.
Proof.
  unfold load_next_round_of_waypoints, save_mission_info_to_db, emit.
  frame; apply upload_preserves_mission.
Qed.

Lemma load_prior_preserves_mission :
  preserves waypoints_in_mission load_prior_round_of_waypoints.
Proof.
  unfold load_prior_round_of_waypoints, save_mission_info_to_db, emit.
  frame; apply upload_preserves_mission.
Qed.

Lemma get_prev_wp_dist_preserves_mission :
  preserves waypoints_in_mission get_prev_wp_dist_in_meters.
Proof. unfold get_prev_wp_dist_in_meters. frame. Qed.

Lemma get_wp_dist_preserves_mission :
  preserves waypoints_in_mission get_wp_dist_in_meters.
Proof. unfold get_wp_dist_in_meters. frame. Qed.

Lemma monitor_handler_preserves_mission (name : string) (e : exn) :
  preserves waypoints_in_mission (monitor_handler name e).
Proof. unfold monitor_handler, emit, sleep. frame. Qed.

(** The calls a computation is made of, by name. *)
Ltac frame_call :=
  lazymatch goal with
  | |- preserves _ hold => apply hold_preserves_mission
  | |- preserves _ start_robot => apply start_robot_preserves_mission
  | |- preserves _ load_next_round_of_waypoints =>
      apply load_next_preserves_mission
  | |- preserves _ load_prior_round_of_waypoints =>
      apply load_prior_preserves_mission
  | |- preserves _ get_prev_wp_dist_in_meters =>
      apply get_prev_wp_dist_preserves_mission
  | |- preserves _ get_wp_dist_in_meters =>
      apply get_wp_dist_preserves_mission
  | |- preserves _ (monitor_handler _ _) =>
      apply monitor_handler_preserves_mission
  end.

Lemma hold_sleep_start_preserves_mission (seconds : Q) :
  preserves waypoints_in_mission (hold_sleep_start_robot seconds).
Proof.
  unfold hold_sleep_start_robot, hold_keep_wp, emit, sleep.
  frame; frame_call.
Qed.

Lemma navigation_preserves_mission :
  preserves waypoints_in_mission goto_next_wp
  /\ preserves waypoints_in_mission goto_prev_wp
  /\ preserves waypoints_in_mission goto_wp_plus_50
  /\ preserves waypoints_in_mission goto_wp_minus_50.
Proof.
  unfold goto_next_wp, goto_prev_wp, goto_wp_plus_50, goto_wp_minus_50,
    when, goto_wp, emit, sleep.
  repeat split; frame; frame_call.
Qed.

(** ... and the compound ones. *)
Ltac frame_compound :=
  lazymatch goal with
  | |- preserves _ (hold_sleep_start_robot _) =>
      apply hold_sleep_start_preserves_mission
  | |- preserves _ goto_next_wp => apply (proj1 navigation_preserves_mission)
  | |- _ => frame_call
  end.

(** X5.  The stored mission changes only when a mission is loaded.  Paging
    forward and backward, the four navigation commands, the stop/start
    cycle, one turn of the gyration, close-to-waypoint, near-waypoint and
    no-progress monitors, and the handling of a navigation message all
    leave [waypoints_in_mission] as it was, whether they return or raise. *)
Theorem mission_changes_only_on_load :
  preserves waypoints_in_mission load_next_round_of_waypoints
  /\ preserves waypoints_in_mission load_prior_round_of_waypoints
  /\ preserves waypoints_in_mission goto_next_wp
  /\ preserves waypoints_in_mission goto_prev_wp
  /\ preserves waypoints_in_mission goto_wp_plus_50
  /\ preserves waypoints_in_mission goto_wp_minus_50
  /\ (forall seconds,
         preserves waypoints_in_mission (hold_sleep_start_robot seconds))
  /\ (forall last_5_headings,
         preserves waypoints_in_mission (gyrating_check_turn last_5_headings))
  /\ preserves waypoints_in_mission close_to_waypoint_turn
  /\ (forall waypoint_close_initial_time,
         preserves waypoints_in_mission
           (near_waypoint_turn waypoint_close_initial_time))
  /\ (forall state, preserves waypoints_in_mission (no_progress_turn state))
  /\ (forall message last_time,
         preserves waypoints_in_mission
           (process_meta_message message last_time)).
Proof.
  destruct navigation_preserves_mission as (Hnext & Hprev & Hplus & Hminus).
  split; [apply load_next_preserves_mission|].
  split; [apply load_prior_preserves_mission|].
  split; [exact Hnext|]. split; [exact Hprev|].
  split; [exact Hplus|]. split; [exact Hminus|].
  split; [apply hold_sleep_start_preserves_mission|].
  split.
  { intros last_5_headings.
    unfold gyrating_check_turn, gyrating_check_try, emit, sleep.
    frame; frame_compound. }
  split.
  { unfold close_to_waypoint_turn, emit, sleep. cbv zeta.
    frame; frame_compound. }
  split.
  { intros waypoint_close_initial_time.
    unfold near_waypoint_turn, emit, sleep. cbv zeta.
    frame; frame_compound. }
  split.
  { intros [distance_traveled_lately last_10_positions].
    unfold no_progress_turn, emit, sleep. cbv zeta.
    frame; frame_compound. }
  intros message last_time. unfold process_meta_message. cbv zeta.
  frame. destruct (mType message); assumption.
Qed.

End FrameClaims.

(** ** Flight modes *)

Section ModeNames.
Context `{External}.

Local Open Scope string_scope.
Local Open Scope Z_scope.

(** X6.  [get_flight_mode_as_string] names the mode [get_flight_mode]
    returns: it is [False] exactly for mode -1, "auto" exactly for
    MODE_AUTO, "manual" for MODE_MANUAL, "hold" for MODE_HOLD and
    "initialising" for MODE_INITIALISING, so the test
    [get_flight_mode_as_string() == "auto"] of the navigation commands
    agrees with the test [get_flight_mode() == MODE_AUTO] of the monitors;
    without a heartbeat the result is [False]. *)
Theorem flight_mode_string_names_the_mode (w : world) :
  (get_flight_mode_as_string w = None <-> get_flight_mode w = -1)
  /\ (get_flight_mode_as_string w = Some "auto"
      <-> get_flight_mode w = AutopilotMode.MODE_AUTO)
  /\ (get_flight_mode_as_string w = Some "manual"
      <-> get_flight_mode w = AutopilotMode.MODE_MANUAL)
  /\ (get_flight_mode_as_string w = Some "hold"
      <-> get_flight_mode w = AutopilotMode.MODE_HOLD)
  /\ (get_flight_mode_as_string w = Some "initialising"
      <-> get_flight_mode w = AutopilotMode.MODE_INITIALISING)
  /\ flight_mode_is_auto w = (get_flight_mode w =? AutopilotMode.MODE_AUTO)
  /\ (heartbeat (autopilot_data w) = None -> get_flight_mode_as_string w = None).
Proof.
  unfold flight_mode_is_auto, get_flight_mode_as_string.
  assert (Hnone : heartbeat (autopilot_data w) = None -> get_flight_mode w = -1).
  { unfold get_flight_mode. now intros ->. }
  unfold AutopilotMode.MODE_AUTO, AutopilotMode.MODE_MANUAL,
    AutopilotMode.MODE_HOLD, AutopilotMode.MODE_INITIALISING in *.
  set (mode := get_flight_mode w) in *.
  destruct (Z.eqb_spec mode (-1)) as [E1|N1].
  { rewrite E1. cbn. repeat split; intros; trivial; try congruence; try lia;
      try (match goal with
           | Hh : heartbeat _ = None |- _ => apply Hnone in Hh; lia
           end). }
  destruct (Z.eqb_spec mode 10) as [E2|N2].
  { rewrite E2. cbn. repeat split; intros; trivial; try congruence; try lia;
      try (match goal with
           | Hh : heartbeat _ = None |- _ => apply Hnone in Hh; lia
           end). }
  destruct (Z.eqb_spec mode 0) as [E3|N3].
  { rewrite E3. cbn. repeat split; intros; trivial; try congruence; try lia;
      try (match goal with
           | Hh : heartbeat _ = None |- _ => apply Hnone in Hh; lia
           end). }
  destruct (Z.eqb_spec mode 4) as [E4|N4].
  { rewrite E4. cbn. repeat split; intros; trivial; try congruence; try lia;
      try (match goal with
           | Hh : heartbeat _ = None |- _ => apply Hnone in Hh; lia
           end). }
  destruct (Z.eqb_spec mode 16) as [E5|N5].
  { rewrite E5. cbn. repeat split; intros; trivial; try congruence; try lia;
      try (match goal with
           | Hh : heartbeat _ = None |- _ => apply Hnone in Hh; lia
           end). }
  cbn.
  repeat split; intros; trivial; try congruence; try lia;
      try (match goal with
           | Hh : heartbeat _ = None |- _ => apply Hnone in Hh; lia
           end).
Qed.

End ModeNames.

(** ** One page forward and back *)

Section RoundTrip.
Context `{External}.

(** X7.  One page forward and back.  After a mission of at least 101
    waypoints is loaded, [load_next_round_of_waypoints] followed by
    [load_prior_round_of_waypoints] returns 100 and restores the waypoints
    of the first page, the stored mission and the recorded end; the
    recorded start is then 0, where loading the mission had left 1. *)
Theorem next_then_prior_restores_first_page (waypoints : list waypoint)
  (w0 : world) :
  101 <= PyList.len waypoints ->
  let w1 := world_of (load_mission_data_from_mission_waypoints waypoints w0) in
  let w2 := world_of (load_next_round_of_waypoints w1) in
  exists after,
    load_prior_round_of_waypoints w2
    = Return Constants.WAYPOINT_LOAD_COUNT_INITIAL after
    /\ waypoints_in_autopilot after = waypoints_in_autopilot w1
    /\ waypoints_in_mission after = waypoints_in_mission w1
    /\ last_autopilot_loaded_waypoint_number_end after
       = last_autopilot_loaded_waypoint_number_end w1
    /\ last_autopilot_loaded_waypoint_number_start w1 = 1
    /\ last_autopilot_loaded_waypoint_number_start after = 0.
Proof.
  intros Hlen w1 w2.
  assert (Hne : waypoints <> []).
  { intros ->. unfold PyList.len in Hlen. simpl in Hlen. lia. }
  pose proof (mission_with_home_length waypoints Hne) as Hmission.
  assert (E1 : w1 = page_loaded
                      (PyList.slice (mission_with_home waypoints) 0
                         (Constants.WAYPOINT_LOAD_COUNT_INITIAL + 1))
                      1 Constants.WAYPOINT_LOAD_COUNT_INITIAL
                      (set_waypoints_in_mission (mission_with_home waypoints) w0)).
  { unfold w1. now rewrite load_mission_run. }
  assert (Hmore : more_waypoints_to_load w1 = true).
  { rewrite E1. unfold more_waypoints_to_load,
      end_waypoint_number_of_complete_mission.
    cbn [page_loaded last_autopilot_loaded_waypoint_number_end
         waypoints_in_mission set_waypoints_in_mission].
    unfold Constants.WAYPOINT_LOAD_COUNT_INITIAL. apply Z.ltb_lt. lia. }
  assert (Hend : 0 <= last_autopilot_loaded_waypoint_number_end w1).
  { rewrite E1. cbn [page_loaded last_autopilot_loaded_waypoint_number_end].
    unfold Constants.WAYPOINT_LOAD_COUNT_INITIAL. lia. }
  destruct (load_next_run w1 Hmore Hend) as (home & _ & He & Hnext & _).
  assert (E2 : w2 = page_loaded
                      (home :: PyList.slice (waypoints_in_mission w1)
                                 (last_autopilot_loaded_waypoint_number_end w1)
                                 (next_waypoint_end_of w1 + 1))
                      (last_autopilot_loaded_waypoint_number_end w1)
                      (next_waypoint_end_of w1) w1).
  { unfold w2. now rewrite Hnext. }
  assert (Hend1 : last_autopilot_loaded_waypoint_number_end w1 = 100).
  { rewrite E1. reflexivity. }
  assert (Hrange : 100 < next_waypoint_end_of w1 <= 350).
  { split; [lia|]. unfold next_waypoint_end_of. rewrite Hend1.
    unfold Constants.WAYPOINT_LOAD_COUNT_SUBSEQUENT.
    destruct (Z.gtb_spec (100 + 250) (PyList.len (waypoints_in_mission w1))); lia. }
  assert (Hprior : prior_waypoints_to_load w2 = true).
  { rewrite E2. unfold prior_waypoints_to_load.
    cbn [page_loaded last_autopilot_loaded_waypoint_number_end].
    unfold Constants.WAYPOINT_LOAD_COUNT_INITIAL. apply Z.gtb_lt. lia. }
  assert (Hrewind : prior_rewinds w2 = true).
  { rewrite E2. unfold prior_rewinds.
    cbn [page_loaded last_autopilot_loaded_waypoint_number_end].
    unfold Constants.WAYPOINT_LOAD_COUNT_INITIAL,
      Constants.WAYPOINT_LOAD_COUNT_SUBSEQUENT. apply Z.leb_le. lia. }
  eexists. split.
  { rewrite (load_prior_run' w2 Hprior). unfold prior_return_of.
    rewrite Hrewind. reflexivity. }
  unfold prior_page_of, prior_start_of, prior_end_of. rewrite Hrewind.
  cbn [page_loaded waypoints_in_autopilot waypoints_in_mission
       last_autopilot_loaded_waypoint_number_end
       last_autopilot_loaded_waypoint_number_start].
  rewrite E2. cbn [page_loaded waypoints_in_mission]. rewrite E1.
  cbn [page_loaded waypoints_in_autopilot waypoints_in_mission
       set_waypoints_in_mission
       last_autopilot_loaded_waypoint_number_end
       last_autopilot_loaded_waypoint_number_start].
  repeat split.
Qed.

End RoundTrip.

(** ** The cooldown after a stop or start *)

Section Cooldown.
Context `{External}.

(** The world [hold_sleep_start_robot] leaves: the stop/start cycle sent,
    the last stop or start recorded at the moment [start_robot] began. *)
Lemma hold_sleep_start_robot_world (seconds : Q) (w : world) :
  let current_waypoint :=
    match mission_current (autopilot_data w) with
    | Some mc => MISSION_CURRENT.seq mc
    | None => 1
    end in
  hold_sleep_start_robot seconds w
  = Return tt
      (mk_world (autopilot_data w) (waypoints_in_autopilot w)
         (waypoints_in_mission w)
         (last_autopilot_loaded_waypoint_number_end w)
         (last_autopilot_loaded_waypoint_number_start w)
         (clock w + (1 # 10) + seconds)%Q false
         (clock w + (1 # 10) + seconds + (1 # 10))%Q
         (trace w ++ stop_start_cycle current_waypoint)).
Proof.
  intros current_waypoint.
  unfold hold_sleep_start_robot, hold_keep_wp.
  rewrite bind_assoc. run_prim. fold current_waypoint.
  rewrite bind_assoc. run_with (hold_run w).
  unfold after_stop_or_start. do 2 run_prim.
  rewrite start_robot_run.
  unfold after_stop_or_start; world_norm.
  unfold stop_start_cycle, hold_events, start_events.
  repeat rewrite <- app_assoc. reflexivity.
Qed.

(** A [try] block that sends a command ends with an empty heading buffer
    and the clock 1.1 s past the recorded stop/start time. *)
Lemma gyrating_check_try_cooldown (last_5_headings : list Q) (w : world) :
  (exists e, gyrating_check_try last_5_headings w = Raise e w)
  \/ (exists headings after events,
         gyrating_check_try last_5_headings w = Return headings after
         /\ trace after = trace w ++ events
         /\ (commands events = []
             \/ (headings = []
                 /\ (clock after - time_last_stop_start after == 11 # 10)%Q))).
Proof.
  unfold gyrating_check_try. run_step.
  destruct (mission_current (autopilot_data w)) as [mc|] eqn:Hmc.
  2:{ rewrite andb_false_r. run_step.
      right. eexists _, _, []. rewrite app_nil_r.
      repeat split. now left. }
  destruct ((get_flight_mode w =? AutopilotMode.MODE_AUTO)
            && negb (MISSION_CURRENT.seq mc
                     =? end_waypoint_number_of_waypoints_in_autopilot w)
            && (MISSION_CURRENT.seq mc >? 0)).
  2:{ run_step. right. eexists _, _, []. rewrite app_nil_r.
      repeat split. now left. }
  destruct (global_position_int (autopilot_data w)) as [gpi|].
  2:{ left. exists AttributeError. reflexivity. }
  destruct (get_prev_wp_dist_reads w) as [[dp Ep]|Ep].
  2:{ left. exists IndexError. now apply bind_raise. }
  run_with Ep.
  destruct (get_wp_dist_reads w) as [[dn En]|En].
  2:{ left. exists IndexError. now apply bind_raise. }
  run_with En. right.
  destruct (PyNum.ltb dp _ || PyNum.ltb dn _).
  { repeat run_step. eexists _, _, [_].
    split; [reflexivity|]. split; [reflexivity|]. now left. }
  destruct (2 <=? List.length _)%nat.
  2:{ repeat run_step. eexists _, _, []. rewrite app_nil_r.
      split; [reflexivity|]. split; [reflexivity|]. now left. }
  destruct (PyNum.ltb Constants.GYRATING_CHECK_MAX_ALLOWABLE_WOBBLE_IN_DEGREES _).
  2:{ repeat run_step. eexists _, _, []. rewrite app_nil_r.
      split; [reflexivity|]. split; [reflexivity|]. now left. }
  repeat run_step.
  destruct (PyNum.ltb _ (clock w - time_last_stop_start w)%Q) eqn:Hcool.
  - repeat run_step.
    match goal with
    | |- context [bind (hold_sleep_start_robot ?d) _ ?w1] =>
        run_with (hold_sleep_start_robot_world d w1)
    end.
    world_norm. repeat run_step.
    eexists _, _, (_ :: stop_start_cycle _).
    split; [reflexivity|]. world_norm.
    split; [now rewrite <- app_assoc|].
    right. split; [reflexivity|]. ring.
  - repeat run_step.
    eexists _, _, [_; _]. split; [reflexivity|]. world_norm.
    split; [now rewrite <- app_assoc|]. now left.
Qed.

(** X8.  A turn of the gyration monitor that sends a command returns an
    empty heading buffer and leaves the cooldown running, so the turn that
    follows it sends no command, whatever its buffer. *)
Theorem gyration_reset_starts_the_cooldown (last_5_headings next_headings : list Q)
  (w : world) :
  let turn := gyrating_check_turn last_5_headings w in
  commands (events_since w turn) <> [] ->
  (exists after, turn = Return [] after)
  /\ cooldown_elapsed (world_of turn) = false
  /\ commands (events_since (world_of turn)
                 (gyrating_check_turn next_headings (world_of turn))) = [].
Proof.
  intros turn Hsent.
  assert (Hturn : (exists after, turn = Return [] after)
                  /\ (clock (world_of turn) - time_last_stop_start (world_of turn)
                      == 11 # 10)%Q).
  { unfold turn, gyrating_check_turn, try_except, events_since in *.
    destruct (gyrating_check_try_cooldown last_5_headings w)
      as [[e E] | (headings & after & events & E & Htrace & Hcommands)];
      rewrite E in *.
    - exfalso. apply Hsent. clear Hsent.
      repeat run_step. unfold ret. cbn [world_of]. world_norm.
      repeat rewrite <- app_assoc. now rewrite skipn_trace_app.
    - cbn [world_of] in *. rewrite Htrace, skipn_trace_app in Hsent.
      destruct Hcommands as [Hnone | [-> Hclock]]; [contradiction|].
      split; [now exists after | exact Hclock]. }
  destruct Hturn as [Hreturn Hclock].
  assert (Hcool : cooldown_elapsed (world_of turn) = false).
  { unfold cooldown_elapsed. apply ltb_false_iff. rewrite Hclock.
    unfold Constants.GYRATING_CHECK_MIN_TIME_BETWEEN_RESETS_IN_SECONDS.
    discriminate. }
  split; [exact Hreturn|]. split; [exact Hcool|].
  destruct (gyrating_check_turn_commands next_headings (world_of turn))
    as [Hnone | [Helapsed _]]; [exact Hnone|].
  unfold cooldown_elapsed in Hcool. congruence.
Qed.

End Cooldown.

(** ** Edges of the mission *)

Section Edges.
Context `{External}.

(** X9.  On the last page, where no more waypoints are left to load,
    [goto_next_wp] sends [waypoint_set_current_send(seq + 1)] without
    comparing seq + 1 with the end of the page, and [goto_wp_plus_50] sends
    nothing and changes nothing when seq + 50 lies past the end of the
    page, and [waypoint_set_current_send(seq + 50)] otherwise. *)
Theorem navigation_on_the_last_page (w : world) (mc : MISSION_CURRENT.t) :
  mission_current (autopilot_data w) = Some mc ->
  more_waypoints_to_load w = false ->
  let seq := MISSION_CURRENT.seq mc in
  goto_next_wp w
  = Return tt (set_trace (trace w ++ [EvWaypointSetCurrentSend (seq + 1)]) w)
  /\ (end_waypoint_number_of_waypoints_in_autopilot w < seq + 50 ->
      goto_wp_plus_50 w = Return tt w)
  /\ (seq + 50 <= end_waypoint_number_of_waypoints_in_autopilot w ->
      goto_wp_plus_50 w
      = Return tt
          (set_trace (trace w ++ [EvWaypointSetCurrentSend (seq + 50)]) w)).
Proof.
  intros Hmc Hmore seq. split; [|split].
  - unfold goto_next_wp. run_prim. rewrite Hmc, Hmore, andb_false_r.
    reflexivity.
  - intros Hout. unfold goto_wp_plus_50. run_prim. rewrite Hmc, Hmore.
    fold seq.
    replace (seq + 50 >? end_waypoint_number_of_waypoints_in_autopilot w)
      with true by (symmetry; apply Z.gtb_lt; lia).
    reflexivity.
  - intros Hin. unfold goto_wp_plus_50. run_prim. rewrite Hmc. fold seq.
    replace (seq + 50 >? end_waypoint_number_of_waypoints_in_autopilot w)
      with false by (symmetry; rewrite Z.gtb_ltb; apply Z.ltb_ge; lia).
    reflexivity.
Qed.

(** X10.  Loading a mission of no waypoints.  The stored mission and the
    page are empty, the recorded bounds are 1 and 100, the database row is
    written and the header-only file uploaded.  Afterwards no page is left
    to load in either direction ([load_next_round_of_waypoints] returns
    [False], [load_prior_round_of_waypoints] returns -1, both without an
    effect) and both distance functions return -1. *)
Theorem load_mission_of_no_waypoints (w0 : world) :
  let run := load_mission_data_from_mission_waypoints [] w0 in
  let w := world_of run in
  paging_state w = ([], [], 1, Constants.WAYPOINT_LOAD_COUNT_INITIAL)
  /\ events_since w0 run
     = page_load_events [] [] 1 Constants.WAYPOINT_LOAD_COUNT_INITIAL
  /\ more_waypoints_to_load w = false
  /\ prior_waypoints_to_load w = false
  /\ get_wp_dist_in_meters w = Return (-1)%Q w
  /\ get_prev_wp_dist_in_meters w = Return (-1)%Q w
  /\ load_next_round_of_waypoints w = Return false w
  /\ load_prior_round_of_waypoints w = Return (-1) w.
Proof.
  cbv zeta. rewrite load_mission_run. cbn [world_of].
  change (mission_with_home []) with (@nil waypoint).
  change (PyList.slice [] 0 (Constants.WAYPOINT_LOAD_COUNT_INITIAL + 1))
    with (@nil waypoint).
  set (w := page_loaded [] 1 Constants.WAYPOINT_LOAD_COUNT_INITIAL
              (set_waypoints_in_mission [] w0)).
  assert (Hmore : more_waypoints_to_load w = false) by reflexivity.
  assert (Hprior : prior_waypoints_to_load w = false) by reflexivity.
  split; [reflexivity|].
  split; [unfold events_since; cbn [world_of]; apply skipn_trace_app|].
  split; [exact Hmore|]. split; [exact Hprior|].
  split; [reflexivity|]. split; [reflexivity|].
  split.
  - unfold load_next_round_of_waypoints. run_prim. now rewrite Hmore.
  - unfold load_prior_round_of_waypoints. run_prim. now rewrite Hprior.
Qed.

(** X11.  Every stop and every start restarts the cooldown of the
    gyration monitor: [hold] and [start_robot] record the time of the call
    as [time_last_stop_start], and right after [hold], [start_robot] or
    [hold_sleep_start_robot] the 45 seconds have not elapsed. *)
Theorem every_stop_or_start_restarts_the_cooldown (w : world) (seconds : Q) :
  cooldown_elapsed (world_of (hold w)) = false
  /\ cooldown_elapsed (world_of (start_robot w)) = false
  /\ cooldown_elapsed (world_of (hold_sleep_start_robot seconds w)) = false
  /\ time_last_stop_start (world_of (hold w)) = clock w
  /\ time_last_stop_start (world_of (start_robot w)) = clock w.
Proof.
  rewrite hold_run, start_robot_run, hold_sleep_start_robot_world.
  cbn [world_of]. unfold cooldown_elapsed, after_stop_or_start.
  cbn [clock time_last_stop_start].
  unfold Constants.GYRATING_CHECK_MIN_TIME_BETWEEN_RESETS_IN_SECONDS.
  repeat split; apply ltb_false_iff; lra.
Qed.

End Edges.

(** ** The heading buffer *)

Section HeadingBuffer.
Context `{External}.

Lemma gyrating_check_try_buffer (last_5_headings : list Q) (w : world) :
  (exists e after, gyrating_check_try last_5_headings w = Raise e after)
  \/ (exists headings after,
         gyrating_check_try last_5_headings w = Return headings after
         /\ next_headings last_5_headings w headings).
Proof.
  unfold gyrating_check_try, next_headings. run_step.
  destruct ((get_flight_mode w =? AutopilotMode.MODE_AUTO)
            && negb (match mission_current (autopilot_data w) with
                     | Some mc => MISSION_CURRENT.seq mc
                     | None => -1
                     end
                     =? end_waypoint_number_of_waypoints_in_autopilot w)
            && (match mission_current (autopilot_data w) with
                | Some mc => MISSION_CURRENT.seq mc
                | None => -1
                end >? 0)).
  2:{ run_step. right. eexists _, _. split; [reflexivity|]. tauto. }
  destruct (global_position_int (autopilot_data w)) as [gpi|].
  2:{ left. now exists AttributeError, w. }
  destruct (get_prev_wp_dist_reads w) as [[dp Ep]|Ep].
  2:{ left. exists IndexError, w. now apply bind_raise. }
  run_with Ep.
  destruct (get_wp_dist_reads w) as [[dn En]|En].
  2:{ left. exists IndexError, w. now apply bind_raise. }
  run_with En. right.
  destruct (PyNum.ltb dp _ || PyNum.ltb dn _).
  { repeat run_step. eexists _, _. split; [reflexivity|]. tauto. }
  destruct (2 <=? List.length _)%nat.
  2:{ repeat run_step. eexists _, _. split; [reflexivity|].
      right. right. now exists gpi. }
  destruct (PyNum.ltb Constants.GYRATING_CHECK_MAX_ALLOWABLE_WOBBLE_IN_DEGREES _).
  2:{ repeat run_step. eexists _, _. split; [reflexivity|].
      right. right. now exists gpi. }
  repeat run_step.
  destruct (PyNum.ltb _ (clock w - time_last_stop_start w)%Q).
  - repeat run_step.
    match goal with
    | |- context [bind (hold_sleep_start_robot ?d) _ ?w1] =>
        run_with (hold_sleep_start_robot_world d w1)
    end.
    repeat run_step. eexists _, _. split; [reflexivity|]. tauto.
  - repeat run_step. eexists _, _. split; [reflexivity|].
    right. right. now exists gpi.
Qed.

(** X12.  One turn of the gyration monitor never raises, and the heading
    buffer it returns is empty, the one it was given, or the current
    heading in front of the first four of the one it was given; a buffer
    of at most five headings stays one. *)
Theorem gyration_buffer_holds_the_latest_five (last_5_headings : list Q)
  (w : world) :
  exists headings after,
    gyrating_check_turn last_5_headings w = Return headings after
    /\ next_headings last_5_headings w headings
    /\ ((List.length last_5_headings <= 5)%nat ->
        (List.length headings <= 5)%nat).
Proof.
  assert (Hbound : forall headings,
             next_headings last_5_headings w headings ->
             (List.length last_5_headings <= 5)%nat ->
             (List.length headings <= 5)%nat).
  { intros headings [-> | [-> | (gpi & _ & ->)]] Hlen;
      [simpl; lia | lia | rewrite length_firstn; lia]. }
  unfold gyrating_check_turn, try_except.
  destruct (gyrating_check_try_buffer last_5_headings w)
    as [(e & after & ->) | (headings & after & -> & Hnext)].
  - repeat run_step. eexists _, _. split; [reflexivity|].
    assert (Hsame : next_headings last_5_headings w last_5_headings)
      by (right; now left).
    split; [exact Hsame | now apply Hbound].
  - exists headings, after. split; [reflexivity|].
    split; [exact Hnext | now apply Hbound].
Qed.

End HeadingBuffer.

(** ** The joystick *)

Section Joystick.
Context `{External}.

Local Open Scope Q_scope.

Lemma int_nonneg (x : Q) : 0 <= x -> PyFloat.int x = Qfloor x.
Proof.
  intros Hx. unfold PyFloat.int, Qfloor. destruct x as [n d]. simpl.
  apply Z.quot_div_nonneg; [|lia].
  unfold Qle in Hx. simpl in Hx. lia.
Qed.

Lemma int_nonpos (x : Q) : x <= 0 -> PyFloat.int x = Qceiling x.
Proof.
  intros Hx. unfold PyFloat.int, Qceiling, Qfloor. destruct x as [n d]. simpl.
  unfold Qle in Hx. simpl in Hx.
  rewrite <- (Z.opp_involutive n) at 1.
  rewrite Z.quot_opp_l by lia. f_equal.
  apply Z.quot_div_nonneg; lia.
Qed.

Lemma int_mono (x y : Q) : x <= y -> (PyFloat.int x <= PyFloat.int y)%Z.
Proof.
  intros Hxy.
  destruct (Qlt_le_dec x 0) as [Hx | Hx]; destruct (Qlt_le_dec y 0) as [Hy | Hy].
  - rewrite !int_nonpos by lra. now apply Qceiling_resp_le.
  - rewrite (int_nonpos x), (int_nonneg y) by lra.
    apply Z.le_trans with 0%Z.
    + change 0%Z with (Qceiling 0). apply Qceiling_resp_le. lra.
    + change 0%Z with (Qfloor 0). now apply Qfloor_resp_le.
  - lra.
  - rewrite !int_nonneg by lra. now apply Qfloor_resp_le.
Qed.

Lemma int_inject_Z (z : Z) : PyFloat.int (inject_Z z) = z.
Proof. unfold PyFloat.int. simpl. apply Z.quot_1_r. Qed.

Lemma int_between (x : Q) (lo hi : Z) :
  inject_Z lo <= x -> x <= inject_Z hi -> (lo <= PyFloat.int x <= hi)%Z.
Proof.
  intros Hlo Hhi. split.
  - rewrite <- (int_inject_Z lo). now apply int_mono.
  - rewrite <- (int_inject_Z hi). now apply int_mono.
Qed.

Lemma int_compat (x y : Q) : x == y -> PyFloat.int x = PyFloat.int y.
Proof.
  intros E. apply Z.le_antisymm; apply int_mono; lra.
Qed.

Lemma convert_joystick_to_pwm_bounds (speed : Q) :
  -100 <= speed <= 100 -> (1000 <= convert_joystick_to_pwm speed <= 2000)%Z.
Proof.
  intros [Hlo Hhi]. unfold convert_joystick_to_pwm. apply int_between.
  - change (inject_Z 1000) with 1000. lra.
  - change (inject_Z 2000) with 2000. lra.
Qed.

(** X13.  [convert_joystick_to_pwm] maps a speed between -100 and 100 to
    a PWM value between 1000 and 2000, never maps a larger speed to a
    smaller value, and maps -100, 0 and 100 to 1000, 1500 and 2000. *)
Theorem convert_joystick_to_pwm_range (speed speed' : Q) :
  (-100 <= speed <= 100 -> (1000 <= convert_joystick_to_pwm speed <= 2000)%Z)
  /\ (speed <= speed' ->
      (convert_joystick_to_pwm speed <= convert_joystick_to_pwm speed')%Z)
  /\ convert_joystick_to_pwm 0 = 1500%Z
  /\ convert_joystick_to_pwm (-100) = 1000%Z
  /\ convert_joystick_to_pwm 100 = 2000%Z.
Proof.
  split; [apply convert_joystick_to_pwm_bounds|].
  unfold convert_joystick_to_pwm. split.
  - intros Hle. apply int_mono. lra.
  - repeat split.
Qed.

End Joystick.

Section Joystick2.
Context `{External}.

Local Open Scope Q_scope.

Lemma py_min_cases (a b : Q) :
  (PyFloat.min a b = a /\ a <= b) \/ (PyFloat.min a b = b /\ b < a).
Proof.
  unfold PyFloat.min. destruct (PyNum.ltb b a) eqn:E.
  - right. split; trivial. now apply ltb_true_iff.
  - left. split; trivial. now apply ltb_false_iff.
Qed.

(** The clamp [max(min(speed, 100), -100)]. *)
Lemma clamp_100 (speed : Q) :
  let s := PyNum.max (PyFloat.min speed 100) (-100) in
  -100 <= s <= 100
  /\ (100 <= speed -> s == 100)
  /\ (speed <= -100 -> s == -100)
  /\ (-100 <= speed <= 100 -> s == speed).
Proof.
  cbv zeta.
  destruct (py_min_cases speed 100) as [[-> Hm] | [-> Hm]];
    destruct (py_max_cases speed (-100)) as [[E1 H1] | [E1 H1]];
    destruct (py_max_cases 100 (-100)) as [[E2 H2] | [E2 H2]];
    try rewrite E1; try rewrite E2;
    repeat split; intros; try lra.
Qed.

(** X14.  [convert_joystick_to_pwm_dynamic] with a minimum, a midpoint
    and a maximum in that order returns a value between the minimum and
    the maximum for every speed: the midpoint at speed 0, at most the
    midpoint below 0, at least the midpoint above 0, the maximum from speed
    100 upward and the minimum from speed -100 downward. *)
Theorem convert_joystick_to_pwm_dynamic_range (speed : Q)
  (minimum_pwm midpoint_pwm maximum_pwm : Z) :
  (minimum_pwm <= midpoint_pwm <= maximum_pwm)%Z ->
  let pwm :=
    convert_joystick_to_pwm_dynamic speed minimum_pwm midpoint_pwm maximum_pwm in
  (minimum_pwm <= pwm <= maximum_pwm)%Z
  /\ (speed == 0 -> pwm = midpoint_pwm)
  /\ (speed < 0 -> (pwm <= midpoint_pwm)%Z)
  /\ (0 < speed -> (midpoint_pwm <= pwm)%Z)
  /\ (100 <= speed -> pwm = maximum_pwm)
  /\ (speed <= -100 -> pwm = minimum_pwm).
Proof.
  intros [Hlo Hhi]. cbv zeta. unfold convert_joystick_to_pwm_dynamic.
  destruct (clamp_100 speed) as (Hs & Htop & Hbot & Hmid). cbv zeta in *.
  set (s := PyNum.max (PyFloat.min speed 100) (-100)) in *.
  assert (Hmin : inject_Z minimum_pwm <= inject_Z midpoint_pwm)
    by (now rewrite <- Zle_Qle).
  assert (Hmax : inject_Z midpoint_pwm <= inject_Z maximum_pwm)
    by (now rewrite <- Zle_Qle).
  destruct (Qeq_bool s 0) eqn:Ez.
  { apply Qeq_bool_iff in Ez.
    repeat split; intros; try lia;
      try (exfalso;
           first [ assert (s == speed) by (apply Hmid; lra)
                 | assert (s == 100) by (apply Htop; lra)
                 | assert (s == -100) by (apply Hbot; lra) ]; lra). }
  assert (Hnz : ~ s == 0).
  { intros E. apply Qeq_bool_iff in E. congruence. }
  destruct (PyNum.ltb s 0) eqn:Eneg.
  - apply ltb_true_iff in Eneg.
    set (v := inject_Z midpoint_pwm
              + inject_Z (midpoint_pwm - minimum_pwm) * (s / 100)).
    assert (Hv : v == inject_Z midpoint_pwm
                      + (inject_Z midpoint_pwm - inject_Z minimum_pwm) * (s / 100)).
    { unfold v. unfold Z.sub. rewrite inject_Z_plus, inject_Z_opp. ring. }
    assert (Hs100 : s / 100 == s * (1 # 100)) by field.
    assert (Hrange : inject_Z minimum_pwm <= v /\ v <= inject_Z midpoint_pwm).
    { rewrite Hv, Hs100. split; nra. }
    destruct (int_between v minimum_pwm midpoint_pwm) as [Hl Hu]; try tauto.
    repeat split; intros; try lia.
    + exfalso. assert (s == speed) by (apply Hmid; lra). lra.
    + exfalso.
      destruct (Qlt_le_dec speed 100).
      * assert (s == speed) by (apply Hmid; lra). lra.
      * assert (s == 100) by (apply Htop; lra). lra.
    + exfalso. assert (s == 100) by (apply Htop; lra). lra.
    + assert (Es : s == -100) by (apply Hbot; lra).
      rewrite <- (int_inject_Z minimum_pwm). apply int_compat.
      rewrite Hv, Es. field.
  - apply ltb_false_iff in Eneg.
    set (v := inject_Z midpoint_pwm
              + inject_Z (maximum_pwm - midpoint_pwm) * (s / 100)).
    assert (Hv : v == inject_Z midpoint_pwm
                      + (inject_Z maximum_pwm - inject_Z midpoint_pwm) * (s / 100)).
    { unfold v. unfold Z.sub. rewrite inject_Z_plus, inject_Z_opp. ring. }
    assert (Hs100 : s / 100 == s * (1 # 100)) by field.
    assert (Hrange : inject_Z midpoint_pwm <= v /\ v <= inject_Z maximum_pwm).
    { rewrite Hv, Hs100. split; nra. }
    destruct (int_between v midpoint_pwm maximum_pwm) as [Hl Hu]; try tauto.
    repeat split; intros; try lia.
    + exfalso. assert (s == speed) by (apply Hmid; lra). lra.
    + exfalso.
      destruct (Qlt_le_dec (-100) speed).
      * assert (s == speed) by (apply Hmid; lra). lra.
      * assert (s == -100) by (apply Hbot; lra). lra.
    + assert (Es : s == 100) by (apply Htop; lra).
      rewrite <- (int_inject_Z maximum_pwm). apply int_compat.
      rewrite Hv, Es. field.
    + exfalso. assert (s == -100) by (apply Hbot; lra). lra.
Qed.

End Joystick2.

Section Override.
Context `{External}.

Lemma assign_spec {A : Type} (l : list A) (i : nat) (x : A) :
  (i < List.length l)%nat ->
  exists l',
    PySeq.assign l i x = Some l'
    /\ List.length l' = List.length l
    /\ nth_error l' i = Some x
    /\ forall j, j <> i -> nth_error l' j = nth_error l j.
Proof.
  revert i. induction l as [|y rest IH]; intros i Hi; simpl in Hi; [lia|].
  destruct i as [|i]; simpl.
  - eexists. split; [reflexivity|]. split; [reflexivity|].
    split; [reflexivity|]. intros [|j] Hj; [congruence | reflexivity].
  - destruct (IH i) as (l' & -> & Hlen & Hi' & Hother); [lia|].
    eexists. split; [reflexivity|]. simpl. split; [now rewrite Hlen|].
    split; [exact Hi'|]. intros [|j] Hj; [reflexivity|].
    simpl. apply Hother. congruence.
Qed.

Lemma assign_out_of_range {A : Type} (l : list A) (i : nat) (x : A) :
  (List.length l <= i)%nat -> PySeq.assign l i x = None.
Proof.
  revert i. induction l as [|y rest IH]; intros i Hi; simpl; trivial.
  destruct i as [|i]; simpl in *; [lia|]. rewrite IH; trivial. lia.
Qed.

(** X15.  [set_rc_channel_pwm] sends nothing for a channel outside 1..18.
    For a channel inside it sends eighteen values: the given one at the
    position of the channel and 65535 at the seventeen others. *)
Theorem set_rc_channel_pwm_overrides_one_channel (channel_id pwm : Z) :
  (1 <= channel_id <= 18 ->
   exists rc_channel_values,
     set_rc_channel_pwm channel_id pwm = Some rc_channel_values
     /\ List.length rc_channel_values = 18%nat
     /\ PyList.index rc_channel_values (channel_id - 1) = Some pwm
     /\ forall i, 0 <= i < 18 -> i <> channel_id - 1 ->
                  PyList.index rc_channel_values i = Some 65535)
  /\ (channel_id < 1 \/ 18 < channel_id ->
      set_rc_channel_pwm channel_id pwm = None).
Proof.
  unfold set_rc_channel_pwm. split.
  - intros Hch.
    replace ((channel_id <? 1) || (channel_id >? 18)) with false
      by (symmetry; apply orb_false_iff; split;
          [apply Z.ltb_ge | rewrite Z.gtb_ltb; apply Z.ltb_ge]; lia).
    destruct (assign_spec (repeat 65535 18) (Z.to_nat (channel_id - 1)) pwm)
      as (l' & Hrun & Hlen & Hset & Hother).
    { rewrite repeat_length. lia. }
    rewrite repeat_length in Hlen.
    exists l'. split; [exact Hrun|]. split; [exact Hlen|].
    unfold PyList.index, PyList.len. rewrite Hlen.
    split.
    + replace (channel_id - 1 <? 0) with false by (symmetry; apply Z.ltb_ge; lia).
      replace ((0 <=? channel_id - 1) && (channel_id - 1 <? Z.of_nat 18))
        with true
        by (symmetry; apply andb_true_iff; split;
            [apply Z.leb_le | apply Z.ltb_lt]; lia).
      exact Hset.
    + intros i Hi Hne.
      replace (i <? 0) with false by (symmetry; apply Z.ltb_ge; lia).
      replace ((0 <=? i) && (i <? Z.of_nat 18)) with true
        by (symmetry; apply andb_true_iff; split;
            [apply Z.leb_le | apply Z.ltb_lt]; lia).
      rewrite Hother by lia.
      apply nth_error_repeat. lia.
  - intros Hch.
    replace ((channel_id <? 1) || (channel_id >? 18)) with true; trivial.
    symmetry. apply orb_true_iff.
    destruct Hch; [left; apply Z.ltb_lt | right; apply Z.gtb_lt]; lia.
Qed.

Local Open Scope Q_scope.

(** X16.  For a joystick sample with both coordinates between -1 and 1,
    [set_rc_channels_from_joystick] sends two overrides: the first sets
    channel 1 alone, the second channel 3 alone, each to a value between
    1000 and 2000, with 65535 on every other channel. *)
Theorem joystick_sends_two_overrides_in_range (x y : Q) :
  -1 <= x <= 1 -> -1 <= y <= 1 ->
  exists one three,
    calculate_channel_one_and_three_from_x_y x y = (one, three)
    /\ (1000 <= one <= 2000)%Z /\ (1000 <= three <= 2000)%Z
    /\ set_rc_channels_from_joystick x y
       = [Some (one :: repeat 65535%Z 17);
          Some (65535%Z :: 65535%Z :: three :: repeat 65535%Z 15)].
Proof.
  intros Hx Hy.
  exists (convert_joystick_to_pwm (x * 100)), (convert_joystick_to_pwm (y * 100)).
  split; [reflexivity|].
  split; [apply convert_joystick_to_pwm_bounds; lra|].
  split; [apply convert_joystick_to_pwm_bounds; lra|].
  reflexivity.
Qed.

Lemma wheel_component (a b : Q) :
  -100 <= a <= 100 -> -100 <= b <= 100 ->
  let v := (100 - Qabs a) * (b / 100) + b in
  let w := (100 - Qabs b) * (a / 100) + a in
  -100 <= (v + w) / 2 <= 100 /\ -100 <= (v - w) / 2 <= 100.
Proof.
  intros Ha Hb. cbv zeta.
  assert (Eb : b / 100 == b * (1 # 100)) by field.
  assert (Ea : a / 100 == a * (1 # 100)) by field.
  assert (E1 : forall t, t / 2 == t * (1 # 2)) by (intros; field).
  rewrite !E1, Ea, Eb.
  destruct (Qlt_le_dec a 0) as [Sa | Sa];
    destruct (Qlt_le_dec b 0) as [Sb | Sb];
    [ rewrite (Qabs_neg a), (Qabs_neg b) by lra
    | rewrite (Qabs_neg a), (Qabs_pos b) by lra
    | rewrite (Qabs_pos a), (Qabs_neg b) by lra
    | rewrite (Qabs_pos a), (Qabs_pos b) by lra ];
    split; split; nra.
Qed.

(** X17.  For joystick coordinates between -1 and 1 the two wheel values
    of [calculate_wheel_left_right_from_x_y] lie between -100 and 100. *)
Theorem calculate_wheel_left_right_range (x y : Q) :
  -1 <= x <= 1 -> -1 <= y <= 1 ->
  let '(l, r) := calculate_wheel_left_right_from_x_y x y in
  -100 <= l <= 100 /\ -100 <= r <= 100.
Proof.
  intros Hx Hy. unfold calculate_wheel_left_right_from_x_y.
  destruct (wheel_component (x * 100 * -1) (y * 100 * -1)) as [Hr Hl];
    [lra | lra |].
  cbv zeta in *. split; assumption.
Qed.

End Override.

(** ** The next waypoint and the distance travelled *)

Section NextWaypoint.
Context `{External}.

Lemma index_nonneg_nth_error {A : Type} (l : list A) (i : Z) (x : A) :
  0 <= i -> PyList.index l i = Some x -> nth_error l (Z.to_nat i) = Some x.
Proof.
  intros Hi. unfold PyList.index.
  replace (i <? 0) with false by (symmetry; apply Z.ltb_ge; lia).
  destruct ((0 <=? i) && (i <? PyList.len l)); [trivial | discriminate].
Qed.

(** X18.  [get_next_wp] returns the waypoint [get_wp_dist_in_meters]
    measures the distance to.  Without a loaded page, a position or a
    mission progress it returns [None] where the distance is -1; otherwise
    both raise IndexError, or it returns the page entry whose distance
    [get_wp_dist_in_meters] returns, which for a sequence number that is
    not negative is the entry at index max(1, seq): never the home entry at
    index 0. *)
Theorem get_next_wp_is_the_distance_target (w : world) :
  (distance_data_available w = false ->
   get_next_wp w = Return None w
   /\ get_wp_dist_in_meters w = Return (-1)%Q w)
  /\ (distance_data_available w = true ->
      exists utm mc,
        global_position_int (autopilot_data w) = Some utm
        /\ mission_current (autopilot_data w) = Some mc
        /\ ((exists the_wp,
                get_next_wp w = Return (Some the_wp) w
                /\ get_wp_dist_in_meters w = Return (distance_to utm the_wp) w
                /\ (0 <= MISSION_CURRENT.seq mc ->
                    nth_error (waypoints_in_autopilot w)
                      (Z.to_nat (Z.max 1 (MISSION_CURRENT.seq mc)))
                    = Some the_wp))
            \/ (get_next_wp w = Raise IndexError w
                /\ get_wp_dist_in_meters w = Raise IndexError w))).
Proof.
  unfold distance_data_available, get_next_wp, get_wp_dist_in_meters.
  split; intros Hdata; run_prim; run_prim.
  - destruct (PyList.truthy (waypoints_in_autopilot w)
              && (PyList.len (waypoints_in_autopilot w) >? 0)); [|now split].
    destruct (global_position_int (autopilot_data w)); [|now split].
    destruct (mission_current (autopilot_data w)); [discriminate | now split].
  - destruct (PyList.truthy (waypoints_in_autopilot w)
              && (PyList.len (waypoints_in_autopilot w) >? 0)); [|discriminate].
    destruct (global_position_int (autopilot_data w)) as [utm|]; [|discriminate].
    destruct (mission_current (autopilot_data w)) as [mc|]; [|discriminate].
    exists utm, mc. split; [reflexivity|]. split; [reflexivity|].
    destruct (PyList.index (waypoints_in_autopilot w)
                (if MISSION_CURRENT.seq mc =? 0 then 1
                 else MISSION_CURRENT.seq mc)) as [the_wp|]
      eqn:Hindex; [left | right; now split].
    exists the_wp. split; [reflexivity|]. split; [reflexivity|].
    intros Hseq. destruct (Z.eqb_spec (MISSION_CURRENT.seq mc) 0) as [E | NE].
    + rewrite E. now apply index_nonneg_nth_error in Hindex.
    + replace (Z.max 1 (MISSION_CURRENT.seq mc)) with (MISSION_CURRENT.seq mc)
        by lia.
      apply index_nonneg_nth_error in Hindex; trivial.
Qed.

End NextWaypoint.

Section Window.
Context `{External}.

Local Open Scope Q_scope.

Lemma tl_skipn {A : Type} (l : list A) (n : nat) : tl (skipn n l) = skipn (S n) l.
Proof.
  revert l. induction n as [|n IH]; intros [|x l]; trivial.
  simpl skipn at 1. rewrite IH. reflexivity.
Qed.

Lemma pop0_append_window (positions : list (Q * Q)) (p : Q * Q) :
  PySeq.pop0_append (window_of positions) (Some p)
  = Some (window_of (positions ++ [p])).
Proof.
  unfold window_of. rewrite length_app. simpl List.length.
  destruct (Nat.lt_ge_cases (List.length positions) 10) as [Hlt | Hge].
  - replace (List.length positions - 10)%nat with 0%nat by lia.
    replace (List.length positions + 1 - 10)%nat with 0%nat by lia.
    replace (10 - List.length positions)%nat
      with (S (10 - (List.length positions + 1))) by lia.
    simpl. rewrite map_app. simpl. now rewrite <- app_assoc.
  - replace (10 - List.length positions)%nat with 0%nat by lia.
    replace (10 - (List.length positions + 1))%nat with 0%nat by lia.
    simpl.
    replace (List.length positions + 1 - 10)%nat
      with (S (List.length positions - 10)) by lia.
    rewrite skipn_app.
    replace (S (List.length positions - 10) - List.length positions)%nat
      with 0%nat by lia.
    simpl skipn at 3. rewrite <- tl_skipn.
    destruct (skipn (List.length positions - 10) positions) as [|q rest] eqn:E.
    + exfalso. apply (f_equal (@List.length _)) in E.
      rewrite length_skipn in E. simpl in E. lia.
    + simpl. now rewrite map_app.
Qed.

Lemma recorded_window (positions : list (Q * Q)) :
  recorded positions = Some (window_of positions).
Proof.
  unfold recorded.
  induction positions as [|p rest IH] using rev_ind; [reflexivity|].
  rewrite fold_left_app. cbn [fold_left]. rewrite IH.
  apply pop0_append_window.
Qed.

Lemma window_length (positions : list (Q * Q)) :
  List.length (window_of positions) = 10%nat.
Proof.
  unfold window_of. rewrite length_app, repeat_length, length_map, length_skipn.
  lia.
Qed.

Lemma total_distance_full (q0 q1 q2 q3 q4 q5 q6 q7 q8 q9 : Q * Q) :
  exists distance,
    total_distance_between_last_10_positions_in_meters
      (map Some [q0; q1; q2; q3; q4; q5; q6; q7; q8; q9]) = Some distance
    /\ distance == path_length [q0; q1; q2; q3; q4; q5; q6; q7; q8; q9].
Proof.
  eexists. split; [reflexivity|]. simpl. ring.
Qed.

(** X19.  The window of the no-progress monitors.  Starting from
    [[False] * 10] and recording positions by [pop(0)] and [append], the
    buffer always has ten slots;
    [total_distance_between_last_10_positions_in_meters] returns -1 until
    ten positions were recorded, and from then on the length of the path
    through the ten latest positions, the sum of the nine distances between
    neighbours. *)
Theorem last_10_positions_window (positions : list (Q * Q)) :
  exists last_10_positions,
    recorded positions = Some last_10_positions
    /\ List.length last_10_positions = 10%nat
    /\ ((List.length positions < 10)%nat ->
        total_distance_between_last_10_positions_in_meters last_10_positions
        = Some (-1))
    /\ ((10 <= List.length positions)%nat ->
        exists distance,
          total_distance_between_last_10_positions_in_meters last_10_positions
          = Some distance
          /\ distance
             == path_length (skipn (List.length positions - 10) positions)).
Proof.
  exists (window_of positions).
  split; [apply recorded_window|]. split; [apply window_length|].
  unfold window_of. split.
  - intros Hlt.
    replace (10 - List.length positions)%nat
      with (S (9 - List.length positions)) by lia.
    reflexivity.
  - intros Hge.
    replace (10 - List.length positions)%nat with 0%nat by lia.
    assert (Hlen : List.length (skipn (List.length positions - 10) positions)
                   = 10%nat) by (rewrite length_skipn; lia).
    destruct (skipn (List.length positions - 10) positions)
      as [|q0 [|q1 [|q2 [|q3 [|q4 [|q5 [|q6 [|q7 [|q8 [|q9 [|q10 rest]]]]]]]]]]];
      try discriminate Hlen.
    apply total_distance_full.
Qed.

End Window.

(** ** The close-to-waypoint monitor *)

Section CloseToWaypoint.
Context `{External}.

(** A distance other than the sentinel was measured to an entry of the
    loaded page. *)
Lemma get_wp_dist_measured (w : world) (d : Q) :
  get_wp_dist_in_meters w = Return d w ->
  ~ (d == -1)%Q ->
  exists mc wp_loc,
    mission_current (autopilot_data w) = Some mc
    /\ PyList.index (waypoints_in_autopilot w)
         (if MISSION_CURRENT.seq mc =? 0 then 1 else MISSION_CURRENT.seq mc)
       = Some wp_loc.
Proof.
  unfold get_wp_dist_in_meters. run_prim.
  destruct (PyList.truthy (waypoints_in_autopilot w)
            && (PyList.len (waypoints_in_autopilot w) >? 0)).
  2:{ intros E Hd. exfalso. apply Hd. inversion E. reflexivity. }
  destruct (global_position_int (autopilot_data w)) as [utm|].
  2:{ intros E Hd. exfalso. apply Hd. inversion E. reflexivity. }
  destruct (mission_current (autopilot_data w)) as [mc|].
  2:{ intros E Hd. exfalso. apply Hd. inversion E. reflexivity. }
  destruct (PyList.index (waypoints_in_autopilot w)
              (if MISSION_CURRENT.seq mc =? 0 then 1 else MISSION_CURRENT.seq mc))
    as [wp_loc|] eqn:Hindex; [|discriminate].
  intros _ _. exists mc, wp_loc. split; [reflexivity | exact Hindex].
Qed.

Lemma index_some_in_range {A : Type} (l : list A) (i : Z) (x : A) :
  0 <= i -> PyList.index l i = Some x -> i < PyList.len l.
Proof.
  intros Hi. unfold PyList.index.
  replace (i <? 0) with false by (symmetry; apply Z.ltb_ge; lia).
  destruct (Z.ltb_spec i (PyList.len l)); [trivial|].
  rewrite andb_false_r. discriminate.
Qed.

(** [goto_next_wp] inside the loaded page. *)
Lemma goto_next_wp_inside (w : world) (mc : MISSION_CURRENT.t) :
  mission_current (autopilot_data w) = Some mc ->
  MISSION_CURRENT.seq mc + 1 <= end_waypoint_number_of_waypoints_in_autopilot w ->
  goto_next_wp w
  = Return tt
      (set_trace (trace w ++ [EvWaypointSetCurrentSend (MISSION_CURRENT.seq mc + 1)])
         w).
Proof.
  intros Hmc Hin. unfold goto_next_wp. run_prim. rewrite Hmc.
  replace (MISSION_CURRENT.seq mc + 1
           >? end_waypoint_number_of_waypoints_in_autopilot w)
    with false by (symmetry; rewrite Z.gtb_ltb; apply Z.ltb_ge; lia).
  reflexivity.
Qed.

Lemma monitor_handler_run (name : string) (e : exn) (w : world) :
  exists after,
    monitor_handler name e w = Return tt after
    /\ paging_state after = paging_state w
    /\ waypoints_in_mission after = waypoints_in_mission w
    /\ exists events,
         trace after = trace w ++ events
         /\ commands events = []
         /\ count_events is_page_load events = 0%nat.
Proof.
  unfold monitor_handler. repeat run_step. unfold sleep.
  eexists. split; [reflexivity|]. world_norm.
  split; [reflexivity|]. split; [reflexivity|].
  eexists [_; _; _; _]. split; [now repeat rewrite <- app_assoc|].
  split; reflexivity.
Qed.

(** X20.  One turn of the close-to-waypoint monitor never raises and
    never loads a page: the paging state is unchanged, no database row is
    written and nothing is uploaded.  It sends no command, or the single
    command [waypoint_set_current_send(seq + 1)]; the latter only in AUTO,
    with seq positive and below the last index of the loaded page, and a
    distance to the waypoint below 0.7 m. *)
Theorem close_to_waypoint_turn_stays_in_the_page (w : world) :
  exists after,
    close_to_waypoint_turn w = Return tt after
    /\ paging_state after = paging_state w
    /\ count_events is_page_load (events_since w (close_to_waypoint_turn w))
       = 0%nat
    /\ (commands (events_since w (close_to_waypoint_turn w)) = []
        \/ exists mc d,
             mission_current (autopilot_data w) = Some mc
             /\ get_flight_mode w = AutopilotMode.MODE_AUTO
             /\ get_wp_dist_in_meters w = Return d w
             /\ (d < 7 # 10)%Q
             /\ 0 < MISSION_CURRENT.seq mc
                < end_waypoint_number_of_waypoints_in_autopilot w
             /\ commands (events_since w (close_to_waypoint_turn w))
                = [EvWaypointSetCurrentSend (MISSION_CURRENT.seq mc + 1)]).
Proof.
  unfold close_to_waypoint_turn, events_since. cbv zeta. run_prim.
  destruct (Z.eqb_spec (get_flight_mode w) AutopilotMode.MODE_AUTO)
    as [Hauto | Hauto]; cbn [negb].
  2:{ unfold sleep, modify. eexists. split; [reflexivity|].
      cbn [world_of]. world_norm.
      rewrite skipn_all. repeat split. now left. }
  unfold try_except.
  destruct (get_wp_dist_reads w) as [[d Ed] | Ed].
  2:{ rewrite (bind_raise _ _ _ _ _ Ed).
      destruct (monitor_handler_run "autopilot_check_close_to_waypoint"
                  IndexError w)
        as (after & -> & Hstate & _ & events & Htrace & Hc & Hp).
      exists after. split; [reflexivity|]. split; [exact Hstate|].
      cbn [world_of]. rewrite Htrace, skipn_trace_app.
      split; [exact Hp | now left]. }
  run_with Ed. run_prim.
  rewrite Hauto, Z.eqb_refl. cbn [andb].
  destruct (Z.eqb_spec (current_waypoint_of w)
              (end_waypoint_number_of_waypoints_in_autopilot w))
    as [Hlast | Hlast]; cbn [negb andb].
  { run_prim. unfold sleep, modify. eexists. split; [reflexivity|].
    cbn [world_of]. world_norm.
    rewrite skipn_all. repeat split. now left. }
  destruct (Z.gtb_spec (current_waypoint_of w) 0) as [Hpos | Hpos].
  2:{ run_prim. unfold sleep, modify. eexists. split; [reflexivity|].
      cbn [world_of]. world_norm.
      rewrite skipn_all. repeat split. now left. }
  destruct (Qeq_bool d (-1)) eqn:Hsentinel.
  { run_prim. unfold sleep, modify. eexists. split; [reflexivity|].
    cbn [world_of]. world_norm.
    rewrite skipn_trace_app. repeat split. now left. }
  destruct (PyNum.ltb d (7 # 10)) eqn:Hclose.
  2:{ run_prim. unfold sleep, modify. eexists. split; [reflexivity|].
      cbn [world_of]. world_norm.
      rewrite skipn_all. repeat split. now left. }
  assert (Hd : ~ (d == -1)%Q).
  { intros E. apply Qeq_bool_iff in E. congruence. }
  destruct (get_wp_dist_measured w d Ed Hd) as (mc & wp_loc & Hmc & Hindex).
  unfold current_waypoint_of in Hlast, Hpos. rewrite Hmc in Hlast, Hpos.
  replace (MISSION_CURRENT.seq mc =? 0) with false in Hindex
    by (symmetry; apply Z.eqb_neq; lia).
  apply index_some_in_range in Hindex; [|lia].
  assert (Hin : MISSION_CURRENT.seq mc + 1
                <= end_waypoint_number_of_waypoints_in_autopilot w).
  { unfold end_waypoint_number_of_waypoints_in_autopilot in *. lia. }
  rewrite bind_assoc. run_with (goto_next_wp_inside w mc Hmc Hin).
  run_prim. unfold sleep, modify. eexists. split; [reflexivity|].
  cbn [world_of]. world_norm. rewrite <- app_assoc, skipn_trace_app.
  split; [reflexivity|]. split; [reflexivity|].
  right. exists mc, d. split; [exact Hmc|]. split; [reflexivity|].
  split; [exact Ed|]. split; [now apply ltb_true_iff|].
  split; [lia | reflexivity].
Qed.

End CloseToWaypoint.

(** ** The mission-finished monitor *)

Section MissionFinished.
Context `{External}.

Lemma end_of_mission_cleanup_run (w : world) :
  let mission := mission_with_home (waypoints_in_mission w) in
  exists after,
    end_of_mission_cleanup w = Return tt after
    /\ trace after = trace w ++ cleanup_events (waypoints_in_mission w)
    /\ paging_state after
       = (mission, first_page mission, 1, Constants.WAYPOINT_LOAD_COUNT_INITIAL).
Proof.
  intros mission. unfold end_of_mission_cleanup.
  run_with (hold_run w). do 2 run_prim.
  erewrite bind_run by apply load_mission_run.
  unfold emit, modify. eexists. split; [reflexivity|].
  unfold after_stop_or_start, page_loaded, cleanup_events, first_page.
  world_norm. fold mission.
  split; [|reflexivity].
  now repeat rewrite <- app_assoc.
Qed.

End MissionFinished.

Section MissionFinishedClaims.
Context `{External}.

Lemma load_next_none (w : world) :
  more_waypoints_to_load w = false ->
  load_next_round_of_waypoints w = Return false w.
Proof.
  intros Hmore. unfold load_next_round_of_waypoints. run_prim.
  now rewrite Hmore.
Qed.

(** The turn with the gate open, up to the decision. *)
Lemma mission_finished_turn_open (w : world) (mc : MISSION_CURRENT.t) (d : Q) :
  get_flight_mode w = AutopilotMode.MODE_AUTO ->
  mission_current (autopilot_data w) = Some mc ->
  MISSION_CURRENT.seq mc = end_waypoint_number_of_waypoints_in_autopilot w ->
  1 < MISSION_CURRENT.seq mc ->
  get_wp_dist_in_meters w = Return d w ->
  (d < 1)%Q ->
  mission_finished_turn w
  = try_except
      (more_waypoints_exist <- load_next_round_of_waypoints ;;
       (if more_waypoints_exist : bool then
          sleep (1 # 10) ;; goto_wp 2 ;; sleep (1 # 10) ;; start_robot
        else end_of_mission_cleanup) ;;
       sleep 1)
      (monitor_handler "autopilot_check_mission_finished")
      (after_stop_or_start hold_events (set_clock (clock w + 1)%Q w)).
Proof.
  intros Hauto Hmc Hlast Hpos Ed Hd.
  unfold mission_finished_turn. run_prim.
  rewrite Hauto, Z.eqb_refl. cbn [negb].
  unfold try_except, current_waypoint_of. rewrite Hmc.
  run_with Ed. run_prim.
  rewrite Hauto, Z.eqb_refl, Hlast, Z.eqb_refl. cbn [andb].
  replace (end_waypoint_number_of_waypoints_in_autopilot w >? 1) with true
    by (symmetry; apply Z.gtb_lt; lia).
  replace (PyNum.ltb d 1) with true by (symmetry; now apply ltb_true_iff).
  cbn [andb]. repeat run_step.
  replace (end_waypoint_number_of_waypoints_in_autopilot w
           <? end_waypoint_number_of_waypoints_in_autopilot
                (set_clock (clock w + 1)%Q w))
    with false by (symmetry; apply Z.ltb_irrefl).
  rewrite !bind_assoc.
  run_with (hold_run (set_clock (clock w + 1)%Q w)).
  rewrite !bind_assoc.
  reflexivity.
Qed.

Lemma restart_run (w : world) :
  exists after,
    (sleep (1 # 10) ;; goto_wp 2 ;; sleep (1 # 10) ;; start_robot) w
    = Return tt after
    /\ trace after = (trace w ++ EvWaypointSetCurrentSend 2 :: start_events)%list
    /\ paging_state after = paging_state w.
Proof.
  unfold goto_wp. do 3 run_prim. rewrite start_robot_run.
  eexists. split; [reflexivity|].
  unfold after_stop_or_start. world_norm.
  split; [|reflexivity]. now rewrite <- app_assoc.
Qed.

(** The decision of the turn, from the world [hold] left. *)
Lemma mission_finished_body (w : world) :
  let body :=
    more_waypoints_exist <- load_next_round_of_waypoints ;;
    (if more_waypoints_exist : bool then
       sleep (1 # 10) ;; goto_wp 2 ;; sleep (1 # 10) ;; start_robot
     else end_of_mission_cleanup) ;;
    sleep 1 in
  let restarted :=
    (mission_with_home (waypoints_in_mission w),
     first_page (mission_with_home (waypoints_in_mission w)),
     1, Constants.WAYPOINT_LOAD_COUNT_INITIAL) in
  forall loaded next,
    load_next_round_of_waypoints w = Return loaded next ->
    waypoints_in_mission next = waypoints_in_mission w ->
    exists after,
      body w = Return tt after
      /\ (loaded = true ->
          trace after
          = (trace next ++ EvWaypointSetCurrentSend 2 :: start_events)%list
          /\ paging_state after = paging_state next)
      /\ (loaded = false ->
          trace after
          = (trace next ++ cleanup_events (waypoints_in_mission w))%list
          /\ paging_state after = restarted).
Proof.
  intros body restarted loaded next Hnext Hmission. unfold body.
  run_with Hnext. destruct loaded.
  - destruct (restart_run next) as (after & Hrun & Htrace & Hstate).
    run_with Hrun. unfold sleep, modify.
    eexists. split; [reflexivity|]. world_norm.
    split; [|discriminate]. intros _. rewrite Htrace.
    split; [reflexivity | exact Hstate].
  - destruct (end_of_mission_cleanup_run next)
      as (after & Hrun & Htrace & Hstate).
    rewrite Hmission in Htrace, Hstate.
    run_with Hrun. unfold sleep, modify.
    eexists. split; [reflexivity|]. world_norm.
    split; [discriminate|]. intros _. rewrite Htrace.
    split; [reflexivity | exact Hstate].
Qed.

(** X21.  One turn of the mission-finished monitor for a vehicle in AUTO
    at the last index of the loaded page, past index 1, with a distance
    below one metre (the -1 of a missing distance counts).  With no more
    waypoints to load it sends the hold and then the end-of-mission
    cleanup: hold, reload of the mission from its first page, active
    waypoint 1; the vehicle is not started again.  With more waypoints to
    load (and a recorded end that is not negative) it holds and loads the
    next page; if the upload reports waypoints it sets waypoint 2 and
    starts the vehicle, leaving the paging state of
    [load_next_round_of_waypoints]; if the upload reports none it runs the
    end-of-mission cleanup instead. *)
Theorem mission_finished_turn_at_page_end (w : world) (mc : MISSION_CURRENT.t)
  (d : Q) :
  get_flight_mode w = AutopilotMode.MODE_AUTO ->
  mission_current (autopilot_data w) = Some mc ->
  MISSION_CURRENT.seq mc = end_waypoint_number_of_waypoints_in_autopilot w ->
  1 < MISSION_CURRENT.seq mc ->
  get_wp_dist_in_meters w = Return d w ->
  (d < 1)%Q ->
  let turn := mission_finished_turn w in
  let mission := waypoints_in_mission w in
  let restarted :=
    (mission_with_home mission, first_page (mission_with_home mission),
     1, Constants.WAYPOINT_LOAD_COUNT_INITIAL) in
  (more_waypoints_to_load w = false ->
   exists after,
     turn = Return tt after
     /\ events_since w turn = (hold_events ++ cleanup_events mission)%list
     /\ paging_state after = restarted)
  /\ (more_waypoints_to_load w = true ->
      0 <= last_autopilot_loaded_waypoint_number_end w ->
      exists loaded next after,
        load_next_round_of_waypoints w = Return loaded next
        /\ turn = Return tt after
        /\ (loaded = true ->
            events_since w turn
            = jump_events true
                (events_since w (load_next_round_of_waypoints w)) 2
            /\ paging_state after = paging_state next)
        /\ (loaded = false ->
            events_since w turn
            = (hold_events
               ++ events_since w (load_next_round_of_waypoints w)
               ++ cleanup_events mission)%list
            /\ paging_state after = restarted)).
Proof.
  intros Hauto Hmc Hlast Hpos Ed Hd turn mission restarted.
  unfold turn. rewrite (mission_finished_turn_open w mc d); trivial.
  set (w1 := after_stop_or_start hold_events (set_clock (clock w + 1)%Q w)).
  assert (Htrace1 : trace w1 = (trace w ++ hold_events)%list) by reflexivity.
  unfold try_except, events_since. split.
  - intros Hmore.
    destruct (mission_finished_body w1 false w1 (load_next_none w1 Hmore)
                eq_refl) as (after & -> & _ & Hlast_page).
    destruct (Hlast_page eq_refl) as [Htrace Hstate].
    exists after. split; [reflexivity|]. cbn [world_of].
    rewrite Htrace, Htrace1, <- app_assoc, skipn_trace_app.
    split; [reflexivity | exact Hstate].
  - intros Hmore Hend.
    destruct (load_next_run w Hmore Hend) as (home & Hnth & _ & Hnext & _).
    destruct (load_next_run w1 Hmore Hend) as (home1 & Hnth1 & _ & Hnext1 & _).
    assert (Hhome : home1 = home).
    { change (waypoints_in_mission w1) with (waypoints_in_mission w) in Hnth1.
      change (last_autopilot_loaded_waypoint_number_end w1)
        with (last_autopilot_loaded_waypoint_number_end w) in Hnth1.
      congruence. }
    subst home1.
    change (waypoints_in_mission w1) with (waypoints_in_mission w) in Hnext1.
    change (last_autopilot_loaded_waypoint_number_end w1)
      with (last_autopilot_loaded_waypoint_number_end w) in Hnext1.
    change (next_waypoint_end_of w1) with (next_waypoint_end_of w) in Hnext1.
    set (s := last_autopilot_loaded_waypoint_number_end w) in *.
    set (e := next_waypoint_end_of w) in *.
    set (page := home :: PyList.slice (waypoints_in_mission w) s (e + 1)) in *.
    destruct (mission_finished_body w1 _ _ Hnext1 eq_refl)
      as (after & Hrun & Hloaded & Hfailed).
    rewrite Hnext, Hrun. cbn [world_of].
    eexists _, _, after. split; [reflexivity|]. split; [reflexivity|].
    assert (Hload : trace (page_loaded page s e w1)
                    = (trace w ++ hold_events
                       ++ page_load_events page (waypoints_in_mission w) s e)%list).
    { unfold page_loaded. world_norm. rewrite Htrace1.
      now rewrite <- app_assoc. }
    assert (Hload0 : skipn (List.length (trace w)) (trace (page_loaded page s e w))
                     = page_load_events page (waypoints_in_mission w) s e).
    { unfold page_loaded. world_norm. apply skipn_trace_app. }
    rewrite Hload0. split.
    + intros Hok. destruct (Hloaded Hok) as [Htrace Hstate].
      rewrite Htrace, Hload. unfold jump_events.
      repeat rewrite <- app_assoc. rewrite skipn_trace_app.
      split; [reflexivity | exact Hstate].
    + intros Hko. destruct (Hfailed Hko) as [Htrace Hstate].
      rewrite Htrace, Hload.
      repeat rewrite <- app_assoc. rewrite skipn_trace_app.
      split; [reflexivity | exact Hstate].
Qed.

End MissionFinishedClaims.

Section MissionFinishedIdle.
Context `{External}.

(** X22.  The mission-finished monitor waits otherwise: a turn outside
    AUTO, away from the last index of the loaded page, at index 1 or
    below, at a distance of one metre or more, or with a distance that
    cannot be looked up, sends no command, loads no page and leaves the
    paging state as it was. *)
Theorem mission_finished_turn_waits (w : world) :
  at_end_of_page w = false ->
  exists after,
    mission_finished_turn w = Return tt after
    /\ commands (events_since w (mission_finished_turn w)) = []
    /\ count_events is_page_load (events_since w (mission_finished_turn w))
       = 0%nat
    /\ paging_state after = paging_state w.
Proof.
  unfold at_end_of_page, mission_finished_turn, events_since. run_prim.
  destruct (Z.eqb_spec (get_flight_mode w) AutopilotMode.MODE_AUTO)
    as [Hauto | Hauto]; cbn [negb andb].
  2:{ intros _. unfold sleep, modify. eexists. split; [reflexivity|].
      cbn [world_of]. world_norm. rewrite skipn_all. repeat split. }
  unfold try_except.
  destruct (get_wp_dist_reads w) as [[d Ed] | Ed].
  2:{ intros _. rewrite (bind_raise _ _ _ _ _ Ed).
      destruct (monitor_handler_run "autopilot_check_mission_finished"
                  IndexError w)
        as (after & -> & Hstate & _ & events & Htrace & Hc & Hp).
      exists after. split; [reflexivity|].
      cbn [world_of]. rewrite Htrace, skipn_trace_app.
      split; [exact Hc|]. split; [exact Hp | exact Hstate]. }
  rewrite Ed. intros Hgate.
  run_with Ed. run_prim.
  rewrite Hauto, Z.eqb_refl. cbn [andb]. rewrite Hgate.
  run_prim. unfold sleep, modify. eexists. split; [reflexivity|].
  cbn [world_of]. world_norm. rewrite skipn_all. repeat split.
Qed.

End MissionFinishedIdle.

(** ** The no-progress monitor *)

Section NoProgress.
Context `{External}.

Lemma window_head_empty (positions : list (Q * Q)) :
  (List.length positions < 10)%nat ->
  PyList.index (window_of positions) 0 = Some None.
Proof.
  intros Hlt. unfold window_of.
  replace (10 - List.length positions)%nat
    with (S (9 - List.length positions)) by lia.
  reflexivity.
Qed.

(** One turn while the window is not full and the recorded distance is not
    below the threshold. *)
Lemma no_progress_turn_filling (distance : Q) (positions : list (Q * Q))
  (w : world) :
  (MoreConstants.DISTANCE_NO_PROGRESS_FULL_THROTTLE_STUCK_IN_METERS <= distance)%Q ->
  (List.length positions + 1 < 10)%nat ->
  exists positions' after,
    no_progress_turn (distance, window_of positions) w
    = Return (Some (distance, window_of positions')) after
    /\ trace after = trace w
    /\ (List.length positions' <= List.length positions + 1)%nat.
Proof.
  intros Hd Hlen. unfold no_progress_turn.
  run_prim. run_prim.
  set (w2 := set_clock (clock w + 2)%Q w).
  destruct (Z.eqb_spec (get_flight_mode w2) AutopilotMode.MODE_AUTO)
    as [Hauto | Hauto]; cbn [negb].
  2:{ run_prim. exists positions. eexists. split; [reflexivity|].
      split; [reflexivity | lia]. }
  assert (Hpush : exists positions',
             match global_position_int (autopilot_data w) with
             | Some utm =>
                 PySeq.pop0_append (window_of positions) (Some (position_of utm))
             | None => Some (window_of positions)
             end = Some (window_of positions')
             /\ (List.length positions' <= List.length positions + 1)%nat).
  { destruct (global_position_int _) as [utm|].
    - exists (positions ++ [position_of utm])%list.
      split; [apply pop0_append_window|]. rewrite length_app. simpl. lia.
    - exists positions. split; [reflexivity | lia]. }
  destruct Hpush as (positions' & -> & Hlen').
  rewrite window_head_empty by lia.
  unfold try_except. run_prim.
  replace (PyNum.ltb distance
             MoreConstants.DISTANCE_NO_PROGRESS_FULL_THROTTLE_STUCK_IN_METERS)
    with false by (symmetry; now apply ltb_false_iff).
  exists positions'.
  destruct ((get_flight_mode w2 =? AutopilotMode.MODE_AUTO)
            && negb (current_waypoint_of w2
                     =? end_waypoint_number_of_waypoints_in_autopilot w2)
            && (current_waypoint_of w2 >? 0));
    (eexists; split; [reflexivity|]; split; [reflexivity | exact Hlen']).
Qed.

Lemma quiet_while_filling (worlds : list world) :
  forall (distance : Q) (positions : list (Q * Q)),
    (MoreConstants.DISTANCE_NO_PROGRESS_FULL_THROTTLE_STUCK_IN_METERS <= distance)%Q ->
    (List.length positions + List.length worlds < 10)%nat ->
    quiet_turns (distance, window_of positions) worlds.
Proof.
  induction worlds as [|w rest IH]; intros distance positions Hd Hlen;
    cbn [quiet_turns]; trivial.
  cbn [List.length] in Hlen.
  destruct (no_progress_turn_filling distance positions w Hd)
    as (positions' & after & Hrun & Htrace & Hlen'); [lia|].
  exists (distance, window_of positions'), after.
  split; [exact Hrun|].
  split; [rewrite Hrun; unfold events_since; cbn [world_of];
          now rewrite Htrace, skipn_all|].
  apply IH; trivial. lia.
Qed.

(** What the guarded part of a turn does: nothing, or past the three log
    lines the stop/start cycle, after which the pair is reset. *)
Ltac no_progress_guarded Hauto w2 :=
  unfold try_except; run_prim;
  rewrite Hauto, Z.eqb_refl; cbn [andb];
  lazymatch goal with
  | |- context [negb (?c =? ?e) && (?c >? 0)] =>
      destruct (Z.eqb_spec c e) as [Hlast | Hlast]; cbn [negb andb];
      [ eexists _, _, []; rewrite app_nil_r;
        split; [reflexivity|]; split; [reflexivity|]; now left
      | destruct (Z.gtb_spec c 0) as [Hpos | Hpos];
        [ | eexists _, _, []; rewrite app_nil_r;
            split; [reflexivity|]; split; [reflexivity|]; now left ] ]
  end;
  lazymatch goal with
  | |- context [PyNum.ltb ?d ?t] =>
      destruct (PyNum.ltb d t);
      [ | eexists _, _, []; rewrite app_nil_r;
          split; [reflexivity|]; split; [reflexivity|]; now left ]
  end;
  repeat run_step;
  lazymatch goal with
  | |- context [bind (hold_sleep_start_robot ?s) _ ?w1] =>
      run_with (hold_sleep_start_robot_world s w1)
  end;
  world_norm;
  eexists _, _, [_; _; _; _; _; _; _; _; _; _; _; _];
  split; [reflexivity|]; world_norm;
  split; [unfold stop_start_cycle; repeat rewrite <- app_assoc; reflexivity|];
  right;
  lazymatch goal with
  | Ht : _ -> _ -> Some no_progress_reset = Some no_progress_reset /\ _,
    Hne : current_waypoint_of _ <> _,
    Hgt : 0 < current_waypoint_of _ |- _ =>
      destruct (Ht Hne Hgt) as (_ & Hm & mc & Hmc & Hp & Hl & _);
      split; [reflexivity|]; split; [exact Hm|];
      exists mc; repeat split; trivial;
      replace (mission_current (autopilot_data w2)) with (Some mc)
        by (symmetry; exact Hmc);
      reflexivity
  end.

Lemma no_progress_turn_outcome (state : Q * list (option (Q * Q))) (w : world) :
  exists result after events,
    no_progress_turn state w = Return result after
    /\ trace after = (trace w ++ events)%list
    /\ (commands events = []
        \/ (result = Some no_progress_reset
            /\ get_flight_mode w = AutopilotMode.MODE_AUTO
            /\ exists mc,
                 mission_current (autopilot_data w) = Some mc
                 /\ 0 < MISSION_CURRENT.seq mc
                 /\ MISSION_CURRENT.seq mc
                    <> end_waypoint_number_of_waypoints_in_autopilot w
                 /\ commands events = stop_start_cycle (MISSION_CURRENT.seq mc))).
Proof.
  destruct state as [distance last_10_positions]. unfold no_progress_turn.
  run_prim. run_prim.
  set (w2 := set_clock (clock w + 2)%Q w).
  assert (Hmode : get_flight_mode w2 = get_flight_mode w) by reflexivity.
  assert (Hcurrent : current_waypoint_of w2 = current_waypoint_of w)
    by reflexivity.
  assert (Hpage : end_waypoint_number_of_waypoints_in_autopilot w2
                  = end_waypoint_number_of_waypoints_in_autopilot w)
    by reflexivity.
  destruct (Z.eqb_spec (get_flight_mode w2) AutopilotMode.MODE_AUTO)
    as [Hauto | Hauto]; cbn [negb].
  2:{ run_prim. eexists _, _, []. rewrite app_nil_r.
      split; [reflexivity|]. split; [reflexivity|]. now left. }
  assert (Hkeep : forall r, exists result after events,
             ret (A := option (Q * list (option (Q * Q)))) r w2
             = Return result after
             /\ trace after = (trace w ++ events)%list
             /\ (commands events = []
                 \/ (result = Some no_progress_reset
                     /\ get_flight_mode w = AutopilotMode.MODE_AUTO
                     /\ exists mc,
                          mission_current (autopilot_data w) = Some mc
                          /\ 0 < MISSION_CURRENT.seq mc
                          /\ MISSION_CURRENT.seq mc
                             <> end_waypoint_number_of_waypoints_in_autopilot w
                          /\ commands events
                             = stop_start_cycle (MISSION_CURRENT.seq mc)))).
  { intros r. eexists _, _, []. rewrite app_nil_r.
    split; [reflexivity|]. split; [reflexivity|]. now left. }
  assert (Htrigger :
            current_waypoint_of w2
            <> end_waypoint_number_of_waypoints_in_autopilot w2 ->
            0 < current_waypoint_of w2 ->
            Some no_progress_reset = Some no_progress_reset
            /\ get_flight_mode w = AutopilotMode.MODE_AUTO
            /\ exists mc,
                 mission_current (autopilot_data w) = Some mc
                 /\ 0 < MISSION_CURRENT.seq mc
                 /\ MISSION_CURRENT.seq mc
                    <> end_waypoint_number_of_waypoints_in_autopilot w
                 /\ stop_start_cycle (current_waypoint_of w)
                    = stop_start_cycle (MISSION_CURRENT.seq mc)).
  { rewrite Hcurrent, Hpage. unfold current_waypoint_of.
    intros Hlast Hpos. split; [reflexivity|]. split; [now rewrite <- Hmode|].
    destruct (mission_current (autopilot_data w)) as [mc|]; [|lia].
    exists mc. repeat split; trivial; lia. }
  destruct (match global_position_int (autopilot_data w) with
            | Some utm =>
                PySeq.pop0_append last_10_positions (Some (position_of utm))
            | None => Some last_10_positions
            end) as [buffer|]; [|apply Hkeep].
  destruct (PyList.index buffer 0) as [[first|]|]; [| |apply Hkeep].
  - destruct (PyList.index buffer 9) as [[last|]|]; [| |apply Hkeep].
    + destruct (total_distance_between_last_10_positions_in_meters buffer)
        as [measured|]; [|apply Hkeep].
      no_progress_guarded Hauto w2.
    + no_progress_guarded Hauto w2.
  - no_progress_guarded Hauto w2.
Qed.

(** X23.  One turn of the no-progress monitor sends no command, or the
    stop/start cycle for the active waypoint, and then only in AUTO with a
    positive sequence number other than the last index of the page,
    returning the reset pair: distance 99999999 and ten empty slots.  From
    the reset pair the next nine turns send no command, whatever the worlds
    they run in: the window has to fill up first. *)
Theorem no_progress_monitor_rests_after_a_reset :
  (forall state w,
      exists result after,
        no_progress_turn state w = Return result after
        /\ (commands (events_since w (no_progress_turn state w)) = []
            \/ (result = Some no_progress_reset
                /\ get_flight_mode w = AutopilotMode.MODE_AUTO
                /\ exists mc,
                     mission_current (autopilot_data w) = Some mc
                     /\ 0 < MISSION_CURRENT.seq mc
                     /\ MISSION_CURRENT.seq mc
                        <> end_waypoint_number_of_waypoints_in_autopilot w
                     /\ commands (events_since w (no_progress_turn state w))
                        = stop_start_cycle (MISSION_CURRENT.seq mc))))
  /\ (forall worlds,
         (List.length worlds <= 9)%nat -> quiet_turns no_progress_reset worlds).
Proof.
  split.
  - intros state w.
    destruct (no_progress_turn_outcome state w)
      as (result & after & events & Hrun & Htrace & Hcases).
    exists result, after. split; [exact Hrun|].
    rewrite Hrun. unfold events_since. cbn [world_of].
    rewrite Htrace, skipn_trace_app. exact Hcases.
  - intros worlds Hlen.
    apply (quiet_while_filling worlds 99999999%Q []).
    + discriminate.
    + simpl. lia.
Qed.

End NoProgress.

(** ** The near-waypoint monitor *)

Section NearWaypoint.
Context `{External}.

(** X24.  One turn of the near-waypoint monitor never raises; it sends a
    command only when its timer was running (not 0) for more than 10
    seconds and the distance to the waypoint is below 2 m; what it sends
    then is the stop/start cycle for the active waypoint, and it returns
    the timer reset to 0.  From a timer at 0 a turn therefore sends no
    command. *)
Theorem near_waypoint_turn_needs_a_running_timer
  (waypoint_close_initial_time : Q) (w : world) :
  let turn := near_waypoint_turn waypoint_close_initial_time w in
  exists next_time after,
    turn = Return next_time after
    /\ (commands (events_since w turn) = []
        \/ (~ (waypoint_close_initial_time == 0)%Q
            /\ (MoreConstants.SHUFFLE_DETECT_SECONDS_TO_ACTIVATE
                < clock w - waypoint_close_initial_time)%Q
            /\ next_time = 0%Q
            /\ exists mc wp_dist,
                 mission_current (autopilot_data w) = Some mc
                 /\ get_wp_dist_in_meters w = Return wp_dist w
                 /\ (wp_dist
                     < MoreConstants.DISTANCE_SHUFFLE_DETECT_ACTIVE_IN_METERS)%Q
                 /\ commands (events_since w turn)
                    = stop_start_cycle (MISSION_CURRENT.seq mc))).
Proof.
  cbv zeta. unfold near_waypoint_turn, events_since. run_prim.
  destruct (Z.eqb_spec (get_flight_mode w) AutopilotMode.MODE_AUTO)
    as [Hauto | Hauto]; cbn [negb].
  2:{ run_prim. unfold ret. eexists _, _. split; [reflexivity|].
      cbn [world_of]. world_norm. rewrite skipn_all. now left. }
  unfold try_except.
  destruct (get_wp_dist_reads w) as [[d Ed] | Ed].
  2:{ rewrite (bind_raise _ _ _ _ _ Ed). rewrite bind_assoc || idtac.
      destruct (monitor_handler_run
                  "autopilot_check_not_making_progress_near_waypoint"
                  IndexError w)
        as (after & Hrun & _ & _ & events & Htrace & Hc & _).
      run_with Hrun. unfold ret. eexists _, _. split; [reflexivity|].
      cbn [world_of]. rewrite Htrace, skipn_trace_app. now left. }
  run_with Ed. run_prim.
  destruct ((get_flight_mode w =? AutopilotMode.MODE_AUTO)
            && negb (current_waypoint_of w
                     =? end_waypoint_number_of_waypoints_in_autopilot w)
            && (current_waypoint_of w >? 0)) eqn:Hgate.
  2:{ repeat run_step. unfold ret. eexists _, _. split; [reflexivity|].
      cbn [world_of]. world_norm. rewrite skipn_all. now left. }
  destruct (Qeq_bool d (-1)).
  { repeat run_step. unfold ret. eexists _, _. split; [reflexivity|].
    cbn [world_of]. world_norm. rewrite skipn_trace_app. now left. }
  destruct (PyNum.ltb d MoreConstants.DISTANCE_SHUFFLE_DETECT_ACTIVE_IN_METERS)
    eqn:Hclose.
  2:{ repeat run_step. unfold ret. eexists _, _. split; [reflexivity|].
      cbn [world_of]. world_norm. rewrite skipn_all. now left. }
  destruct (Qeq_bool waypoint_close_initial_time 0) eqn:Hunset.
  { repeat run_step. unfold ret. eexists _, _. split; [reflexivity|].
    cbn [world_of]. world_norm. rewrite <- app_assoc, skipn_trace_app.
    now left. }
  repeat run_step.
  destruct (PyNum.ltb MoreConstants.SHUFFLE_DETECT_SECONDS_TO_ACTIVATE
              (clock w - waypoint_close_initial_time)%Q) eqn:Hlong.
  2:{ repeat run_step. unfold ret. eexists _, _. split; [reflexivity|].
      cbn [world_of]. world_norm.
      repeat rewrite <- app_assoc. rewrite skipn_trace_app. now left. }
  repeat run_step.
  match goal with
  | |- context [bind (hold_sleep_start_robot ?s) _ ?w1] =>
      run_with (hold_sleep_start_robot_world s w1)
  end.
  world_norm. repeat run_step. unfold ret.
  eexists _, _. split; [reflexivity|]. cbn [world_of]. world_norm.
  repeat rewrite <- app_assoc. rewrite skipn_trace_app.
  right.
  split; [intros E; apply Qeq_bool_iff in E; congruence|].
  split; [now apply ltb_true_iff|]. split; [reflexivity|].
  apply andb_true_iff in Hgate. destruct Hgate as [_ Hpos].
  unfold current_waypoint_of in Hpos.
  destruct (mission_current (autopilot_data w)) as [mc|]; [|discriminate].
  exists mc, d. split; [reflexivity|]. split; [exact Ed|].
  split; [now apply ltb_true_iff | reflexivity].
Qed.

End NearWaypoint.

(** ** Navigation messages *)

Section Messages.
Context `{External}.

Lemma last_time_eqb_refl (key : LastTime.t) : LastTime.eqb key key = true.
Proof. now destruct key. Qed.

(** X25.  A navigation message is processed once.  A message whose time is
    not later than the last one recorded for its type changes nothing and
    sends nothing.  A later one runs its navigation command (an exception
    of the command is swallowed) and records its time; after it, the same
    message again, or any message of that type with a time that is not
    later, changes nothing and sends nothing. *)
Theorem navigation_message_is_processed_once (message : meta_message)
  (last_time : LastTime.t -> Q) (w : world) :
  exists last_time' after,
    process_meta_message message last_time w = Return last_time' after
    /\ ((message_time message <= last_time (last_time_key (mType message)))%Q ->
        last_time' = last_time /\ after = w)
    /\ ((last_time (last_time_key (mType message)) < message_time message)%Q ->
        after = world_of (navigation_of (mType message) w)
        /\ last_time' (last_time_key (mType message)) = message_time message)
    /\ forall replay,
         mType replay = mType message ->
         (message_time replay <= message_time message)%Q ->
         process_meta_message replay last_time' after
         = Return last_time' after.
Proof.
  unfold process_meta_message.
  set (key := last_time_key (mType message)).
  destruct (PyNum.ltb (last_time key) (message_time message)) eqn:Hnew.
  - apply ltb_true_iff in Hnew.
    set (last_time' := set_last_time key (message_time message) last_time).
    assert (Hrun : exists after,
               try_except (navigation_of (mType message) ;; ret last_time')
                 (fun _ => ret last_time') w
               = Return last_time' after
               /\ after = world_of (navigation_of (mType message) w)).
    { unfold try_except, bind.
      destruct (navigation_of (mType message) w) as [[] w'|e w'];
        eexists; split; reflexivity. }
    destruct Hrun as (after & Hrun & Hafter).
    exists last_time', after. split; [exact Hrun|].
    assert (Hkey : last_time' key = message_time message).
    { unfold last_time', set_last_time. now rewrite last_time_eqb_refl. }
    split; [intros Hold; lra|]. split; [now split|].
    intros replay Htype Htime. rewrite Htype. fold key.
    replace (PyNum.ltb (last_time' key) (message_time replay)) with false;
      trivial.
    symmetry. apply ltb_false_iff. rewrite Hkey. exact Htime.
  - apply ltb_false_iff in Hnew.
    exists last_time, w. split; [reflexivity|].
    split; [now split|]. split; [intros Hlt; lra|].
    intros replay Htype Htime. rewrite Htype. fold key.
    replace (PyNum.ltb (last_time key) (message_time replay)) with false;
      trivial.
    symmetry. apply ltb_false_iff. lra.
Qed.

End Messages.

(** ** Further concrete runs *)

Lemma max_heading_difference_witness :
  (0 < 1)%nat
  /\ nth_error [350; 10; 20]%Q 0%nat = Some 350%Q
  /\ nth_error [350; 10; 20]%Q 1%nat = Some 10%Q
  /\ (heading_difference 350 10 <= max_heading_difference [350; 10; 20])%Q
  /\ (List.length [5%Q] <= 1)%nat
  /\ max_heading_difference [5%Q] = 0%Q.
Proof.
  split; [lia|]. split; [reflexivity|]. split; [reflexivity|].
  split.
  - apply (proj1 (max_heading_difference_is_largest_pairwise [350; 10; 20]%Q)
             0%nat 1%nat 350%Q 10%Q); [lia | reflexivity | reflexivity].
  - split; [simpl; lia|].
    apply (proj2 (proj2 (proj2
             (max_heading_difference_is_largest_pairwise [5%Q])))).
    simpl; lia.
Defined.

Lemma goto_prev_wp_cases_witness :
  mission_current (autopilot_data Sample.mid_page)
  = Some (MISSION_CURRENT.mk 80)
  /\ 2 < 80
  /\ goto_prev_wp (H := Sample.env) Sample.mid_page
     = Return tt
         (set_trace (trace Sample.mid_page ++ [EvWaypointSetCurrentSend (80 - 1)])
            Sample.mid_page)
  /\ (let w := Sample.at_start_of_second_page in
      mission_current (autopilot_data w) = Some (MISSION_CURRENT.mk 1)
      /\ 1 <= 2
      /\ prior_waypoints_to_load w = true
      /\ exists after,
           goto_prev_wp (H := Sample.env) w = Return tt after
           /\ events_since w (goto_prev_wp (H := Sample.env) w)
              = jump_events (flight_mode_is_auto w)
                  (page_load_events (H := Sample.env) (prior_page_of w)
                     (waypoints_in_mission w)
                     (prior_start_of w) (prior_end_of w))
                  (prior_return_of w)
           /\ paging_state after
              = paging_state
                  (world_of (load_prior_round_of_waypoints (H := Sample.env) w))).
Proof.
  split; [reflexivity|]. split; [lia|].
  split.
  - exact (proj1 (goto_prev_wp_cases (H := Sample.env) Sample.mid_page
                    (MISSION_CURRENT.mk 80) eq_refl) eq_refl).
  - cbv zeta.
    assert (Hprior : prior_waypoints_to_load Sample.at_start_of_second_page
                     = true) by (vm_compute; reflexivity).
    split; [reflexivity|]. split; [lia|]. split; [exact Hprior|].
    exact (proj2 (proj2 (goto_prev_wp_cases (H := Sample.env)
                           Sample.at_start_of_second_page
                           (MISSION_CURRENT.mk 1) eq_refl))
             ltac:(vm_compute; discriminate) Hprior).
Defined.

Lemma goto_wp_minus_50_cases_witness :
  mission_current (autopilot_data Sample.mid_page)
  = Some (MISSION_CURRENT.mk 80)
  /\ 51 < 80
  /\ goto_wp_minus_50 (H := Sample.env) Sample.mid_page
     = Return tt
         (set_trace (trace Sample.mid_page ++ [EvWaypointSetCurrentSend (80 - 50)])
            Sample.mid_page)
  /\ (let w := Sample.at_start_of_second_page in
      mission_current (autopilot_data w) = Some (MISSION_CURRENT.mk 1)
      /\ exists target,
           1 <= target
           /\ filter is_goto (events_since w (goto_wp_minus_50 (H := Sample.env) w))
              = [EvWaypointSetCurrentSend target]).
Proof.
  split; [reflexivity|]. split; [lia|].
  split.
  - exact (proj1 (goto_wp_minus_50_cases (H := Sample.env) Sample.mid_page
                    (MISSION_CURRENT.mk 80) eq_refl) eq_refl).
  - cbv zeta. split; [reflexivity|].
    exact (proj2 (proj2 (proj2 (goto_wp_minus_50_cases (H := Sample.env)
                                  Sample.at_start_of_second_page
                                  (MISSION_CURRENT.mk 1) eq_refl)))).
Defined.

Lemma flight_mode_string_witness :
  heartbeat (autopilot_data (initial_world 0)) = None
  /\ get_flight_mode_as_string (initial_world 0) = None
  /\ get_flight_mode Sample.mid_page = AutopilotMode.MODE_AUTO
  /\ get_flight_mode_as_string Sample.mid_page = Some "auto"%string.
Proof.
  assert (Hnone : heartbeat (autopilot_data (initial_world 0)) = None)
    by reflexivity.
  assert (Hauto : get_flight_mode Sample.mid_page = AutopilotMode.MODE_AUTO)
    by reflexivity.
  split; [exact Hnone|].
  split.
  - exact (proj2 (proj2 (proj2 (proj2 (proj2 (proj2
             (flight_mode_string_names_the_mode (initial_world 0)))))))
             Hnone).
  - split; [exact Hauto|].
    exact (proj2 (proj1 (proj2
             (flight_mode_string_names_the_mode Sample.mid_page))) Hauto).
Defined.

Lemma next_then_prior_witness :
  101 <= PyList.len (Sample.waypoints 120)
  /\ exists after,
       load_prior_round_of_waypoints (H := Sample.env)
         (Sample.paged 120 1)
       = Return 100 after
       /\ waypoints_in_autopilot after
          = waypoints_in_autopilot (Sample.loaded 120).
Proof.
  assert (Hlen : 101 <= PyList.len (Sample.waypoints 120))
    by (vm_compute; discriminate).
  split; [exact Hlen|].
  destruct (next_then_prior_restores_first_page (H := Sample.env)
              (Sample.waypoints 120) (initial_world 0) Hlen)
    as (after & Hrun & Hpage & _).
  exists after. split; [exact Hrun | exact Hpage].
Defined.

Lemma gyration_reset_witness :
  commands
    (events_since (Sample.under_way 100)
       (gyrating_check_turn (H := Sample.env) [30; 10; 30; 10]%Q
          (Sample.under_way 100))) <> []
  /\ cooldown_elapsed
       (world_of (gyrating_check_turn (H := Sample.env) [30; 10; 30; 10]%Q
                    (Sample.under_way 100))) = false.
Proof.
  assert (Hsent : commands
            (events_since (Sample.under_way 100)
               (gyrating_check_turn (H := Sample.env) [30; 10; 30; 10]%Q
                  (Sample.under_way 100))) <> [])
    by (vm_compute; discriminate).
  split; [exact Hsent|].
  exact (proj1 (proj2 (gyration_reset_starts_the_cooldown (H := Sample.env)
                         [30; 10; 30; 10]%Q [] (Sample.under_way 100) Hsent))).
Defined.

Lemma gyration_buffer_witness :
  (List.length [30; 10]%Q <= 5)%nat
  /\ exists headings after,
       gyrating_check_turn (H := Sample.env) [30; 10]%Q (Sample.under_way 100)
       = Return headings after
       /\ (List.length headings <= 5)%nat.
Proof.
  assert (Hlen : (List.length [30; 10]%Q <= 5)%nat) by (simpl; lia).
  split; [exact Hlen|].
  destruct (gyration_buffer_holds_the_latest_five (H := Sample.env)
              [30; 10]%Q (Sample.under_way 100))
    as (headings & after & Hrun & _ & Hbound).
  exists headings, after. split; [exact Hrun | exact (Hbound Hlen)].
Defined.

Lemma navigation_on_the_last_page_witness :
  let w := Sample.at_last_point in
  mission_current (autopilot_data w) = Some (MISSION_CURRENT.mk 3)
  /\ more_waypoints_to_load w = false
  /\ end_waypoint_number_of_waypoints_in_autopilot w = 3
  /\ goto_next_wp (H := Sample.env) w
     = Return tt (set_trace (trace w ++ [EvWaypointSetCurrentSend (3 + 1)]) w)
  /\ goto_wp_plus_50 (H := Sample.env) w = Return tt w.
Proof.
  cbv zeta.
  assert (Hmore : more_waypoints_to_load Sample.at_last_point = false)
    by (vm_compute; reflexivity).
  assert (Hend : end_waypoint_number_of_waypoints_in_autopilot
                   Sample.at_last_point = 3) by (vm_compute; reflexivity).
  split; [reflexivity|]. split; [exact Hmore|]. split; [exact Hend|].
  pose proof (navigation_on_the_last_page (H := Sample.env)
                Sample.at_last_point (MISSION_CURRENT.mk 3) eq_refl Hmore)
    as (Hnext & Hplus & _).
  split; [exact Hnext|]. apply Hplus. rewrite Hend. reflexivity.
Defined.

Lemma convert_joystick_to_pwm_witness :
  (-100 <= 50 <= 100)%Q
  /\ (1000 <= convert_joystick_to_pwm 50 <= 2000)%Z
  /\ (-30 <= 50)%Q
  /\ (convert_joystick_to_pwm (-30) <= convert_joystick_to_pwm 50)%Z.
Proof.
  assert (Hin : (-100 <= 50 <= 100)%Q) by (split; discriminate).
  assert (Hle : (-30 <= 50)%Q) by discriminate.
  split; [exact Hin|].
  split; [exact (proj1 (convert_joystick_to_pwm_range 50 50) Hin)|].
  split; [exact Hle|].
  exact (proj1 (proj2 (convert_joystick_to_pwm_range (-30) 50)) Hle).
Defined.

Lemma convert_joystick_to_pwm_dynamic_witness :
  (1100 <= 1500 <= 1900)%Z
  /\ (1100 <= convert_joystick_to_pwm_dynamic (-37) 1100 1500 1900 <= 1900)%Z
  /\ convert_joystick_to_pwm_dynamic 250 1100 1500 1900 = 1900%Z.
Proof.
  assert (Hord : (1100 <= 1500 <= 1900)%Z) by lia.
  split; [exact Hord|].
  split.
  - exact (proj1 (convert_joystick_to_pwm_dynamic_range (-37) 1100 1500 1900 Hord)).
  - apply (proj2 (proj2 (proj2 (proj2
             (convert_joystick_to_pwm_dynamic_range 250 1100 1500 1900 Hord))))).
    discriminate.
Defined.

Lemma set_rc_channel_pwm_witness :
  1 <= 3 <= 18
  /\ (exists rc_channel_values,
         set_rc_channel_pwm 3 1700 = Some rc_channel_values
         /\ List.length rc_channel_values = 18%nat
         /\ PyList.index rc_channel_values (3 - 1) = Some 1700
         /\ forall i, 0 <= i < 18 -> i <> 3 - 1 ->
                      PyList.index rc_channel_values i = Some 65535)
  /\ (19 < 1 \/ 18 < 19)
  /\ set_rc_channel_pwm 19 1700 = None.
Proof.
  assert (Hin : 1 <= 3 <= 18) by lia.
  assert (Hout : 19 < 1 \/ 18 < 19) by (right; lia).
  split; [exact Hin|].
  split; [exact (proj1 (set_rc_channel_pwm_overrides_one_channel 3 1700) Hin)|].
  split; [exact Hout|].
  exact (proj2 (set_rc_channel_pwm_overrides_one_channel 19 1700) Hout).
Defined.

Lemma joystick_sends_two_overrides_witness :
  (-1 <= 1 # 2 <= 1)%Q
  /\ (-1 <= -1 <= 1)%Q
  /\ exists one three,
       calculate_channel_one_and_three_from_x_y (1 # 2) (-1) = (one, three)
       /\ 1000 <= one <= 2000 /\ 1000 <= three <= 2000
       /\ set_rc_channels_from_joystick (1 # 2) (-1)
          = [Some (one :: repeat 65535 17);
             Some (65535 :: 65535 :: three :: repeat 65535 15)].
Proof.
  assert (Hx : (-1 <= 1 # 2 <= 1)%Q) by (split; discriminate).
  assert (Hy : (-1 <= -1 <= 1)%Q) by (split; discriminate).
  split; [exact Hx|]. split; [exact Hy|].
  exact (joystick_sends_two_overrides_in_range (1 # 2) (-1) Hx Hy).
Defined.

Lemma calculate_wheel_left_right_witness :
  (-1 <= 1 # 2 <= 1)%Q
  /\ (-1 <= -1 <= 1)%Q
  /\ let '(l, r) := calculate_wheel_left_right_from_x_y (1 # 2) (-1) in
     (-100 <= l <= 100 /\ -100 <= r <= 100)%Q.
Proof.
  assert (Hx : (-1 <= 1 # 2 <= 1)%Q) by (split; discriminate).
  assert (Hy : (-1 <= -1 <= 1)%Q) by (split; discriminate).
  split; [exact Hx|]. split; [exact Hy|].
  exact (calculate_wheel_left_right_range (1 # 2) (-1) Hx Hy).
Defined.

Lemma get_next_wp_witness :
  distance_data_available (initial_world 0) = false
  /\ get_next_wp (initial_world 0)
     = Return None (initial_world 0)
  /\ distance_data_available Sample.at_home = true
  /\ exists utm mc,
       global_position_int (autopilot_data Sample.at_home) = Some utm
       /\ mission_current (autopilot_data Sample.at_home) = Some mc
       /\ ((exists the_wp,
               get_next_wp Sample.at_home
               = Return (Some the_wp) Sample.at_home
               /\ get_wp_dist_in_meters (H := Sample.env) Sample.at_home
                  = Return (distance_to (H := Sample.env) utm the_wp)
                      Sample.at_home
               /\ (0 <= MISSION_CURRENT.seq mc ->
                   nth_error (waypoints_in_autopilot Sample.at_home)
                     (Z.to_nat (Z.max 1 (MISSION_CURRENT.seq mc)))
                   = Some the_wp))
           \/ (get_next_wp Sample.at_home
               = Raise IndexError Sample.at_home
               /\ get_wp_dist_in_meters (H := Sample.env) Sample.at_home
                  = Raise IndexError Sample.at_home)).
Proof.
  assert (Hnone : distance_data_available (initial_world 0) = false)
    by (vm_compute; reflexivity).
  assert (Hdata : distance_data_available Sample.at_home = true)
    by (vm_compute; reflexivity).
  split; [exact Hnone|].
  split.
  - exact (proj1 (proj1 (get_next_wp_is_the_distance_target (H := Sample.env)
                           (initial_world 0)) Hnone)).
  - split; [exact Hdata|].
    exact (proj2 (get_next_wp_is_the_distance_target (H := Sample.env)
                    Sample.at_home) Hdata).
Defined.

Lemma last_10_positions_window_witness :
  (List.length (repeat (0, 0)%Q 3) < 10)%nat
  /\ (exists last_10_positions,
         recorded (repeat (0, 0)%Q 3) = Some last_10_positions
         /\ total_distance_between_last_10_positions_in_meters (H := Sample.env)
              last_10_positions
            = Some (-1)%Q)
  /\ (10 <= List.length (repeat (0, 0)%Q 12))%nat
  /\ exists last_10_positions distance,
       recorded (repeat (0, 0)%Q 12) = Some last_10_positions
       /\ total_distance_between_last_10_positions_in_meters (H := Sample.env)
            last_10_positions
          = Some distance
       /\ (distance
           == path_length (H := Sample.env)
                (skipn (List.length (repeat (0, 0)%Q 12) - 10)
                   (repeat (0, 0)%Q 12)))%Q.
Proof.
  assert (Hshort : (List.length (repeat (0, 0)%Q 3) < 10)%nat)
    by (simpl; lia).
  assert (Hfull : (10 <= List.length (repeat (0, 0)%Q 12))%nat)
    by (simpl; lia).
  split; [exact Hshort|].
  split.
  - destruct (last_10_positions_window (H := Sample.env) (repeat (0, 0)%Q 3))
      as (buffer & Hrec & _ & Hsentinel & _).
    exists buffer. split; [exact Hrec | exact (Hsentinel Hshort)].
  - split; [exact Hfull|].
    destruct (last_10_positions_window (H := Sample.env) (repeat (0, 0)%Q 12))
      as (buffer & Hrec & _ & _ & Hsum).
    destruct (Hsum Hfull) as (distance & Hrun & Hdistance).
    exists buffer, distance.
    split; [exact Hrec|]. split; [exact Hrun | exact Hdistance].
Defined.

Lemma mission_finished_turn_witness :
  (let w := Sample.at_mission_end in
   get_flight_mode w = AutopilotMode.MODE_AUTO
   /\ mission_current (autopilot_data w) = Some (MISSION_CURRENT.mk 3)
   /\ 3 = end_waypoint_number_of_waypoints_in_autopilot w
   /\ 1 < 3
   /\ get_wp_dist_in_meters (H := Sample.env) w = Return (-1)%Q w
   /\ (-1 < 1)%Q
   /\ more_waypoints_to_load w = false
   /\ exists after,
        mission_finished_turn (H := Sample.env) w = Return tt after
        /\ events_since w (mission_finished_turn (H := Sample.env) w)
           = hold_events
             ++ cleanup_events (H := Sample.env) (waypoints_in_mission w)
        /\ paging_state after
           = (mission_with_home (H := Sample.env) (waypoints_in_mission w),
              first_page
                (mission_with_home (H := Sample.env) (waypoints_in_mission w)),
              1, Constants.WAYPOINT_LOAD_COUNT_INITIAL))
  /\ (let w := Sample.at_page_end_no_position in
      get_flight_mode w = AutopilotMode.MODE_AUTO
      /\ mission_current (autopilot_data w) = Some (MISSION_CURRENT.mk 100)
      /\ 100 = end_waypoint_number_of_waypoints_in_autopilot w
      /\ 1 < 100
      /\ get_wp_dist_in_meters (H := Sample.env) w = Return (-1)%Q w
      /\ (-1 < 1)%Q
      /\ more_waypoints_to_load w = true
      /\ 0 <= last_autopilot_loaded_waypoint_number_end w
      /\ exists loaded next after,
           load_next_round_of_waypoints (H := Sample.env) w
           = Return loaded next
           /\ mission_finished_turn (H := Sample.env) w = Return tt after
           /\ (loaded = true ->
               events_since w (mission_finished_turn (H := Sample.env) w)
               = jump_events true
                   (events_since w
                      (load_next_round_of_waypoints (H := Sample.env) w)) 2
               /\ paging_state after = paging_state next)).
Proof.
  split; cbv zeta.
  - assert (Hauto : get_flight_mode Sample.at_mission_end
                    = AutopilotMode.MODE_AUTO) by reflexivity.
    assert (Hlast : 3 = end_waypoint_number_of_waypoints_in_autopilot
                          Sample.at_mission_end) by (vm_compute; reflexivity).
    assert (Hpos : 1 < 3) by lia.
    assert (Hdist : get_wp_dist_in_meters (H := Sample.env) Sample.at_mission_end
                    = Return (-1)%Q Sample.at_mission_end)
      by (vm_compute; reflexivity).
    assert (Hnear : (-1 < 1)%Q) by reflexivity.
    assert (Hmore : more_waypoints_to_load Sample.at_mission_end = false)
      by (vm_compute; reflexivity).
    split; [exact Hauto|]. split; [reflexivity|]. split; [exact Hlast|].
    split; [exact Hpos|]. split; [exact Hdist|]. split; [exact Hnear|].
    split; [exact Hmore|].
    exact (proj1 (mission_finished_turn_at_page_end (H := Sample.env)
                    Sample.at_mission_end (MISSION_CURRENT.mk 3) (-1)%Q
                    Hauto eq_refl Hlast Hpos Hdist Hnear) Hmore).
  - assert (Hauto : get_flight_mode Sample.at_page_end_no_position
                    = AutopilotMode.MODE_AUTO) by reflexivity.
    assert (Hlast : 100 = end_waypoint_number_of_waypoints_in_autopilot
                            Sample.at_page_end_no_position)
      by (vm_compute; reflexivity).
    assert (Hpos : 1 < 100) by lia.
    assert (Hdist : get_wp_dist_in_meters (H := Sample.env)
                      Sample.at_page_end_no_position
                    = Return (-1)%Q Sample.at_page_end_no_position)
      by (vm_compute; reflexivity).
    assert (Hnear : (-1 < 1)%Q) by reflexivity.
    assert (Hmore : more_waypoints_to_load Sample.at_page_end_no_position = true)
      by (vm_compute; reflexivity).
    assert (Hend : 0 <= last_autopilot_loaded_waypoint_number_end
                          Sample.at_page_end_no_position)
      by (vm_compute; discriminate).
    split; [exact Hauto|]. split; [reflexivity|]. split; [exact Hlast|].
    split; [exact Hpos|]. split; [exact Hdist|]. split; [exact Hnear|].
    split; [exact Hmore|]. split; [exact Hend|].
    destruct (proj2 (mission_finished_turn_at_page_end (H := Sample.env)
                       Sample.at_page_end_no_position (MISSION_CURRENT.mk 100)
                       (-1)%Q Hauto eq_refl Hlast Hpos Hdist Hnear) Hmore Hend)
      as (loaded & next & after & Hnext & Hrun & Hloaded & _).
    exists loaded, next, after.
    split; [exact Hnext|]. split; [exact Hrun | exact Hloaded].
Defined.

Lemma mission_finished_turn_waits_witness :
  at_end_of_page (H := Sample.env) Sample.mid_page = false
  /\ exists after,
       mission_finished_turn (H := Sample.env) Sample.mid_page = Return tt after
       /\ commands
            (events_since Sample.mid_page
               (mission_finished_turn (H := Sample.env) Sample.mid_page)) = []
       /\ count_events is_page_load
            (events_since Sample.mid_page
               (mission_finished_turn (H := Sample.env) Sample.mid_page))
          = 0%nat
       /\ paging_state after = paging_state Sample.mid_page.
Proof.
  assert (Hgate : at_end_of_page (H := Sample.env) Sample.mid_page = false)
    by (vm_compute; reflexivity).
  split; [exact Hgate|].
  exact (mission_finished_turn_waits (H := Sample.env) Sample.mid_page Hgate).
Defined.

Lemma no_progress_monitor_witness :
  (List.length [Sample.under_way 100; Sample.under_way 102] <= 9)%nat
  /\ quiet_turns (H := Sample.env) no_progress_reset
       [Sample.under_way 100; Sample.under_way 102].
Proof.
  assert (Hlen : (List.length [Sample.under_way 100; Sample.under_way 102]
                  <= 9)%nat) by (simpl; lia).
  split; [exact Hlen|].
  exact (proj2 (no_progress_monitor_rests_after_a_reset (H := Sample.env))
           _ Hlen).
Defined.

Lemma navigation_message_witness :
  let message := mk_meta_message goto_next_wp_message 5 in
  (message_time message <= message_time message)%Q
  /\ exists last_time' after,
       process_meta_message (H := Sample.env) message (fun _ => (-1)%Q)
         Sample.mid_page
       = Return last_time' after
       /\ process_meta_message (H := Sample.env) message last_time' after
          = Return last_time' after.
Proof.
  cbv zeta.
  assert (Hle : (message_time (mk_meta_message goto_next_wp_message 5)
                 <= message_time (mk_meta_message goto_next_wp_message 5))%Q)
    by apply Qle_refl.
  split; [exact Hle|].
  destruct (navigation_message_is_processed_once (H := Sample.env)
              (mk_meta_message goto_next_wp_message 5) (fun _ => (-1)%Q)
              Sample.mid_page)
    as (last_time' & after & Hrun & _ & _ & Hreplay).
  exists last_time', after.
  split; [exact Hrun | exact (Hreplay _ eq_refl Hle)].
Defined.
